(** * Duty-roster ingestion pipeline of the PharmAnio backend

    A shallow embedding of [scraper.py], [database.py] and the expiry
    controller of [main.py], followed by the properties of the pipeline.

    Conventions of the embedding.
    - Text is ASCII: a Python [str] is a Rocq [string]; [str.lower],
      [str.upper], [str.strip] and the regular-expression classes [\d] and
      [\s] are the ASCII restrictions of the Python ones.
    - An SQLite INTEGER is a [Z]; a table is the list of its rows in rowid
      order; the JSON text of the [pharmacy_ids] column is the list of
      integers it encodes.
    - [CURRENT_TIMESTAMP] and [date.today()] are inputs of the functions
      that read them.
    - [SequenceMatcher.ratio] is the exact rational 2*M/T: on names shorter
      than 10^7 characters two such rationals differ by more than one unit in
      the last place of a double, so the orderings below agree with the
      orderings of the doubles Python computes.
    - [strftime] is the one of CPython before version 3.13 on glibc, which
      writes a year below 1000 without leading zeros (see
      [PyDate.strftime_Ymd]). *)

From Stdlib Require Import ZArith QArith List String Ascii Bool Arith Lia.
From Stdlib Require Import Permutation Sorted.
Import ListNotations.

Local Close Scope Q_scope.
Local Open Scope string_scope.
Local Open Scope list_scope.

(** ** Python text primitives *)

Module PyStr.

Definition code (c : ascii) : nat := nat_of_ascii c.

Definition between (lo hi n : nat) : bool := (lo <=? n)%nat && (n <=? hi)%nat.

(** [str.isspace] on the ASCII range: TAB..CR, FS..US and the blank. *)
Definition is_space (c : ascii) : bool :=
  between 9 13 (code c) || between 28 32 (code c).

Definition is_digit (c : ascii) : bool := between 48 57 (code c).

(** [str.isascii] *)
Fixpoint isascii (s : string) : bool :=
  match s with
  | EmptyString => true
  | String c r => (code c <? 128)%nat && isascii r
  end.

Definition lower_char (c : ascii) : ascii :=
  if between 65 90 (code c) then ascii_of_nat (code c + 32) else c.

Definition upper_char (c : ascii) : ascii :=
  if between 97 122 (code c) then ascii_of_nat (code c - 32) else c.

Fixpoint map_chars (f : ascii -> ascii) (s : string) : string :=
  match s with
  | EmptyString => EmptyString
  | String c r => String (f c) (map_chars f r)
  end.

(** [str.lower] and [str.upper] on ASCII text ([isascii]).  On other text
    Python follows the case mappings of Unicode, which these definitions do
    not: a statement that needs a law of case conversion, and not only the
    functions, asks for ASCII text. *)
Definition lower : string -> string := map_chars lower_char.
Definition upper : string -> string := map_chars upper_char.

Fixpoint lstrip (s : string) : string :=
  match s with
  | EmptyString => EmptyString
  | String c r => if is_space c then lstrip r else s
  end.

Fixpoint rstrip (s : string) : string :=
  match s with
  | EmptyString => EmptyString
  | String c r =>
      match rstrip r with
      | EmptyString => if is_space c then EmptyString else String c EmptyString
      | r' => String c r'
      end
  end.

Definition strip (s : string) : string := rstrip (lstrip s).

(** [sep in s] *)
Fixpoint contains (sep s : string) : bool :=
  if prefix sep s then true
  else match s with
       | EmptyString => false
       | String _ r => contains sep r
       end.

(** [s.split(sep)[0]]: the text before the first [sep], all of [s] when
    [sep] does not occur. *)
Fixpoint split_head (sep s : string) : string :=
  if prefix sep s then EmptyString
  else match s with
       | EmptyString => EmptyString
       | String c r => String c (split_head sep r)
       end.

(** [s.split('\n')] *)
Fixpoint split_lines (s : string) : list string :=
  match s with
  | EmptyString => [EmptyString]
  | String c r =>
      if Ascii.eqb c "010"%char then EmptyString :: split_lines r
      else match split_lines r with
           | [] => [String c EmptyString]
           | l :: ls => String c l :: ls
           end
  end.

(** Truth value of a [str]: only the empty string is false. *)
Definition truthy (s : string) : bool :=
  match s with EmptyString => false | _ => true end.

(** Truth value of an [Optional[str]]. *)
Definition truthy_opt (o : option string) : bool :=
  match o with None => false | Some s => truthy s end.

Definition digit_char (n : Z) : ascii := ascii_of_nat (48 + Z.to_nat (n mod 10)).

Definition digit_val (c : ascii) : Z := Z.of_nat (code c - 48).

(** Zero-padded decimals of width two and four. *)
Definition pad2 (n : Z) : string :=
  String (digit_char (n / 10)) (String (digit_char n) EmptyString).

Definition pad4 (n : Z) : string :=
  String (digit_char (n / 1000)) (String (digit_char (n / 100)) (pad2 n)).

End PyStr.

(** ** [difflib.SequenceMatcher(None, a, b).ratio()] *)

Module Difflib.

Section Matcher.
Variables a b : list ascii.

Definition count (c : ascii) : nat :=
  List.length (filter (Ascii.eqb c) b).

(** [autojunk]: when [b] has at least 200 elements, those occurring more
    than [len(b) // 100 + 1] times are dropped from the index [b2j]. *)
Definition popular (c : ascii) : bool :=
  (200 <=? List.length b)%nat && (List.length b / 100 + 1 <? count c)%nat.

(** A block [(besti, bestj, bestsize)]. *)
Definition block : Type := nat * nat * nat.
Definition bsize (m : block) : nat := snd m.

Section Window.
Variables alo ahi blo bhi : nat.

(** One pass of the inner loop for [a[i] = x]: [prev] is the previous
    [j2len] shifted by one, so that its head is [j2len.get(j-1, 0)];
    an entry [0] stands for an absent key. *)
Fixpoint scan_row (x : ascii) (i j : nat) (bs : list ascii)
         (prev : list nat) (best : block) : list nat * block :=
  match bs with
  | [] => ([], best)
  | y :: bs' =>
      if (blo <=? j)%nat && (j <? bhi)%nat && Ascii.eqb x y && negb (popular y)
      then
        let k := S (hd 0%nat prev) in
        let best' := if (bsize best <? k)%nat
                     then (i + 1 - k, j + 1 - k, k)%nat else best in
        let (row, best'') := scan_row x i (S j) bs' (tl prev) best' in
        (k :: row, best'')
      else
        let (row, best'') := scan_row x i (S j) bs' (tl prev) best in
        (0%nat :: row, best'')
  end.

(** [for i in range(alo, ahi)] *)
Fixpoint scan_rows (i : nat) (xs : list ascii) (j2len : list nat)
         (best : block) : block :=
  match xs with
  | [] => best
  | x :: xs' =>
      if (i <? alo)%nat then scan_rows (S i) xs' j2len best
      else if (ahi <=? i)%nat then best
      else
        let (row, best') := scan_row x i 0%nat b (0%nat :: j2len) best in
        scan_rows (S i) xs' row best'
  end.

Definition at_a (i : nat) : ascii := nth i a "000"%char.
Definition at_b (j : nat) : ascii := nth j b "000"%char.

(** First [while]: grow the block to the left; at most [besti] rounds. *)
Fixpoint extend_left (fuel : nat) (m : block) : block :=
  match fuel with
  | O => m
  | S fuel' =>
      let '(besti, bestj, bestsize) := m in
      if (alo <? besti)%nat && (blo <? bestj)%nat
         && Ascii.eqb (at_a (besti - 1)) (at_b (bestj - 1))
      then extend_left fuel' (besti - 1, bestj - 1, S bestsize)%nat
      else m
  end.

(** Second [while]: grow it to the right; at most [ahi] rounds. *)
Fixpoint extend_right (fuel : nat) (m : block) : block :=
  match fuel with
  | O => m
  | S fuel' =>
      let '(besti, bestj, bestsize) := m in
      if (besti + bestsize <? ahi)%nat && (bestj + bestsize <? bhi)%nat
         && Ascii.eqb (at_a (besti + bestsize)) (at_b (bestj + bestsize))
      then extend_right fuel' (besti, bestj, S bestsize)
      else m
  end.

(** [find_longest_match(alo, ahi, blo, bhi)] with [isjunk = None]: the
    two loops over junk never run. *)
Definition find_longest_match : block :=
  let m := scan_rows 0%nat a [] (alo, blo, 0%nat) in
  let m := extend_left (fst (fst m)) m in
  extend_right ahi m.
End Window.

(** Total size of the blocks of [get_matching_blocks], whose work queue
    is unfolded as a recursion; each window is strictly inside the one it
    comes from. *)
Fixpoint matches (fuel alo ahi blo bhi : nat) : nat :=
  match fuel with
  | O => 0%nat
  | S fuel' =>
      let '(i, j, k) := find_longest_match alo ahi blo bhi in
      if (k =? 0)%nat then 0%nat
      else
        (k
         + (if (alo <? i)%nat && (blo <? j)%nat
            then matches fuel' alo i blo j else 0)
         + (if (i + k <? ahi)%nat && (j + k <? bhi)%nat
            then matches fuel' (i + k) ahi (j + k) bhi else 0))%nat
  end.

Definition total_matches : nat :=
  matches (S (List.length a)) 0 (List.length a) 0 (List.length b).

(** [_calculate_ratio(matches, len(a) + len(b))] *)
Definition calculate_ratio (m length : nat) : Q :=
  match length with
  | O => 1%Q
  | _ => Qmake (2 * Z.of_nat m) (Pos.of_nat length)
  end.

Definition sequence_ratio : Q :=
  calculate_ratio total_matches (List.length a + List.length b).
End Matcher.

Definition ratio (s t : string) : Q :=
  sequence_ratio (list_ascii_of_string s) (list_ascii_of_string t).

End Difflib.

(** ** [datetime]: calendar dates, [strptime] and [strftime] *)

Module PyDate.
Import PyStr.
Local Open Scope Z_scope.

Record date : Type := mk_date { year : Z; month : Z; day : Z }.

Definition is_leap (y : Z) : bool :=
  (y mod 4 =? 0) && (negb (y mod 100 =? 0) || (y mod 400 =? 0)).

Definition days_in_month (y m : Z) : Z :=
  if m =? 2 then (if is_leap y then 29 else 28)
  else if (m =? 4) || (m =? 6) || (m =? 9) || (m =? 11) then 30
  else 31.

(** The check of the [date] constructor ([MINYEAR = 1], [MAXYEAR = 9999]). *)
Definition valid_date (y m d : Z) : bool :=
  (1 <=? y) && (y <=? 9999) && (1 <=? m) && (m <=? 12)
  && (1 <=? d) && (d <=? days_in_month y m).

Definition make_date (y m d : Z) : option date :=
  if valid_date y m d then Some (mk_date y m d) else None.

(** [d1 < d2] and [d1 > d2] on dates: lexicographic on year, month, day. *)
Definition date_ltb (d1 d2 : date) : bool :=
  (year d1 <? year d2)
  || ((year d1 =? year d2)
      && ((month d1 <? month d2)
          || ((month d1 =? month d2) && (day d1 <? day d2)))).

Definition date_gtb (d1 d2 : date) : bool := date_ltb d2 d1.
Definition date_leb (d1 d2 : date) : bool := negb (date_ltb d2 d1).

(** A format directive is a backtracking matcher: the values it can read
    at the head of the text, each with the text left, in the order in which
    the alternatives of its regular expression are tried. *)
Definition directive : Type := string -> list (Z * string).

Definition two (p q : ascii -> bool) (s : string) : list (Z * string) :=
  match s with
  | String c1 (String c2 r) =>
      if p c1 && q c2 then [(10 * digit_val c1 + digit_val c2, r)] else []
  | _ => []
  end.

Definition one (p : ascii -> bool) (s : string) : list (Z * string) :=
  match s with
  | String c r => if p c then [(digit_val c, r)] else []
  | _ => []
  end.

Definition is_char (lo hi : nat) (c : ascii) : bool := between lo hi (code c).
Definition blank (c : ascii) : bool := Ascii.eqb c " "%char.

(** [%d]: [3[0-1]|[1-2]\d|0[1-9]|[1-9]| [1-9]] *)
Definition dir_d : directive := fun s =>
  two (is_char 51 51) (is_char 48 49) s
  ++ two (is_char 49 50) is_digit s
  ++ two (is_char 48 48) (is_char 49 57) s
  ++ one (is_char 49 57) s
  ++ match s with
     | String c r => if blank c then one (is_char 49 57) r else []
     | _ => []
     end.

(** [%m]: [1[0-2]|0[1-9]|[1-9]] *)
Definition dir_m : directive := fun s =>
  two (is_char 49 49) (is_char 48 50) s
  ++ two (is_char 48 48) (is_char 49 57) s
  ++ one (is_char 49 57) s.

(** [%Y]: [\d\d\d\d] *)
Definition dir_Y : directive := fun s =>
  match s with
  | String c1 (String c2 (String c3 (String c4 r))) =>
      if is_digit c1 && is_digit c2 && is_digit c3 && is_digit c4
      then [(1000 * digit_val c1 + 100 * digit_val c2
             + 10 * digit_val c3 + digit_val c4, r)]
      else []
  | _ => []
  end.

(** A literal character of the format. *)
Definition lit (c : ascii) (s : string) : list string :=
  match s with
  | String c' r => if Ascii.eqb c c' then [r] else []
  | _ => []
  end.

(** A directive followed by a literal of the format. *)
Definition then_lit (p : directive) (sep : ascii) : directive := fun s =>
  flat_map (fun '(v, r) => map (pair v) (lit sep r)) (p s).

(** The matches of [p1 sep p2 sep p3] at the head of [s], in backtracking
    order: the three values and the text left. *)
Definition three (p1 p2 p3 : directive) (sep : ascii) (s : string)
  : list (Z * Z * Z * string) :=
  flat_map (fun '(v1, r1) =>
    flat_map (fun '(v2, r2) =>
      map (fun '(v3, r3) => (v1, v2, v3, r3)) (p3 r2))
      (then_lit p2 sep r1))
    (then_lit p1 sep s).

(** [_strptime]: the first match of the compiled format is taken, and
    text left after it is an error, like a value out of range. *)
Definition strptime_with (p1 p2 p3 : directive) (sep : ascii)
           (build : Z -> Z -> Z -> option date) (s : string) : option date :=
  match three p1 p2 p3 sep s with
  | (v1, v2, v3, EmptyString) :: _ => build v1 v2 v3
  | _ => None
  end.

(** [datetime.strptime(s, '%d/%m/%Y')], [None] for [ValueError]. *)
Definition strptime_dmY : string -> option date :=
  strptime_with dir_d dir_m dir_Y "/"%char (fun d m y => make_date y m d).

(** [datetime.strptime(s, "%Y-%m-%d").date()], [None] for [ValueError]. *)
Definition strptime_Ymd : string -> option date :=
  strptime_with dir_Y dir_m dir_d "-"%char (fun y m d => make_date y m d).

(** [%Y] of [strftime], for the years 1 to 9999 of a [datetime].  CPython
    before version 3.13 hands the directive to the C library, and glibc
    writes the year as a decimal number without padding: 999 is written
    [999].  Years from 1000 on are written with their four digits there and
    everywhere else. *)
Definition year_text (y : Z) : string :=
  if y <? 10 then String (digit_char y) EmptyString
  else if y <? 100 then pad2 y
  else if y <? 1000 then String (digit_char (y / 100)) (pad2 y)
  else pad4 y.

(** [strftime('%Y-%m-%d')] *)
Definition strftime_Ymd (d : date) : string :=
  year_text (year d) ++ "-" ++ pad2 (month d) ++ "-" ++ pad2 (day d).

End PyDate.

(** ** The page as BeautifulSoup presents it *)

Module Soup.

Set Warnings "-register-all".

(** A node of the parsed document: a text run, or a tag with its name,
    its [id] attribute, its classes and its contents. *)
Inductive node : Type :=
| NavigableString (text : string)
| Tag (name : string) (id : option string) (classes : list string)
      (contents : list node).

(** [node.descendants]: every node below, in document order. *)
Fixpoint descendants (n : node) : list node :=
  match n with
  | NavigableString _ => []
  | Tag _ _ _ cs =>
      (fix below (l : list node) : list node :=
         match l with
         | [] => []
         | c :: r => c :: descendants c ++ below r
         end) cs
  end.

Definition has_name (nm : string) (n : node) : bool :=
  match n with
  | NavigableString _ => false
  | Tag nm' _ _ _ => String.eqb nm nm'
  end.

Definition has_class (cl : string) (n : node) : bool :=
  match n with
  | NavigableString _ => false
  | Tag _ _ cls _ => existsb (String.eqb cl) cls
  end.

Definition has_id (i : string) (n : node) : bool :=
  match n with
  | Tag _ (Some i') _ _ => String.eqb i i'
  | _ => false
  end.

(** [n.find_all(nm)] and [n.find(nm)] *)
Definition find_all (nm : string) (n : node) : list node :=
  filter (has_name nm) (descendants n).

Definition find_where (p : node -> bool) (n : node) : option node :=
  List.find p (descendants n).

Definition find (nm : string) : node -> option node := find_where (has_name nm).

(** The text runs of a node, itself included. *)
Definition strings (n : node) : list string :=
  flat_map (fun d => match d with NavigableString s => [s] | Tag _ _ _ _ => [] end)
           (n :: descendants n).

(** [n.text] *)
Definition text (n : node) : string := String.concat "" (strings n).

(** [n.get_text(separator=sep)] *)
Definition get_text (sep : string) (n : node) : string :=
  String.concat sep (strings n).

End Soup.

(** ** [database.py]: the tables *)

Module Database.
Local Open Scope Z_scope.

Definition timestamp : Type := Z.

(** A row of [cities]. *)
Record city_row : Type := mk_city { c_id : Z; c_name : string }.

(** A row of [pharmacies]; the pipeline reads [id], [city_id] and [name]. *)
Record pharmacy_row : Type :=
  mk_pharmacy { p_id : Z; p_city_id : Z; p_name : string }.

(** A row of [on_duty_pharmacies]. *)
Record on_duty_row : Type := mk_on_duty {
  od_id : Z;
  start_date : string;
  end_date : string;
  pharmacy_ids : list Z;
  created_at : timestamp;
  updated_at : timestamp
}.

(** The database file: the three tables and the AUTOINCREMENT counter that
    [sqlite_sequence] keeps for [on_duty_pharmacies]. *)
Record db : Type := mk_db {
  cities : list city_row;
  pharmacies : list pharmacy_row;
  on_duty_pharmacies : list on_duty_row;
  on_duty_seq : Z
}.

(** [init_db] on a fresh file. *)
Definition init_db : db := mk_db [] [] [] 0.

(** The first value of a column [ORDER BY id] and [ORDER BY id DESC]. *)
Definition least (l : list Z) : option Z :=
  match l with
  | [] => None
  | x :: xs => Some (fold_left Z.min xs x)
  end.

Definition greatest (l : list Z) : option Z :=
  match l with
  | [] => None
  | x :: xs => Some (fold_left Z.max xs x)
  end.

(** [SELECT id FROM on_duty_pharmacies ORDER BY id LIMIT 1] *)
Definition min_id (rows : list on_duty_row) : option Z :=
  least (map od_id rows).

Definition max_id (rows : list on_duty_row) : option Z :=
  greatest (map od_id rows).

(** The rowid AUTOINCREMENT gives to the next inserted row. *)
Definition next_id (d : db) : Z :=
  1 + match max_id (on_duty_pharmacies d) with
      | None => on_duty_seq d
      | Some m => Z.max m (on_duty_seq d)
      end.

Definition with_on_duty (d : db) (rows : list on_duty_row) (seq : Z) : db :=
  mk_db (cities d) (pharmacies d) rows seq.

End Database.

(** ** [scraper.py] *)

Module Scraper.
Import PyStr PyDate Soup Database.

(** [SIMILARITY_THRESHOLD = 0.4] *)
Definition SIMILARITY_THRESHOLD : Q := Qmake 4 10.

Definition CITY_MAPPING : list (string * string) :=
  [ ("TANA", "Antananarivo");
    ("ANTSIRABE", "Antsirabe");
    ("FIANARANTSOA", "Fianarantsoa");
    ("TAMATAVE", "Toamasina");
    ("DIEGO", "Antsiranana");
    ("TULEAR", "Toliara");
    ("MAJUNGA", "Mahajanga") ].

(** [dict.get(key, default)] *)
Fixpoint dict_get (m : list (string * string)) (key default : string) : string :=
  match m with
  | [] => default
  | (k, v) :: m' => if String.eqb key k then v else dict_get m' key default
  end.

Definition _map_city_name (scraped_city : string) : string :=
  dict_get CITY_MAPPING (upper scraped_city) scraped_city.

(** [SELECT p.id, p.name FROM pharmacies p JOIN cities c
     ON p.city_id = c.id WHERE c.name = ?] *)
Definition select_pharmacies (d : db) (db_city : string) : list (Z * string) :=
  flat_map (fun p =>
    flat_map (fun c =>
      if Z.eqb (p_city_id p) (c_id c) && String.eqb (c_name c) db_city
      then [(p_id p, p_name p)] else [])
      (cities d))
    (pharmacies d).

Definition Qgtb (x y : Q) : bool := negb (Qle_bool x y).

(** The similarity of a registry name to the scraped name. *)
Definition similarity (pharmacy_name db_name : string) : Q :=
  Difflib.ratio (lower pharmacy_name) (lower db_name).

(** One round of the loop over the candidates, on
    [(best_match, best_ratio)]. *)
Definition best_step (pharmacy_name : string) (st : option Z * Q)
           (row : Z * string) : option Z * Q :=
  let ratio := similarity pharmacy_name (snd row) in
  if Qgtb ratio (snd st) then (Some (fst row), ratio) else st.

Definition best_candidate (pharmacy_name : string) (rows : list (Z * string))
  : option Z * Q :=
  fold_left (best_step pharmacy_name) rows (None, 0%Q).

(** [_find_pharmacy_match], the acceptance threshold made a parameter. *)
Definition find_pharmacy_match_at (threshold : Q) (d : db)
           (pharmacy_name city : string) : option Z :=
  let db_city := _map_city_name city in
  let rows := select_pharmacies d db_city in
  match rows with
  | [] => None
  | _ =>
      let '(best_match, best_ratio) := best_candidate pharmacy_name rows in
      if Qgtb best_ratio threshold then best_match else None
  end.

Definition _find_pharmacy_match : db -> string -> string -> option Z :=
  find_pharmacy_match_at SIMILARITY_THRESHOLD.

(** [_update_on_duty_pharmacies] at clock reading [now]. *)
Definition _update_on_duty_pharmacies (now : timestamp)
           (start_date end_date : string) (pharmacy_ids : list Z) (d : db) : db :=
  match min_id (on_duty_pharmacies d) with
  | Some existing =>
      with_on_duty d
        (map (fun r =>
                if Z.eqb (od_id r) existing
                then mk_on_duty (od_id r) start_date end_date pharmacy_ids
                                (created_at r) now
                else r)
             (on_duty_pharmacies d))
        (on_duty_seq d)
  | None =>
      let id := next_id d in
      with_on_duty d
        (on_duty_pharmacies d
         ++ [mk_on_duty id start_date end_date pharmacy_ids now now])
        id
  end.

(** A scraped listing, the dictionary [_parse_pharmacy_row] returns. *)
Record listing : Type := mk_listing {
  name : string;
  address : string;
  city : string;
  contact_numbers : list string
}.

(** The body of the loop of [process_scraped_pharmacies], for a matcher
    [find_match]; an identifier [0] is false for [if pharmacy_id]. *)
Definition match_step_with (find_match : string -> string -> option Z)
           (matched_pharmacy_ids : list Z) (pharmacy : listing) : list Z :=
  if truthy (name pharmacy) && truthy (city pharmacy) then
    match find_match (name pharmacy) (city pharmacy) with
    | Some pharmacy_id =>
        if Z.eqb pharmacy_id 0 then matched_pharmacy_ids
        else matched_pharmacy_ids ++ [pharmacy_id]
    | None => matched_pharmacy_ids
    end
  else matched_pharmacy_ids.

Definition match_step (d : db) : list Z -> listing -> list Z :=
  match_step_with (_find_pharmacy_match d).

Definition matched_ids (d : db) (pharmacies : list listing) : list Z :=
  fold_left (match_step d) pharmacies [].

Definition process_scraped_pharmacies (now : timestamp)
           (pharmacies : list listing) (start_date end_date : option string)
           (d : db) : db :=
  let matched_pharmacy_ids := matched_ids d pharmacies in
  match start_date, end_date with
  | Some s, Some e =>
      if truthy s && truthy e
      then _update_on_duty_pharmacies now s e matched_pharmacy_ids d
      else d
  | _, _ => d
  end.

(** The pattern [(\d{2}/\d{2}/\d{4})\s+au\s+(\d{2}/\d{2}/\d{4})]. *)

(** [\d{2}/\d{2}/\d{4}] at the head of [s]: the group and the text left. *)
Definition date_group (s : string) : option (string * string) :=
  match s with
  | String d1 (String d2 (String s1 (String m1 (String m2 (String s2
      (String y1 (String y2 (String y3 (String y4 r))))))))) =>
      if forallb is_digit [d1; d2; m1; m2; y1; y2; y3; y4]
         && Ascii.eqb s1 "/"%char && Ascii.eqb s2 "/"%char
      then Some (substring 0 10 s, r)
      else None
  | _ => None
  end.

(** [\s+] at the head of [s]: the text after the longest run of blanks.
    The pattern goes on with a letter or a digit, so giving characters of
    the run back cannot help. *)
Definition spaces1 (s : string) : option string :=
  match s with
  | String c r => if is_space c then Some (lstrip r) else None
  | EmptyString => None
  end.

Definition literal_au (s : string) : option string :=
  match s with
  | String c1 (String c2 r) =>
      if Ascii.eqb c1 "a"%char && Ascii.eqb c2 "u"%char then Some r else None
  | _ => None
  end.

Definition bind {A B : Type} (o : option A) (f : A -> option B) : option B :=
  match o with Some x => f x | None => None end.

(** The match of the pattern that starts at the head of [s]. *)
Definition match_here (s : string) : option (string * string) :=
  bind (date_group s) (fun '(g1, r1) =>
  bind (spaces1 r1) (fun r2 =>
  bind (literal_au r2) (fun r3 =>
  bind (spaces1 r3) (fun r4 =>
  bind (date_group r4) (fun '(g2, _) => Some (g1, g2)))))).

(** [re.search]: the leftmost match. *)
Fixpoint re_search (s : string) : option (string * string) :=
  match match_here s with
  | Some g => Some g
  | None =>
      match s with
      | EmptyString => None
      | String _ r => re_search r
      end
  end.

Definition _extract_date_range (title : string) : option string * option string :=
  match re_search title with
  | None => (None, None)
  | Some (g1, g2) =>
      match strptime_dmY g1, strptime_dmY g2 with
      | Some start_date_obj, Some end_date_obj =>
          (Some (strftime_Ymd start_date_obj), Some (strftime_Ymd end_date_obj))
      | _, _ => (None, None)
      end
  end.

Definition city_of_address (address : string) : string :=
  if contains " - " address then strip (split_head " - " address) else "".

Definition newline : string := String "010"%char EmptyString.

Definition _parse_pharmacy_row (row : node) : option listing :=
  match find_all "td" row with
  | c0 :: c1 :: c2 :: _ =>
      let pharmacy_name :=
        match find "b" c0 with
        | Some name_element => strip (text name_element)
        | None => ""
        end in
      let address := strip (text c1) in
      let contact_text := strip (get_text newline c2) in
      let contact_numbers :=
        map strip (filter (fun num => truthy (strip num)) (split_lines contact_text)) in
      Some (mk_listing pharmacy_name address (city_of_address address) contact_numbers)
  | _ => None
  end.

(** What [requests.get], [raise_for_status] and the HTML parser give. *)
Inductive fetched : Type :=
| RequestException
| ParserException
| Parsed (soup : node).

Definition is_title (n : node) : bool := has_name "h1" n && has_class "text-center" n.
Definition is_table (n : node) : bool :=
  has_name "table" n && has_id "datatable-buttons" n.

Definition scrape_pharmacies (page : fetched)
  : list listing * option string * option string :=
  match page with
  | RequestException | ParserException => ([], None, None)
  | Parsed soup =>
      let title :=
        match find_where is_title soup with
        | Some title_element => strip (text title_element)
        | None => ""
        end in
      let '(start_date, end_date) := _extract_date_range title in
      let pharmacies :=
        match find_where is_table soup with
        | Some table =>
            match find "tbody" table with
            | Some tbody =>
                flat_map (fun row => match _parse_pharmacy_row row with
                                     | Some pharmacy_data => [pharmacy_data]
                                     | None => []
                                     end)
                         (find_all "tr" tbody)
            | None => []
            end
        | None => []
        end in
      (pharmacies, start_date, end_date)
  end.

(** One ingest run, as [__main__] and the controller chain the two calls. *)
Definition ingest (now : timestamp) (page : fetched) (d : db) : db :=
  let '(pharmacies, start_date, end_date) := scrape_pharmacies page in
  process_scraped_pharmacies now pharmacies start_date end_date d.

End Scraper.

(** ** [main.py]: the expiry controller *)

Module Main.
Import PyDate Database Scraper.

(** [SELECT end_date FROM on_duty_pharmacies ORDER BY id DESC LIMIT 1] *)
Definition select_end_date (d : db) : option string :=
  match max_id (on_duty_pharmacies d) with
  | None => None
  | Some m =>
      option_map end_date
        (List.find (fun r => Z.eqb (od_id r) m) (on_duty_pharmacies d))
  end.

(** What an invocation of the check did. *)
Inductive outcome : Type :=
| ScraperRun          (* the scraper ran *)
| StillValid          (* period still valid: nothing done *)
| CheckError.         (* an exception was caught and logged *)

Definition check_and_update_on_duty (today : date) (now : timestamp)
           (page : fetched) (d : db) : outcome * db :=
  match select_end_date d with
  | Some result =>
      match strptime_Ymd result with
      | Some end_date =>
          if date_gtb today end_date
          then (ScraperRun, ingest now page d)
          else (StillValid, d)
      | None => (CheckError, d)
      end
  | None => (ScraperRun, ingest now page d)
  end.

End Main.

(** ** Vocabulary of the statements *)

Module Spec.
Import PyStr PyDate Database Scraper.
Local Open Scope Z_scope.

(** The identifiers one listing adds to [matched_pharmacy_ids]. *)
Definition contribution (d : db) (pharmacy : listing) : list Z :=
  if truthy (name pharmacy) && truthy (city pharmacy) then
    match _find_pharmacy_match d (name pharmacy) (city pharmacy) with
    | Some pharmacy_id => if Z.eqb pharmacy_id 0 then [] else [pharmacy_id]
    | None => []
    end
  else [].

(** The input of one reconciliation: clock reading, period, identifiers. *)
Definition reconciliation : Type := timestamp * string * string * list Z.

Definition reconcile (d : db) (r : reconciliation) : db :=
  let '(now, s, e, ids) := r in _update_on_duty_pharmacies now s e ids d.

Definition reconcile_all (rs : list reconciliation) (d : db) : db :=
  fold_left reconcile rs d.

(** The row as [SET start_date = ?, end_date = ?, pharmacy_ids = ?,
    updated_at = CURRENT_TIMESTAMP] leaves it. *)
Definition overwritten (now : timestamp) (s e : string) (ids : list Z)
           (r : on_duty_row) : on_duty_row :=
  mk_on_duty (od_id r) s e ids (created_at r) now.

(** A roster row without its update timestamp. *)
Definition without_updated_at (r : on_duty_row)
  : Z * string * string * list Z * timestamp :=
  (od_id r, start_date r, end_date r, pharmacy_ids r, created_at r).

(** The text [dd/mm/yyyy] and the text [yyyy-mm-dd] of three numbers. *)
Definition dmy_text (d m y : Z) : string :=
  pad2 d ++ "/" ++ pad2 m ++ "/" ++ pad4 y.

Definition iso_text (y m d : Z) : string :=
  pad4 y ++ "-" ++ pad2 m ++ "-" ++ pad2 d.

Definition two_digits (n : Z) : Prop := 0 <= n < 100.
Definition four_digits (n : Z) : Prop := 0 <= n < 10000.

(** A block of [find_longest_match] that lies in the window [alo, ahi) of
    the first sequence; the empty block sits at [alo]. *)
Definition in_window (alo ahi : nat) (m : Difflib.block) : Prop :=
  let '(i, _, k) := m in
  (alo <= i)%nat /\ (k = 0%nat -> i = alo) /\ (0 < k -> i + k <= ahi)%nat.

(** The separators of the two date formats. *)
Definition separator (sep : ascii) : Prop := sep = "/"%char \/ sep = "-"%char.

(** A text made of blanks only, and a non-empty one: what [\s+] matches. *)
Fixpoint all_space (s : string) : bool :=
  match s with
  | EmptyString => true
  | String c r => is_space c && all_space r
  end.

Definition blank_run (s : string) : bool := truthy s && all_space s.

(** A text that does not start with a blank. *)
Definition starts_unblank (r : string) : Prop :=
  match r with
  | EmptyString => True
  | String c _ => is_space c = false
  end.

Definition is_none {A : Type} (o : option A) : bool :=
  match o with None => true | Some _ => false end.

(** No match of the title pattern starts inside [pre] when [pre] is
    followed by [rest]. *)
Fixpoint no_match_inside (pre rest : string) : bool :=
  match pre with
  | EmptyString => true
  | String _ pre' =>
      is_none (match_here (pre ++ rest)) && no_match_inside pre' rest
  end.

End Spec.

(** ** Sample data *)

Module Samples.
Import Database Scraper Soup.
Local Open Scope Z_scope.

(** A registry with three pharmacies of Antananarivo and one of Toamasina. *)
Definition registry : db :=
  mk_db [mk_city 1 "Antananarivo"; mk_city 2 "Toamasina"]
        [mk_pharmacy 3 1 "Pharmacie Metropole";
         mk_pharmacy 7 1 "Pharmacie Rina Analakely";
         mk_pharmacy 8 2 "Pharmacie Rina";
         mk_pharmacy 9 1 "Pharmacie Rina Analakely"]
        [] 0.

Definition rina : listing :=
  mk_listing "Pharmacie Rina" "TANA - Analakely" "TANA" ["020 22 000 00"].

Definition rina_again : listing :=
  mk_listing "PHARMACIE RINA" "Tana - Lot 12 Analakely" "Tana" [].

Definition nameless : listing :=
  mk_listing "" "TANA - Isotry" "TANA" [].

(** A registry whose only pharmacy has an empty name. *)
Definition registry_with_blank : db :=
  mk_db [mk_city 1 "Antananarivo"] [mk_pharmacy 5 1 ""] [] 0.

Definition jan_20 : PyDate.date := PyDate.mk_date 2025 1 20.
Definition jan_11 : PyDate.date := PyDate.mk_date 2025 1 11.

(** [registry] with a roster valid until 11 January 2025. *)
Definition registry_with_roster : db :=
  mk_db (cities registry) (pharmacies registry)
        [mk_on_duty 1 "2025-01-05" "2025-01-11" [7] 10 10] 1.

Definition td (cs : list node) : node := Tag "td" None [] cs.

(** A row whose first cell has no bold element and whose address has no
    separator. *)
Definition plain_row : node :=
  Tag "tr" None []
      [td [NavigableString "Pharmacie Rina"];
       td [NavigableString " Analakely "];
       td [NavigableString "020 22 000 00"]].

Definition page_without_period : node :=
  Tag "html" None []
      [Tag "h1" None ["text-center"] [NavigableString "Pharmacies de garde"];
       Tag "table" (Some "datatable-buttons") []
           [Tag "tbody" None []
                [Tag "tr" None []
                     [td [Tag "b" None [] [NavigableString "Pharmacie Rina"]];
                      td [NavigableString "TANA - Analakely"];
                      td [NavigableString "020 22 000 00"]]]]].

End Samples.

(** ** Pages and their parts *)

Module Pages.
Import PyStr Soup Database Scraper.
Local Open Scope Z_scope.

(** The title [scrape_pharmacies] reads off the page. *)
Definition page_title (soup : node) : string :=
  match find_where is_title soup with
  | Some title_element => strip (text title_element)
  | None => ""
  end.

(** The rows [scrape_pharmacies] hands to [_parse_pharmacy_row]. *)
Definition page_rows (soup : node) : list node :=
  match find_where is_table soup with
  | Some table =>
      match find "tbody" table with
      | Some tbody => find_all "tr" tbody
      | None => []
      end
  | None => []
  end.

(** The keys of [CITY_MAPPING] and the names it maps them to. *)
Definition alias_keys : list string := map fst CITY_MAPPING.
Definition canonical_names : list string := map snd CITY_MAPPING.

(** A page with the period of scenario C and one listing. *)
Definition page_with_period : node :=
  Tag "html" None []
      [Tag "h1" None ["text-center"]
           [NavigableString " Pharmacies de garde du 05/01/2025 au 11/01/2025 "];
       Tag "table" (Some "datatable-buttons") []
           [Tag "tbody" None []
                [Tag "tr" None []
                     [Tag "td" None [] [Tag "b" None [] [NavigableString " Pharmacie Rina "]];
                      Tag "td" None [] [NavigableString "TANA - Analakely"];
                      Tag "td" None []
                          [NavigableString "020 22 000 00"; Tag "br" None [] [];
                           NavigableString " 033 11 000 00 "]];
                 Tag "tr" None [] [Tag "td" None [] [NavigableString "note"]]]]].

(** A page with a period and no table. *)
Definition page_without_table : node :=
  Tag "html" None []
      [Tag "h1" None ["text-center"; "title"]
           [NavigableString "Du 12/01/2025 au 18/01/2025"]].

(** A roster table with two rows, the older one of identifier 1. *)
Definition two_rosters : db :=
  mk_db [] []
        [mk_on_duty 1 "2025-01-05" "2025-01-11" [7] 10 10;
         mk_on_duty 2 "2024-12-29" "2025-01-04" [3] 5 5] 2.

End Pages.

(** ** [coordinates_finder.py] *)

Module Finder.
Import PyStr.
Local Open Scope Z_scope.

(** The loop that removes duplicates and keeps the order, on
    [(seen, unique_queries)]. *)
Definition unique_step (st : list string * list string) (query : string)
  : list string * list string :=
  let '(seen, unique_queries) := st in
  if existsb (String.eqb query) seen then st
  else (query :: seen, (unique_queries ++ [query])%list).

Definition create_search_queries (pharmacy_name address city : string)
  : list string :=
  let name := strip pharmacy_name in
  let address := if truthy address then strip address else "" in
  let city := strip city in
  let search_queries :=
    [ ("pharmacie " ++ name ++ ", " ++ address ++ ", Madagascar")%string;
      ("pharmacie " ++ name ++ ", " ++ city ++ ", Madagascar")%string ] in
  let search_queries :=
    if negb (truthy address)
    then filter (fun q => negb (contains ", , " q)) search_queries
    else search_queries in
  snd (fold_left unique_step search_queries ([], [])).

(** The [extratags] of a result, with the two keys that are read. *)
Record tags : Type := mk_tags { amenity : option string; shop : option string }.

(** A result of the geocoder: the keys that are read, [None] for a key that
    is missing or [null]; coordinates are the texts the service sends. *)
Record place : Type := mk_place {
  display_name : option string;
  place_name : option string;
  extratags : option tags;
  lat : option string;
  lon : option string
}.

(** [value or ""] *)
Definition or_empty (o : option string) : string :=
  match o with Some s => s | None => "" end.

Definition keywords : list string := ["pharmac"; "pharmacy"; "drugstore"; "apothek"].

(** The test of the filter of [search_coordinates]. *)
Definition is_pharmacy (result : place) : bool :=
  let display_name := lower (or_empty (display_name result)) in
  let name := lower (or_empty (place_name result)) in
  let amenity :=
    lower (or_empty (match extratags result with
                     | Some t => amenity t
                     | None => None
                     end)) in
  let shop :=
    lower (or_empty (match extratags result with
                     | Some t => shop t
                     | None => None
                     end)) in
  existsb (fun keyword => contains keyword display_name || contains keyword name)
          keywords
  || String.eqb amenity "pharmacy"
  || String.eqb shop "pharmacy".

(** What the request gives: an error of [requests], or the decoded list. *)
Inductive response : Type :=
| RequestError
| Results (results : list place).

Definition search_coordinates (r : response) : list place :=
  match r with
  | RequestError => []
  | Results results =>
      match filter is_pharmacy results with
      | [] => results
      | filtered_results => filtered_results
      end
  end.

Definition option_eqb (a b : option string) : bool :=
  match a, b with
  | Some x, Some y => String.eqb x y
  | None, None => true
  | _, _ => false
  end.

(** [r.get("lat") == result.get("lat") and r.get("lon") == result.get("lon")] *)
Definition same_spot (result r : place) : bool :=
  option_eqb (lat r) (lat result) && option_eqb (lon r) (lon result).

(** The coordinates of a result as the test above compares them. *)
Definition spot (r : place) : option string * option string := (lat r, lon r).

(** The inner loop of [process_pharmacy]: add the results not yet there. *)
Definition add_unique (all_results results : list place) : list place :=
  fold_left (fun all result =>
               if existsb (same_spot result) all then all
               else (all ++ [result])%list)
            results all_results.

(** The loop of [process_pharmacy] over the queries; [ask] is the geocoder,
    the answer of the service to each query. *)
Fixpoint gather (ask : string -> response) (queries : list string)
         (all_results : list place) : list place :=
  match queries with
  | [] => all_results
  | query :: queries' =>
      let results := search_coordinates (ask query) in
      let all_results :=
        match results with
        | [] => all_results
        | _ => add_unique all_results results
        end in
      if (5 <=? List.length all_results)%nat then all_results
      else gather ask queries' all_results
  end.

(** Default of [sys.get_int_max_str_digits()]. *)
Definition INT_MAX_STR_DIGITS : nat := 4300.

(** The digits of [int(text)]: digits with single underscores between
    them; the value read so far, the number of digits, and whether the last
    character was a digit. *)
Fixpoint int_digits (s : string) (acc : Z) (count : nat) (after_digit : bool)
  : option (Z * nat) :=
  match s with
  | EmptyString => if after_digit then Some (acc, count) else None
  | String c r =>
      if is_digit c then int_digits r (10 * acc + digit_val c) (S count) true
      else if Ascii.eqb c "_" && after_digit then int_digits r acc count false
      else None
  end.

(** [int(text)] for a text without blanks at its ends, [None] for
    [ValueError]. *)
Definition py_int (s : string) : option Z :=
  let '(sign, body) :=
    match s with
    | String "+" r => (1, r)
    | String "-" r => (-1, r)
    | _ => (1, s)
    end in
  match int_digits body 0 0%nat false with
  | Some (n, count) =>
      if (INT_MAX_STR_DIGITS <? count)%nat then None else Some (sign * n)
  | None => None
  end.

(** What [input()] gives at the prompt. *)
Inductive keyboard : Type :=
| Line (text : string)
| Interrupt.

(** What [get_user_choice] returns: a result, [None], ["skip_all"]; or the
    [EOFError] of [input()], which it does not catch. *)
Inductive choice : Type :=
| Chosen (result : place)
| SkipThis
| SkipAll
| EndOfInput.

(** The [while True] loop of [get_user_choice] over what is typed. *)
Fixpoint choice_loop (results : list place) (typed : list keyboard)
  : choice * list keyboard :=
  match typed with
  | [] => (EndOfInput, [])
  | Interrupt :: rest => (SkipAll, rest)
  | Line text :: rest =>
      let choice := lower (strip text) in
      if String.eqb choice "s" then (SkipAll, rest)
      else if String.eqb choice "0" then (SkipThis, rest)
      else
        match py_int choice with
        | Some n =>
            let idx := n - 1 in
            if (0 <=? idx) && (idx <? Z.of_nat (List.length results))
            then match nth_error results (Z.to_nat idx) with
                 | Some result => (Chosen result, rest)
                 | None => (EndOfInput, rest)
                 end
            else choice_loop results rest
        | None => choice_loop results rest
        end
  end.

Definition get_user_choice (results : list place) (typed : list keyboard)
  : choice * list keyboard :=
  match results with
  | [] => (SkipThis, typed)
  | _ => choice_loop results typed
  end.

(** Two results of the geocoder. *)
Definition osm_pharmacy : place :=
  mk_place (Some "Pharmacie Rina, Analakely, Antananarivo") (Some "Pharmacie Rina")
           (Some (mk_tags (Some "pharmacy") None)) (Some "-18.9060") (Some "47.5250").

Definition osm_street : place :=
  mk_place (Some "Rue Rainitovo, Antananarivo") None None
           (Some "-18.9100") (Some "47.5300").

End Finder.

(** ** The tables with all their columns *)

Module Store.
Import PyStr Database.
Local Open Scope Z_scope.

(** A REAL column: a double, as the rational it denotes. *)
Definition real : Type := Q.

(** A row of [cities]. *)
Record city_record : Type := mk_city_record {
  cr_id : Z;
  cr_name : string;
  cr_created_at : timestamp
}.

(** A row of [pharmacies]. *)
Record pharmacy_record : Type := mk_pharmacy_record {
  pr_id : Z;
  pr_city_id : Z;
  pr_name : string;
  pr_address : option string;
  pr_phone : option string;
  pr_latitude : option real;
  pr_longitude : option real;
  pr_created_at : timestamp;
  pr_updated_at : timestamp
}.

(** The database file: each table with the counter [sqlite_sequence] keeps
    for it. *)
Record store : Type := mk_store {
  st_cities : list city_record;
  st_city_seq : Z;
  st_pharmacies : list pharmacy_record;
  st_pharmacy_seq : Z;
  st_on_duty : list on_duty_row;
  st_on_duty_seq : Z
}.

(** The rowid AUTOINCREMENT allocates in a table with the rowids [ids] and
    the counter [seq]. *)
Definition next_rowid (ids : list Z) (seq : Z) : Z :=
  1 + match greatest ids with
      | None => seq
      | Some m => Z.max m seq
      end.

(** The columns the duty-roster pipeline reads. *)
Definition pipeline_view (st : store) : db :=
  mk_db (map (fun c => mk_city (cr_id c) (cr_name c)) (st_cities st))
        (map (fun p => mk_pharmacy (pr_id p) (pr_city_id p) (pr_name p))
             (st_pharmacies st))
        (st_on_duty st) (st_on_duty_seq st).

(** [s.split(sep)] for a separator of one character. *)
Fixpoint split_char (sep : ascii) (s : string) : list string :=
  match s with
  | EmptyString => [EmptyString]
  | String c r =>
      if Ascii.eqb c sep then EmptyString :: split_char sep r
      else match split_char sep r with
           | [] => [String c EmptyString]
           | l :: ls => String c l :: ls
           end
  end.

End Store.

(** ** [dataset_converter.py] *)

Module Converter.
Import PyStr Database Store.
Local Open Scope Z_scope.

(** The value of the key ["phone"] of a pharmacy of the dataset: missing or
    [null], a text, or a list of texts. *)
Inductive phone_entry : Type :=
| PhoneMissing
| PhoneText (s : string)
| PhoneList (l : list string).

(** A pharmacy of the dataset: [None] is a missing key, for the address and
    the coordinates also [null]; coordinates are doubles. *)
Record pharmacy_entry : Type := mk_pharmacy_entry {
  e_name : option string;
  e_address : option string;
  e_phone : phone_entry;
  e_coordinates : option (option real * option real)
}.

(** A city of the dataset. *)
Record city_entry : Type := mk_city_entry {
  e_city : option string;
  e_pharmacies : list pharmacy_entry
}.

(** [d.get(key, "")] and [value or None] *)
Definition get_text (o : option string) : string :=
  match o with Some s => s | None => "" end.

Definition or_none (s : string) : option string :=
  if truthy s then Some s else None.

(** The column [phone] of a pharmacy. *)
Definition phone_of (phone_data : phone_entry) : option string :=
  match phone_data with
  | PhoneList [] => None
  | PhoneList l => or_none (String.concat ", " (filter truthy l))
  | PhoneText s => or_none s
  | PhoneMissing => None
  end.

(** [INSERT OR IGNORE INTO cities (name) VALUES (?)]: a rowid is allocated
    also when the row is ignored. *)
Definition insert_city_or_ignore (now : timestamp) (city_name : string)
           (st : store) : store :=
  let id := next_rowid (map cr_id (st_cities st)) (st_city_seq st) in
  let cities :=
    if existsb (fun c => String.eqb (cr_name c) city_name) (st_cities st)
    then st_cities st
    else (st_cities st ++ [mk_city_record id city_name now])%list in
  mk_store cities id (st_pharmacies st) (st_pharmacy_seq st)
           (st_on_duty st) (st_on_duty_seq st).

(** [SELECT id FROM cities WHERE name = ?] *)
Definition select_city_id (city_name : string) (st : store) : option Z :=
  option_map cr_id
    (List.find (fun c => String.eqb (cr_name c) city_name) (st_cities st)).

(** [INSERT INTO pharmacies (city_id, name, address, phone, latitude,
    longitude) VALUES (?, ?, ?, ?, ?, ?)] *)
Definition insert_pharmacy (now : timestamp) (city_id : Z) (name : string)
           (address phone : option string) (latitude longitude : option real)
           (st : store) : store :=
  let id := next_rowid (map pr_id (st_pharmacies st)) (st_pharmacy_seq st) in
  mk_store (st_cities st) (st_city_seq st)
           (st_pharmacies st
            ++ [mk_pharmacy_record id city_id name address phone
                                   latitude longitude now now])%list
           id (st_on_duty st) (st_on_duty_seq st).

(** The state of the conversion: the database and the two counters. *)
Record progress : Type := mk_progress {
  database : store;
  total_pharmacies : nat;
  inserted_pharmacies : nat
}.

(** The body of the loop over the pharmacies of a city. *)
Definition convert_pharmacy (now : timestamp) (city_id : Z) (acc : progress)
           (pharmacy : pharmacy_entry) : progress :=
  let name := strip (get_text (e_name pharmacy)) in
  if negb (truthy name) then acc
  else
    let address := or_none (get_text (e_address pharmacy)) in
    let phone := phone_of (e_phone pharmacy) in
    let latitude :=
      match e_coordinates pharmacy with Some c => fst c | None => None end in
    let longitude :=
      match e_coordinates pharmacy with Some c => snd c | None => None end in
    mk_progress
      (insert_pharmacy now city_id name address phone latitude longitude
                       (database acc))
      (total_pharmacies acc)
      (S (inserted_pharmacies acc)).

(** The body of the loop over the cities. *)
Definition convert_city (now : timestamp) (acc : progress) (city_data : city_entry)
  : progress :=
  let city_name := strip (get_text (e_city city_data)) in
  if negb (truthy city_name) then acc
  else
    let st := insert_city_or_ignore now city_name (database acc) in
    match select_city_id city_name st with
    | Some city_id =>
        fold_left (convert_pharmacy now city_id) (e_pharmacies city_data)
          (mk_progress st
             (total_pharmacies acc + List.length (e_pharmacies city_data))
             (inserted_pharmacies acc))
    | None => acc
    end.

(** The loop of [convert_json_to_sqlite] over the decoded dataset, at clock
    reading [now], on a database that has its tables. *)
Definition convert (now : timestamp) (data : list city_entry) (st : store)
  : progress :=
  fold_left (convert_city now) data (mk_progress st 0 0).

(** The pharmacies of a dataset that the conversion inserts. *)
Definition importable_pharmacy (pharmacy : pharmacy_entry) : bool :=
  truthy (strip (get_text (e_name pharmacy))).

Definition importable_city (city_data : city_entry) : bool :=
  truthy (strip (get_text (e_city city_data))).

Definition importable (data : list city_entry) : nat :=
  list_sum (map (fun c => List.length (filter importable_pharmacy (e_pharmacies c)))
                (filter importable_city data)).

(** The columns of a pharmacy that come from the dataset. *)
Definition record_fields (p : pharmacy_record)
  : string * option string * option string * option real * option real :=
  (pr_name p, pr_address p, pr_phone p, pr_latitude p, pr_longitude p).

Definition entry_fields (pharmacy : pharmacy_entry)
  : string * option string * option string * option real * option real :=
  (strip (get_text (e_name pharmacy)),
   or_none (get_text (e_address pharmacy)),
   phone_of (e_phone pharmacy),
   match e_coordinates pharmacy with Some c => fst c | None => None end,
   match e_coordinates pharmacy with Some c => snd c | None => None end).

(** The fields of the pharmacies of a dataset that the conversion inserts,
    in the order of the dataset. *)
Definition fields_of_data (data : list city_entry)
  : list (string * option string * option string * option real * option real) :=
  flat_map (fun c => map entry_fields (filter importable_pharmacy (e_pharmacies c)))
           (filter importable_city data).

(** The name under which a city of the dataset is stored. *)
Definition stored_city (city_data : city_entry) : string :=
  strip (get_text (e_city city_data)).

(** An empty database with its tables, and a small dataset. *)
Definition empty_store : store := mk_store [] 0 [] 0 [] 0.

Definition sample_dataset : list city_entry :=
  [ mk_city_entry (Some " Antananarivo ")
      [ mk_pharmacy_entry (Some " Pharmacie Rina Analakely") (Some "Analakely")
          (PhoneList ["020 22 000 00"; ""; "033 11 000 00"])
          (Some (Some (Qmake (-189060) 10000), Some (Qmake 475250 10000)));
        mk_pharmacy_entry (Some "  ") None PhoneMissing None ];
    mk_city_entry (Some "") [ mk_pharmacy_entry (Some "Lost") None PhoneMissing None ];
    mk_city_entry (Some "Antananarivo")
      [ mk_pharmacy_entry (Some "Pharmacie Metropole") (Some "") (PhoneText "") None ] ].

End Converter.

(** ** [main.py]: the read endpoints *)

Module Api.
Import PyStr Database Store.
Local Open Scope Z_scope.

(** A pharmacy as [/pharmacies] and [/pharmacies/city/<name>] return it. *)
Record pharmacy_view : Type := mk_view {
  v_id : Z;
  v_name : string;
  v_address : option string;
  v_phone : list string;
  v_latitude : option real;
  v_longitude : option real;
  v_created_at : timestamp;
  v_updated_at : timestamp;
  v_city_id : Z;
  v_city_name : string
}.

(** The list of the numbers of a [phone] column. *)
Definition phone_list (phone : option string) : list string :=
  match phone with
  | Some s =>
      if truthy s
      then map strip (filter (fun phone => truthy (strip phone)) (split_char "," s))
      else []
  | None => []
  end.

(** A number that survives the column: no blank at its ends, no comma. *)
Definition plain_number (s : string) : Prop :=
  strip s = s /\ contains "," s = false.

(** [FROM pharmacies p JOIN cities c ON p.city_id = c.id] *)
Definition joined (st : store) : list (pharmacy_record * city_record) :=
  flat_map (fun p =>
              flat_map (fun c => if Z.eqb (pr_city_id p) (cr_id c) then [(p, c)] else [])
                       (st_cities st))
           (st_pharmacies st).

Definition view_of (row : pharmacy_record * city_record) : pharmacy_view :=
  let '(p, c) := row in
  mk_view (pr_id p) (pr_name p) (pr_address p) (phone_list (pr_phone p))
          (pr_latitude p) (pr_longitude p) (pr_created_at p) (pr_updated_at p)
          (cr_id c) (cr_name c).

(** [ORDER BY]: the rows sorted by a key under a comparison. *)
Fixpoint insert_by {A : Type} (le : A -> A -> bool) (x : A) (l : list A) : list A :=
  match l with
  | [] => [x]
  | y :: l' => if le x y then x :: l else y :: insert_by le x l'
  end.

Fixpoint order_by {A : Type} (le : A -> A -> bool) (l : list A) : list A :=
  match l with
  | [] => []
  | x :: l' => insert_by le x (order_by le l')
  end.

(** The comparison of [ORDER BY p.name]: texts as byte sequences. *)
Definition by_name (r1 r2 : pharmacy_record * city_record) : bool :=
  String.leb (pr_name (fst r1)) (pr_name (fst r2)).

(** The comparison of [ORDER BY c.name, p.name]. *)
Definition by_city_then_name (r1 r2 : pharmacy_record * city_record) : bool :=
  match String.compare (cr_name (snd r1)) (cr_name (snd r2)) with
  | Lt => true
  | Gt => false
  | Eq => String.leb (pr_name (fst r1)) (pr_name (fst r2))
  end.

(** [get_pharmacies_by_city]: the pharmacies, or [None] for the answer 404. *)
Definition get_pharmacies_by_city (city_name : string) (st : store)
  : option (list pharmacy_view) :=
  let rows :=
    order_by by_name
      (filter (fun row => String.eqb (lower (cr_name (snd row))) (lower city_name))
              (joined st)) in
  match map view_of rows with
  | [] => None
  | pharmacies => Some pharmacies
  end.

(** A pharmacy as [/on-duty] returns it. *)
Record duty_view : Type := mk_duty_view {
  dv_id : Z;
  dv_name : string;
  dv_address : option string;
  dv_phone : list string;
  dv_latitude : option real;
  dv_longitude : option real;
  dv_city_id : Z;
  dv_city_name : string
}.

Definition duty_view_of (row : pharmacy_record * city_record) : duty_view :=
  let '(p, c) := row in
  mk_duty_view (pr_id p) (pr_name p) (pr_address p) (phone_list (pr_phone p))
               (pr_latitude p) (pr_longitude p) (cr_id c) (cr_name c).

(** The answer of [/on-duty]. *)
Record duty_answer : Type := mk_duty {
  duty_period : option (string * string * timestamp * timestamp);
  duty_pharmacies : list duty_view;
  total_count : nat;
  duty_pharmacy_ids : list Z
}.

(** [SELECT ... FROM on_duty_pharmacies ORDER BY id DESC LIMIT 1] *)
Definition latest_duty (st : store) : option on_duty_row :=
  match max_id (st_on_duty st) with
  | None => None
  | Some m => List.find (fun r => Z.eqb (od_id r) m) (st_on_duty st)
  end.

(** [get_on_duty_pharmacies]: the answer, or [None] for the answer 500.  The
    query of the pharmacies holds one [?] for each stored identifier, and
    SQLite refuses a statement with more of them than its limit
    ([SQLITE_LIMIT_VARIABLE_NUMBER], fixed when the library is built, 999 or
    32766 unless the builder chose another) with an [OperationalError], which the handler turns into
    the answer 500.  The limit is an input of the model. *)
Definition get_on_duty_pharmacies (max_variable_number : nat) (st : store)
  : option duty_answer :=
  match latest_duty st with
  | None => Some (mk_duty None [] 0 [])
  | Some duty_record =>
      let pharmacy_ids := pharmacy_ids duty_record in
      let pharmacies :=
        match pharmacy_ids with
        | [] => Some []
        | _ =>
            if Nat.ltb max_variable_number (List.length pharmacy_ids)
            then None
            else
              Some (map duty_view_of
                      (order_by by_city_then_name
                         (filter (fun row =>
                                    existsb (Z.eqb (pr_id (fst row))) pharmacy_ids)
                                 (joined st))))
        end in
      match pharmacies with
      | None => None
      | Some pharmacies =>
          Some (mk_duty (Some (start_date duty_record, end_date duty_record,
                               created_at duty_record, updated_at duty_record))
                        pharmacies (List.length pharmacies) pharmacy_ids)
      end
  end.

(** [get_all_pharmacies] *)
Definition get_all_pharmacies (st : store) : list pharmacy_view :=
  map view_of (order_by by_city_then_name (joined st)).

(** A city as [/cities] returns it. *)
Record city_view : Type := mk_city_view {
  cv_id : Z;
  cv_name : string;
  cv_created_at : timestamp;
  pharmacy_count : nat
}.

(** [FROM cities c LEFT JOIN pharmacies p ON c.id = p.city_id]: the rows of
    a city are its pharmacies, and a city without a pharmacy gives one row,
    with NULL for the pharmacy. *)
Definition rows_of_city (pharmacies : list pharmacy_record) (c : city_record)
  : list (city_record * option pharmacy_record) :=
  match filter (fun p => Z.eqb (cr_id c) (pr_city_id p)) pharmacies with
  | [] => [(c, None)]
  | ps => map (fun p => (c, Some p)) ps
  end.

Definition left_joined (st : store) : list (city_record * option pharmacy_record) :=
  flat_map (rows_of_city (st_pharmacies st)) (st_cities st).

(** A row whose [p.id] is not NULL. *)
Definition with_pharmacy (row : city_record * option pharmacy_record) : bool :=
  match snd row with Some _ => true | None => false end.

(** The columns of [GROUP BY c.id, c.name, c.created_at]. *)
Definition group_key : Type := (Z * string * timestamp)%type.

Definition key_of (c : city_record) : group_key :=
  (cr_id c, cr_name c, cr_created_at c).

Definition key_eq_dec (k1 k2 : group_key) : {k1 = k2} + {k1 <> k2}.
Proof.
  destruct k1 as [[i1 n1] t1], k2 as [[i2 n2] t2].
  destruct (Z.eq_dec i1 i2) as [Hi|Hi]; [|right; congruence].
  destruct (string_dec n1 n2) as [Hn|Hn]; [|right; congruence].
  destruct (Z.eq_dec t1 t2) as [Ht|Ht]; [|right; congruence].
  left; congruence.
Defined.

(** A row of the group [k] with a pharmacy: what [COUNT(p.id)] counts. *)
Definition counted (k : group_key) (row : city_record * option pharmacy_record)
  : bool :=
  if key_eq_dec (key_of (fst row)) k then with_pharmacy row else false.

(** The comparison of [ORDER BY c.name] on the groups. *)
Definition by_city_name (c1 c2 : city_view) : bool :=
  String.leb (cv_name c1) (cv_name c2).

Definition city_view_of (rows : list (city_record * option pharmacy_record))
           (k : group_key) : city_view :=
  let '(id, name, created_at) := k in
  mk_city_view id name created_at (List.length (filter (counted k) rows)).

(** [get_all_cities] *)
Definition get_all_cities (st : store) : list city_view :=
  let rows := left_joined st in
  order_by by_city_name
    (map (city_view_of rows)
         (nodup key_eq_dec (map (fun row => key_of (fst row)) rows))).

(** The order of [ORDER BY] as a relation. *)
Definition ordered {A : Type} (le : A -> A -> bool) (x y : A) : Prop :=
  le x y = true.

(** The pharmacy of a joined row. *)
Definition row_id (row : pharmacy_record * city_record) : Z := pr_id (fst row).

(** A database with two cities, three pharmacies and a roster that names
    pharmacy 7 twice and a pharmacy 99 that does not exist. *)
Definition sample_store : store :=
  mk_store
    [mk_city_record 1 "Antananarivo" 1; mk_city_record 2 "Toamasina" 1] 2
    [mk_pharmacy_record 3 1 "Pharmacie Metropole" None None None None 2 2;
     mk_pharmacy_record 7 1 "Pharmacie Analakely" (Some "Analakely")
                        (Some "020 22 000 00, 033 11 000 00") None None 2 2;
     mk_pharmacy_record 8 2 "Pharmacie Rina" None (Some "") None None 2 2] 8
    [mk_on_duty 1 "2025-01-05" "2025-01-11" [7; 7; 99] 10 10] 1.

End Api.

(** * Properties *)

Import PyStr PyDate Soup Database Scraper Main Spec.

(** ** Order on ratios *)

Lemma Qgtb_true (x y : Q) : Qgtb x y = true <-> (y < x)%Q.
Proof.
  unfold Qgtb. rewrite negb_true_iff. split; intros H.
  - apply Qnot_le_lt. intros Hle. apply Qle_bool_iff in Hle. congruence.
  - destruct (Qle_bool x y) eqn:E; [|reflexivity].
    apply Qle_bool_iff in E. exfalso. exact (Qlt_not_le _ _ H E).
Qed.

Lemma Qgtb_false (x y : Q) : Qgtb x y = false <-> (x <= y)%Q.
Proof.
  unfold Qgtb. rewrite negb_false_iff. apply Qle_bool_iff.
Qed.

(** ** The loop over the candidates *)

Section BestLoop.
Variable pharmacy_name : string.

Let sim (row : Z * string) : Q := similarity pharmacy_name (snd row).
Let step := best_step pharmacy_name.

Lemma best_step_cases (st : option Z * Q) (row : Z * string) :
  ((snd st < sim row)%Q /\ step st row = (Some (fst row), sim row))
  \/ ((sim row <= snd st)%Q /\ step st row = st).
Proof.
  unfold step, best_step, sim.
  destruct (Qgtb (similarity pharmacy_name (snd row)) (snd st)) eqn:E.
  - left. split; [apply Qgtb_true; exact E | reflexivity].
  - right. split; [apply Qgtb_false; exact E | reflexivity].
Qed.

Lemma best_keeps (rows : list (Z * string)) (st : option Z * Q) :
  (forall r, In r rows -> (sim r <= snd st)%Q) ->
  fold_left step rows st = st.
Proof.
  induction rows as [|r rows IH]; intros Hall; [reflexivity|].
  cbn [fold_left].
  destruct (best_step_cases st r) as [[Hlt _]|[_ ->]].
  - exfalso. apply (Qlt_not_le _ _ Hlt). apply Hall. now left.
  - apply IH. intros r' Hr'. apply Hall. now right.
Qed.

Lemma best_takes (l1 : list (Z * string)) (c : Z * string)
      (l2 : list (Z * string)) (st : option Z * Q) :
  (snd st < sim c)%Q ->
  (forall r, In r l1 -> (sim r < sim c)%Q) ->
  (forall r, In r l2 -> (sim r <= sim c)%Q) ->
  fold_left step (l1 ++ c :: l2) st = (Some (fst c), sim c).
Proof.
  revert st. induction l1 as [|r l1 IH]; intros st Hst H1 H2; cbn [app fold_left].
  - destruct (best_step_cases st c) as [[_ ->]|[Hle _]].
    + apply best_keeps. exact H2.
    + exfalso. exact (Qlt_not_le _ _ Hst Hle).
  - apply IH; [|intros r' Hr'; apply H1; now right|exact H2].
    destruct (best_step_cases st r) as [[_ ->]|[_ ->]]; [|exact Hst].
    apply H1. now left.
Qed.

Lemma best_shape (rows : list (Z * string)) (st : option Z * Q) :
  (fold_left step rows st = st /\ forall r, In r rows -> (sim r <= snd st)%Q)
  \/ exists l1 c l2,
      rows = l1 ++ c :: l2
      /\ (snd st < sim c)%Q
      /\ (forall r, In r l1 -> (sim r < sim c)%Q)
      /\ (forall r, In r l2 -> (sim r <= sim c)%Q)
      /\ fold_left step rows st = (Some (fst c), sim c).
Proof.
  revert st. induction rows as [|r rows IH]; intros st.
  - left. split; [reflexivity | intros r []].
  - cbn [fold_left].
    destruct (best_step_cases st r) as [[Hlt Hs]|[Hle Hs]]; rewrite Hs.
    + destruct (IH (Some (fst r), sim r)) as [[He Hall]|(l1 & c & l2 & -> & Hc & H1 & H2 & He)].
      * right. exists [], r, rows. repeat split; auto. intros ? [].
      * right. exists (r :: l1), c, l2. cbn [snd] in Hc. repeat split; auto.
        -- eapply Qlt_trans; eassumption.
        -- intros r' [<-|Hr']; auto.
    + destruct (IH st) as [[He Hall]|(l1 & c & l2 & -> & Hc & H1 & H2 & He)].
      * left. split; [exact He|]. intros r' [<-|Hr']; auto.
      * right. exists (r :: l1), c, l2. repeat split; auto.
        intros r' [<-|Hr']; auto. eapply Qle_lt_trans; eassumption.
Qed.
End BestLoop.

(** The answer of the matcher at any threshold that is not negative. *)
Lemma find_at_some (t : Q) (d : db) (nm cty : string) (id : Z) :
  (0 <= t)%Q ->
  find_pharmacy_match_at t d nm cty = Some id <->
  exists l1 db_name l2,
    select_pharmacies d (_map_city_name cty) = l1 ++ (id, db_name) :: l2
    /\ (t < similarity nm db_name)%Q
    /\ (forall r, In r l1 -> (similarity nm (snd r) < similarity nm db_name)%Q)
    /\ (forall r, In r l2 -> (similarity nm (snd r) <= similarity nm db_name)%Q).
Proof.
  intros Ht. unfold find_pharmacy_match_at, best_candidate.
  set (rows := select_pharmacies d (_map_city_name cty)).
  split.
  - intros H.
    destruct (best_shape nm rows (None, 0%Q))
      as [[He Hall]|(l1 & c & l2 & Hrows & Hc & H1 & H2 & He)].
    + rewrite He in H. destruct rows; [discriminate|].
      destruct (Qgtb 0 t); discriminate.
    + rewrite He in H. destruct rows as [|r0 rows']; [discriminate|].
      destruct (Qgtb (similarity nm (snd c)) t) eqn:E; [|discriminate].
      injection H as <-. exists l1, (snd c), l2.
      rewrite <- surjective_pairing. repeat split; auto.
      apply Qgtb_true. exact E.
  - intros (l1 & db_name & l2 & Hrows & Hthr & H1 & H2).
    rewrite Hrows.
    rewrite (best_takes nm l1 (id, db_name) l2 (None, 0%Q)); auto.
    + cbn [fst snd]. apply Qgtb_true in Hthr. rewrite Hthr.
      destruct l1; reflexivity.
    + cbn [snd]. eapply Qle_lt_trans; eassumption.
Qed.

Lemma find_at_none (t : Q) (d : db) (nm cty : string) :
  (0 <= t)%Q ->
  find_pharmacy_match_at t d nm cty = None <->
  forall r, In r (select_pharmacies d (_map_city_name cty)) ->
            (similarity nm (snd r) <= t)%Q.
Proof.
  intros Ht. unfold find_pharmacy_match_at, best_candidate.
  set (rows := select_pharmacies d (_map_city_name cty)).
  destruct (best_shape nm rows (None, 0%Q))
    as [[He Hall]|(l1 & c & l2 & Hrows & Hc & H1 & H2 & He)]; rewrite He.
  - split.
    + intros _ r Hr. eapply Qle_trans; [apply Hall; exact Hr | exact Ht].
    + intros _. destruct rows; [reflexivity|].
      destruct (Qgtb 0 t); reflexivity.
  - destruct rows as [|r0 rows'].
    { destruct l1; discriminate. }
    destruct (Qgtb (similarity nm (snd c)) t) eqn:E.
    + split; [discriminate|]. intros Hall. exfalso.
      apply Qgtb_true in E. apply (Qlt_not_le _ _ E).
      apply Hall. rewrite Hrows. apply in_elt.
    + apply Qgtb_false in E. split; [|reflexivity].
      intros _ r Hr. rewrite Hrows in Hr.
      apply in_app_or in Hr. destruct Hr as [Hr|[<-|Hr]].
      * eapply Qle_trans; [apply Qlt_le_weak, H1, Hr | exact E].
      * exact E.
      * eapply Qle_trans; [apply H2, Hr | exact E].
Qed.

Lemma threshold_nonneg : (0 <= SIMILARITY_THRESHOLD)%Q.
Proof. unfold SIMILARITY_THRESHOLD, Qle. cbn. lia. Qed.

(** C2. The matcher answers with the identifier of the candidate of the
    (normalised) city whose case-folded similarity to the raw name is
    highest, the first one in registry order among equals, exactly when that
    similarity is strictly above 0.4; it answers with no match exactly when
    no candidate of the city is strictly above 0.4, which covers the city
    without candidates. *)
Theorem find_pharmacy_match_best (d : db) (pharmacy_name city : string) :
  let rows := select_pharmacies d (_map_city_name city) in
  let sim := fun db_name => Difflib.ratio (lower pharmacy_name) (lower db_name) in
  (forall id,
      _find_pharmacy_match d pharmacy_name city = Some id <->
      exists l1 db_name l2,
        rows = l1 ++ (id, db_name) :: l2
        /\ (Qmake 4 10 < sim db_name)%Q
        /\ (forall r, In r l1 -> (sim (snd r) < sim db_name)%Q)
        /\ (forall r, In r l2 -> (sim (snd r) <= sim db_name)%Q))
  /\ (_find_pharmacy_match d pharmacy_name city = None <->
      forall r, In r rows -> (sim (snd r) <= Qmake 4 10)%Q)
  /\ (rows = [] -> _find_pharmacy_match d pharmacy_name city = None).
Proof.
  cbv zeta. split; [|split].
  - intros id. apply (find_at_some SIMILARITY_THRESHOLD), threshold_nonneg.
  - apply (find_at_none SIMILARITY_THRESHOLD), threshold_nonneg.
  - intros H. unfold _find_pharmacy_match, find_pharmacy_match_at.
    rewrite H. reflexivity.
Qed.

Lemma find_pharmacy_match_best_witness :
  _find_pharmacy_match Samples.registry "Pharmacie Rina" "TANA" = Some 7%Z.
Proof.
  destruct (find_pharmacy_match_best Samples.registry "Pharmacie Rina" "TANA")
    as [Hsome _].
  apply Hsome.
  exists [(3%Z, "Pharmacie Metropole")], "Pharmacie Rina Analakely",
         [(9%Z, "Pharmacie Rina Analakely")].
  split; [reflexivity|]. split; [vm_compute; reflexivity|]. split.
  - intros r [<-|[]]. vm_compute. reflexivity.
  - intros r [<-|[]]. vm_compute. discriminate.
Defined.

(** C8. With the registry, the city and the raw name fixed, a match under a
    threshold is the same match under every lower threshold, and an input
    without match under a threshold has none under any higher one. *)
Theorem matcher_threshold_monotone (t1 t2 : Q) (d : db) (pharmacy_name city : string) :
  (t1 <= t2)%Q ->
  (forall id,
      find_pharmacy_match_at t2 d pharmacy_name city = Some id ->
      find_pharmacy_match_at t1 d pharmacy_name city = Some id)
  /\ (find_pharmacy_match_at t1 d pharmacy_name city = None ->
      find_pharmacy_match_at t2 d pharmacy_name city = None).
Proof.
  intros Hle. unfold find_pharmacy_match_at.
  destruct (select_pharmacies d (_map_city_name city)) as [|r rows].
  - split; [discriminate | reflexivity].
  - destruct (best_candidate pharmacy_name (r :: rows)) as [best_match best_ratio].
    destruct (Qgtb best_ratio t2) eqn:E2.
    + assert (E1 : Qgtb best_ratio t1 = true).
      { apply Qgtb_true. apply Qgtb_true in E2.
        eapply Qle_lt_trans; eassumption. }
      rewrite E1. split; auto.
    + split; [discriminate | reflexivity].
Qed.

Lemma matcher_threshold_monotone_witness :
  find_pharmacy_match_at (Qmake 4 10) Samples.registry "Pharmacie Rina" "TANA"
  = Some 7%Z.
Proof.
  assert (Hle : (Qmake 4 10 <= Qmake 6 10)%Q) by (vm_compute; discriminate).
  apply (proj1 (matcher_threshold_monotone (Qmake 4 10) (Qmake 6 10)
                  Samples.registry "Pharmacie Rina" "TANA" Hle)).
  vm_compute. reflexivity.
Defined.

(** ** The roster table *)

Lemma fold_min_spec (xs : list Z) (x : Z) :
  In (fold_left Z.min xs x) (x :: xs)
  /\ forall y, In y (x :: xs) -> (fold_left Z.min xs x <= y)%Z.
Proof.
  revert x. induction xs as [|z xs IH]; intros x; cbn [fold_left].
  - split; [now left|]. intros y [<-|[]]. lia.
  - destruct (IH (Z.min x z)) as [Hin Hle]. split.
    + destruct Hin as [Hin|Hin]; [|right; right; exact Hin].
      rewrite <- Hin. destruct (Z.min_spec x z) as [[_ ->]|[_ ->]];
        [left|right; left]; reflexivity.
    + intros y [<-|[<-|Hy]].
      * etransitivity; [apply Hle; now left | apply Z.le_min_l].
      * etransitivity; [apply Hle; now left | apply Z.le_min_r].
      * apply Hle. now right.
Qed.

Lemma fold_max_spec (xs : list Z) (x : Z) :
  In (fold_left Z.max xs x) (x :: xs)
  /\ forall y, In y (x :: xs) -> (y <= fold_left Z.max xs x)%Z.
Proof.
  revert x. induction xs as [|z xs IH]; intros x; cbn [fold_left].
  - split; [now left|]. intros y [<-|[]]. lia.
  - destruct (IH (Z.max x z)) as [Hin Hle]. split.
    + destruct Hin as [Hin|Hin]; [|right; right; exact Hin].
      rewrite <- Hin. destruct (Z.max_spec x z) as [[_ ->]|[_ ->]];
        [right; left|left]; reflexivity.
    + intros y [<-|[<-|Hy]].
      * etransitivity; [apply Z.le_max_l | apply Hle; now left].
      * etransitivity; [apply Z.le_max_r | apply Hle; now left].
      * apply Hle. now right.
Qed.

Lemma min_id_spec (rows : list on_duty_row) (m : Z) :
  min_id rows = Some m ->
  (exists r, In r rows /\ od_id r = m)
  /\ forall r, In r rows -> (m <= od_id r)%Z.
Proof.
  unfold min_id, least. destruct rows as [|r0 rows]; [discriminate|].
  cbn [map]. intros [= <-].
  destruct (fold_min_spec (map od_id rows) (od_id r0)) as [Hin Hle]. split.
  - change (od_id r0 :: map od_id rows) with (map od_id (r0 :: rows)) in Hin.
    apply in_map_iff in Hin. destruct Hin as (r & Hr & Hin). eauto.
  - intros r Hr. apply Hle.
    change (od_id r0 :: map od_id rows) with (map od_id (r0 :: rows)).
    apply in_map. exact Hr.
Qed.

Lemma max_id_spec (rows : list on_duty_row) (m : Z) :
  max_id rows = Some m ->
  (exists r, In r rows /\ od_id r = m)
  /\ forall r, In r rows -> (od_id r <= m)%Z.
Proof.
  unfold max_id, greatest. destruct rows as [|r0 rows]; [discriminate|].
  cbn [map]. intros [= <-].
  destruct (fold_max_spec (map od_id rows) (od_id r0)) as [Hin Hle]. split.
  - change (od_id r0 :: map od_id rows) with (map od_id (r0 :: rows)) in Hin.
    apply in_map_iff in Hin. destruct Hin as (r & Hr & Hin). eauto.
  - intros r Hr. apply Hle.
    change (od_id r0 :: map od_id rows) with (map od_id (r0 :: rows)).
    apply in_map. exact Hr.
Qed.

Lemma min_id_none (rows : list on_duty_row) : min_id rows = None <-> rows = [].
Proof. destruct rows; cbn; split; congruence. Qed.

Lemma max_id_none (rows : list on_duty_row) : max_id rows = None <-> rows = [].
Proof. destruct rows; cbn; split; congruence. Qed.

(** The UPDATE keeps the identifiers of the rows, hence their least one. *)
Lemma overwrite_ids (now : timestamp) (s e : string) (ids : list Z) (m : Z)
      (rows : list on_duty_row) :
  map od_id (map (fun r => if Z.eqb (od_id r) m then overwritten now s e ids r else r)
                 rows)
  = map od_id rows.
Proof.
  rewrite map_map. apply map_ext. intros r.
  destruct (Z.eqb (od_id r) m); reflexivity.
Qed.

(** The two branches of the reconciler. *)
Lemma update_when_empty (now : timestamp) (s e : string) (ids : list Z) (d : db) :
  on_duty_pharmacies d = [] ->
  _update_on_duty_pharmacies now s e ids d
  = with_on_duty d [mk_on_duty (next_id d) s e ids now now] (next_id d).
Proof.
  intros H. unfold _update_on_duty_pharmacies. rewrite H. reflexivity.
Qed.

Lemma update_when_present (now : timestamp) (s e : string) (ids : list Z) (d : db)
      (m : Z) :
  min_id (on_duty_pharmacies d) = Some m ->
  _update_on_duty_pharmacies now s e ids d
  = with_on_duty d
      (map (fun r => if Z.eqb (od_id r) m then overwritten now s e ids r else r)
           (on_duty_pharmacies d))
      (on_duty_seq d).
Proof.
  intros H. unfold _update_on_duty_pharmacies. rewrite H. reflexivity.
Qed.

Lemma update_length (now : timestamp) (s e : string) (ids : list Z) (d : db) :
  List.length (on_duty_pharmacies (_update_on_duty_pharmacies now s e ids d))
  = Nat.max 1 (List.length (on_duty_pharmacies d)).
Proof.
  destruct (min_id (on_duty_pharmacies d)) as [m|] eqn:E.
  - rewrite (update_when_present _ _ _ _ _ _ E). cbn. rewrite length_map.
    destruct (on_duty_pharmacies d); [discriminate | reflexivity].
  - apply min_id_none in E. rewrite (update_when_empty _ _ _ _ _ E), E.
    reflexivity.
Qed.

Lemma reconcile_all_length (rs : list reconciliation) (d : db) :
  rs <> [] ->
  List.length (on_duty_pharmacies (reconcile_all rs d))
  = Nat.max 1 (List.length (on_duty_pharmacies d)).
Proof.
  unfold reconcile_all. revert d. induction rs as [|r rs IH]; intros d Hne.
  - congruence.
  - cbn [fold_left]. destruct rs as [|r' rs].
    + cbn [fold_left]. destruct r as [[[now s] e] ids]. apply update_length.
    + rewrite IH by discriminate.
      destruct r as [[[now s] e] ids]. cbn [reconcile].
      rewrite update_length. lia.
Qed.

(** C4. From an empty roster table, any positive number of reconciliations
    leaves exactly one row; a reconciliation inserts only into an empty
    table, and otherwise overwrites the row of least identifier where it
    stands, the number of rows and their identifiers unchanged. *)
Theorem roster_singleton (rs : list reconciliation) (d : db) :
  (rs <> [] -> on_duty_pharmacies d = [] ->
   List.length (on_duty_pharmacies (reconcile_all rs d)) = 1%nat)
  /\ (forall now s e ids,
       on_duty_pharmacies d = [] ->
       on_duty_pharmacies (_update_on_duty_pharmacies now s e ids d)
       = [mk_on_duty (next_id d) s e ids now now])
  /\ (forall now s e ids,
       on_duty_pharmacies d <> [] ->
       exists m,
         min_id (on_duty_pharmacies d) = Some m
         /\ (forall r, In r (on_duty_pharmacies d) -> (m <= od_id r)%Z)
         /\ on_duty_pharmacies (_update_on_duty_pharmacies now s e ids d)
            = map (fun r => if Z.eqb (od_id r) m
                            then overwritten now s e ids r else r)
                  (on_duty_pharmacies d)
         /\ List.length (on_duty_pharmacies (_update_on_duty_pharmacies now s e ids d))
            = List.length (on_duty_pharmacies d)
         /\ map od_id (on_duty_pharmacies (_update_on_duty_pharmacies now s e ids d))
            = map od_id (on_duty_pharmacies d)).
Proof.
  split; [|split].
  - intros Hne Hd. rewrite reconcile_all_length by exact Hne.
    rewrite Hd. reflexivity.
  - intros now s e ids Hd. rewrite (update_when_empty _ _ _ _ _ Hd). reflexivity.
  - intros now s e ids Hd.
    destruct (min_id (on_duty_pharmacies d)) as [m|] eqn:E.
    + exists m. rewrite (update_when_present _ _ _ _ _ _ E). cbn.
      split; [reflexivity|]. split; [apply (min_id_spec _ _ E)|].
      split; [reflexivity|]. split; [apply length_map | apply overwrite_ids].
    + apply min_id_none in E. contradiction.
Qed.

Lemma roster_singleton_witness :
  List.length (on_duty_pharmacies
                 (reconcile_all [(10%Z, "2025-01-05", "2025-01-11", [7%Z]);
                                 (20%Z, "2025-01-12", "2025-01-18", [3%Z; 9%Z]);
                                 (30%Z, "2025-01-19", "2025-01-25", [])]
                                Samples.registry)) = 1%nat.
Proof.
  apply (proj1 (roster_singleton _ Samples.registry)).
  - discriminate.
  - reflexivity.
Defined.

(** ** What a run stores *)

Lemma match_step_contribution (d : db) (acc : list Z) (p : listing) :
  match_step d acc p = acc ++ contribution d p.
Proof.
  unfold match_step, match_step_with, contribution.
  destruct (truthy (name p) && truthy (city p)); [|now rewrite app_nil_r].
  destruct (_find_pharmacy_match d (name p) (city p)) as [id|];
    [|now rewrite app_nil_r].
  destruct (Z.eqb id 0); [now rewrite app_nil_r | reflexivity].
Qed.

Lemma fold_match_step (d : db) (ps : list listing) (acc : list Z) :
  fold_left (match_step d) ps acc = acc ++ flat_map (contribution d) ps.
Proof.
  revert acc. induction ps as [|p ps IH]; intros acc; cbn [fold_left flat_map].
  - now rewrite app_nil_r.
  - rewrite IH, match_step_contribution, app_assoc. reflexivity.
Qed.

Lemma matched_ids_flat_map (d : db) (ps : list listing) :
  matched_ids d ps = flat_map (contribution d) ps.
Proof. apply fold_match_step. Qed.

Lemma process_with_period (now : timestamp) (ps : list listing) (s e : string)
      (d : db) :
  truthy s = true -> truthy e = true ->
  process_scraped_pharmacies now ps (Some s) (Some e) d
  = _update_on_duty_pharmacies now s e (matched_ids d ps) d.
Proof.
  intros Hs He. unfold process_scraped_pharmacies. rewrite Hs, He. reflexivity.
Qed.

(** After a reconciliation the row of least identifier carries the period,
    the identifiers and the clock reading of that reconciliation. *)
Lemma update_first_row (now : timestamp) (s e : string) (ids : list Z) (d : db) :
  exists m,
    min_id (on_duty_pharmacies (_update_on_duty_pharmacies now s e ids d)) = Some m
    /\ forall r,
        In r (on_duty_pharmacies (_update_on_duty_pharmacies now s e ids d)) ->
        od_id r = m ->
        start_date r = s /\ end_date r = e /\ pharmacy_ids r = ids
        /\ updated_at r = now.
Proof.
  destruct (min_id (on_duty_pharmacies d)) as [m|] eqn:E.
  - exists m. rewrite (update_when_present _ _ _ _ _ _ E). cbn. split.
    + unfold min_id. rewrite overwrite_ids. exact E.
    + intros r Hr Hm. apply in_map_iff in Hr. destruct Hr as (r0 & <- & _).
      destruct (Z.eqb (od_id r0) m) eqn:Em.
      * cbn. auto.
      * apply Z.eqb_neq in Em. contradiction.
  - apply min_id_none in E. exists (next_id d).
    rewrite (update_when_empty _ _ _ _ _ E). cbn. split; [reflexivity|].
    intros r [<-|[]] _. cbn. auto.
Qed.

(** C1 as amended. A run with a period present stores, in the roster row of
    least identifier, one identifier per matched listing, in the order of
    the listings: nothing is removed, so an identifier matched by several
    listings is stored once for each of them. *)
Theorem stored_ids_are_matches (now : timestamp) (ps : list listing)
        (s e : string) (d : db) :
  truthy s = true -> truthy e = true ->
  let d' := process_scraped_pharmacies now ps (Some s) (Some e) d in
  exists r,
    In r (on_duty_pharmacies d')
    /\ min_id (on_duty_pharmacies d') = Some (od_id r)
    /\ pharmacy_ids r = flat_map (contribution d) ps
    /\ forall id,
        count_occ Z.eq_dec (pharmacy_ids r) id
        = List.length (filter (fun p => existsb (Z.eqb id) (contribution d p)) ps).
Proof.
  intros Hs He d'. subst d'. rewrite (process_with_period _ _ _ _ _ Hs He).
  destruct (update_first_row now s e (matched_ids d ps) d) as (m & Hm & Hrow).
  destruct (min_id_spec _ _ Hm) as [(r & Hr & Hid) _].
  exists r. split; [exact Hr|]. split; [now rewrite Hid|].
  destruct (Hrow r Hr Hid) as (_ & _ & Hids & _).
  rewrite Hids, matched_ids_flat_map. split; [reflexivity|].
  intros id. clear. induction ps as [|p ps IH]; [reflexivity|].
  cbn [flat_map filter]. rewrite count_occ_app, IH.
  unfold contribution at 1 3.
  destruct (truthy (name p) && truthy (city p)); [|reflexivity].
  destruct (_find_pharmacy_match d (name p) (city p)) as [x|]; [|reflexivity].
  destruct (Z.eqb x 0); [reflexivity|]. cbn.
  destruct (Z.eq_dec x id) as [->|Hne].
  - rewrite Z.eqb_refl. reflexivity.
  - destruct (Z.eqb id x) eqn:E; [apply Z.eqb_eq in E; congruence | reflexivity].
Qed.

Lemma stored_ids_are_matches_witness :
  exists r,
    In r (on_duty_pharmacies
            (process_scraped_pharmacies 10%Z [Samples.rina; Samples.nameless;
                                              Samples.rina_again]
               (Some "2025-01-05") (Some "2025-01-11") Samples.registry))
    /\ pharmacy_ids r
       = flat_map (contribution Samples.registry)
                  [Samples.rina; Samples.nameless; Samples.rina_again].
Proof.
  destruct (stored_ids_are_matches 10%Z
              [Samples.rina; Samples.nameless; Samples.rina_again]
              "2025-01-05" "2025-01-11" Samples.registry eq_refl eq_refl)
    as (r & Hr & _ & Hids & _).
  exists r. split; assumption.
Defined.

(** C1 as stated fails: two listings of one pharmacy store its identifier
    twice. *)
Lemma stored_ids_duplicate :
  exists r,
    on_duty_pharmacies
      (process_scraped_pharmacies 10%Z [Samples.rina; Samples.rina_again]
         (Some "2025-01-05") (Some "2025-01-11") Samples.registry) = [r]
    /\ pharmacy_ids r = [7%Z; 7%Z]
    /\ ~ NoDup (pharmacy_ids r).
Proof.
  eexists. split; [vm_compute; reflexivity|]. cbn [pharmacy_ids].
  split; [reflexivity|].
  intros H. inversion H as [|x l Hin _]. apply Hin. now left.
Qed.

(** ** Reconciling twice *)

Lemma update_registry (now : timestamp) (s e : string) (ids : list Z) (d : db) :
  cities (_update_on_duty_pharmacies now s e ids d) = cities d
  /\ pharmacies (_update_on_duty_pharmacies now s e ids d) = pharmacies d.
Proof.
  unfold _update_on_duty_pharmacies.
  destruct (min_id (on_duty_pharmacies d)); split; reflexivity.
Qed.

(** C6 as amended. Reconciling the same period and identifiers a second
    time changes nothing but the update timestamp of the roster row, which
    takes the clock reading of the second run; at the same clock reading the
    second run changes nothing at all. *)
Theorem reconcile_twice (t1 t2 : timestamp) (s e : string) (ids : list Z) (d : db) :
  let once := _update_on_duty_pharmacies t1 s e ids d in
  let twice := _update_on_duty_pharmacies t2 s e ids once in
  map without_updated_at (on_duty_pharmacies twice)
  = map without_updated_at (on_duty_pharmacies once)
  /\ on_duty_seq twice = on_duty_seq once
  /\ cities twice = cities once
  /\ pharmacies twice = pharmacies once
  /\ (exists m, min_id (on_duty_pharmacies twice) = Some m
                /\ forall r, In r (on_duty_pharmacies twice) -> od_id r = m ->
                             updated_at r = t2)
  /\ _update_on_duty_pharmacies t1 s e ids once = once.
Proof.
  intros once twice.
  destruct (update_first_row t1 s e ids d) as (m & Hm & Hrow).
  fold once in Hm, Hrow.
  assert (Hsame : forall t,
             on_duty_pharmacies (_update_on_duty_pharmacies t s e ids once)
             = map (fun r => if Z.eqb (od_id r) m
                             then overwritten t s e ids r else r)
                   (on_duty_pharmacies once)
             /\ on_duty_seq (_update_on_duty_pharmacies t s e ids once)
                = on_duty_seq once).
  { intros t. rewrite (update_when_present _ _ _ _ _ _ Hm). split; reflexivity. }
  split; [|split; [|split; [|split; [|split]]]].
  - unfold twice. rewrite (proj1 (Hsame t2)), map_map. apply map_ext_in.
    intros r Hr. destruct (Z.eqb (od_id r) m) eqn:Em; [|reflexivity].
    apply Z.eqb_eq in Em. destruct (Hrow r Hr Em) as (<- & <- & <- & _).
    reflexivity.
  - apply Hsame.
  - apply update_registry.
  - apply update_registry.
  - destruct (update_first_row t2 s e ids once) as (m2 & Hm2 & Hrow2).
    exists m2. split; [exact Hm2|]. intros r Hr Hid. apply (Hrow2 r Hr Hid).
  - destruct (Hsame t1) as [Hrows Hseq].
    assert (Hid : on_duty_pharmacies (_update_on_duty_pharmacies t1 s e ids once)
                  = on_duty_pharmacies once).
    { rewrite Hrows. rewrite <- (map_id (on_duty_pharmacies once)) at 2.
      apply map_ext_in. intros r Hr.
      destruct (Z.eqb (od_id r) m) eqn:Em; [|reflexivity].
      apply Z.eqb_eq in Em. destruct (Hrow r Hr Em) as (<- & <- & <- & <-).
      destruct r; reflexivity. }
    destruct (update_registry t1 s e ids once) as [Hc Hp].
    destruct (_update_on_duty_pharmacies t1 s e ids once) as [c p o q].
    destruct once as [c' p' o' q']. cbn in *. congruence.
Qed.

(** C6 as stated fails: the second run refreshes the update timestamp. *)
Lemma reconcile_twice_differs :
  let once := _update_on_duty_pharmacies 10%Z "2025-01-05" "2025-01-11" [7%Z]
                                         init_db in
  let twice := _update_on_duty_pharmacies 20%Z "2025-01-05" "2025-01-11" [7%Z]
                                          once in
  twice <> once
  /\ map updated_at (on_duty_pharmacies once) = [10%Z]
  /\ map updated_at (on_duty_pharmacies twice) = [20%Z].
Proof.
  cbv zeta. split; [|split; reflexivity].
  vm_compute. discriminate.
Qed.

(** ** Runs without a validity period *)

Lemma process_without_period (now : timestamp) (ps : list listing)
      (s e : option string) (d : db) :
  truthy_opt s = false \/ truthy_opt e = false ->
  process_scraped_pharmacies now ps s e d = d.
Proof.
  unfold process_scraped_pharmacies, truthy_opt.
  destruct s as [s|], e as [e|]; try reflexivity.
  intros [->| ->]; [reflexivity|]. now rewrite andb_false_r.
Qed.

(** C3. A run whose page gives no validity period writes nothing: the
    database after the run is the database before it, roster rows with
    their periods, identifiers and timestamps included.  A failed request
    and a failed parse give no period, so they write nothing either, and the
    same holds when the run is started by the expiry check. *)
Theorem no_period_no_write (now : timestamp) (d : db) :
  (forall ps s e,
      s = None \/ e = None -> process_scraped_pharmacies now ps s e d = d)
  /\ (forall page,
         snd (fst (scrape_pharmacies page)) = None
         \/ snd (scrape_pharmacies page) = None ->
         ingest now page d = d
         /\ forall today, snd (check_and_update_on_duty today now page d) = d)
  /\ scrape_pharmacies RequestException = ([], None, None)
  /\ scrape_pharmacies ParserException = ([], None, None)
  /\ ingest now RequestException d = d
  /\ ingest now ParserException d = d.
Proof.
  assert (H1 : forall ps s e,
             s = None \/ e = None -> process_scraped_pharmacies now ps s e d = d).
  { intros ps s e H. apply process_without_period.
    destruct H as [->| ->]; [left | right]; reflexivity. }
  assert (H2 : forall page,
             snd (fst (scrape_pharmacies page)) = None
             \/ snd (scrape_pharmacies page) = None ->
             ingest now page d = d).
  { intros page H. unfold ingest.
    destruct (scrape_pharmacies page) as [[ps s] e]. cbn [fst snd] in H.
    apply H1. exact H. }
  split; [exact H1|]. split; [|repeat split; apply H2; left; reflexivity].
  intros page H. split; [apply H2, H|].
  intros today. unfold check_and_update_on_duty.
  destruct (select_end_date d) as [result|]; [|apply H2, H].
  destruct (strptime_Ymd result) as [end_date|]; [|reflexivity].
  destruct (date_gtb today end_date); [apply H2, H | reflexivity].
Qed.

Lemma no_period_no_write_witness :
  ingest 20%Z (Parsed Samples.page_without_period) Samples.registry_with_roster
  = Samples.registry_with_roster.
Proof.
  apply (proj1 (proj2 (no_period_no_write 20%Z Samples.registry_with_roster))).
  left. vm_compute. reflexivity.
Defined.

(** ** The expiry check *)

Lemma select_end_date_none (d : db) :
  select_end_date d = None <-> on_duty_pharmacies d = [].
Proof.
  unfold select_end_date. split.
  - destruct (max_id (on_duty_pharmacies d)) as [m|] eqn:E.
    + destruct (max_id_spec _ _ E) as [(r & Hr & Hid) _].
      destruct (List.find (fun r0 => Z.eqb (od_id r0) m) (on_duty_pharmacies d))
        as [r'|] eqn:F; [discriminate|].
      intros _. exfalso. apply (find_none _ _ F) in Hr.
      rewrite Hid, Z.eqb_refl in Hr. discriminate.
    + intros _. apply max_id_none. exact E.
  - intros ->. reflexivity.
Qed.

(** The end date the check reads is that of a row of greatest identifier. *)
Lemma select_end_date_some (d : db) (s : string) :
  select_end_date d = Some s ->
  exists r,
    In r (on_duty_pharmacies d)
    /\ end_date r = s
    /\ forall r', In r' (on_duty_pharmacies d) -> (od_id r' <= od_id r)%Z.
Proof.
  unfold select_end_date.
  destruct (max_id (on_duty_pharmacies d)) as [m|] eqn:E; [|discriminate].
  destruct (List.find (fun r0 => Z.eqb (od_id r0) m) (on_duty_pharmacies d))
    as [r|] eqn:F; [|discriminate].
  cbn. intros [= <-]. apply find_some in F. destruct F as [Hr Hid].
  apply Z.eqb_eq in Hid. exists r. split; [exact Hr|]. split; [reflexivity|].
  rewrite Hid. apply (max_id_spec _ _ E).
Qed.

(** C5. The check runs the scraper and the reconciliation exactly when the
    roster table is empty or today is strictly after the end date it reads;
    when today is on or before that end date it does nothing and the
    database is unchanged. *)
Theorem expiry_check (today : date) (now : timestamp) (page : fetched) (d : db) :
  let res := check_and_update_on_duty today now page d in
  (fst res = ScraperRun <->
   on_duty_pharmacies d = []
   \/ exists s end_date,
       select_end_date d = Some s /\ strptime_Ymd s = Some end_date
       /\ date_ltb end_date today = true)
  /\ (fst res = ScraperRun -> snd res = ingest now page d)
  /\ (forall s end_date,
         select_end_date d = Some s -> strptime_Ymd s = Some end_date ->
         date_leb today end_date = true ->
         res = (StillValid, d))
  /\ (fst res <> ScraperRun -> snd res = d).
Proof.
  cbv zeta. unfold check_and_update_on_duty, date_gtb, date_leb.
  destruct (select_end_date d) as [s|] eqn:Es.
  - assert (Hne : on_duty_pharmacies d <> []).
    { intros H. apply select_end_date_none in H. congruence. }
    destruct (strptime_Ymd s) as [end_date|] eqn:Ep.
    + destruct (date_ltb end_date today) eqn:El; cbn [fst snd].
      * split; [|split; [|split]].
        -- split; [|reflexivity]. intros _. right. eauto.
        -- reflexivity.
        -- intros s' e' [= <-] He. rewrite Ep in He. injection He as <-.
           rewrite El. discriminate.
        -- congruence.
      * split; [|split; [|split]].
        -- split; [discriminate|].
           intros [H|(s' & e' & [= <-] & He & Hl)]; [contradiction|].
           rewrite Ep in He. injection He as <-. congruence.
        -- discriminate.
        -- reflexivity.
        -- reflexivity.
    + cbn [fst snd]. split; [|split; [|split]].
      * split; [discriminate|].
        intros [H|(s' & e' & [= <-] & He & _)]; [contradiction | congruence].
      * discriminate.
      * intros s' e' [= <-] He. congruence.
      * reflexivity.
  - cbn [fst snd]. split; [|split; [|split]].
    + split; [|reflexivity]. intros _. left. apply select_end_date_none, Es.
    + reflexivity.
    + discriminate.
    + congruence.
Qed.

Lemma expiry_check_witness :
  snd (check_and_update_on_duty Samples.jan_20 20%Z
         (Parsed Samples.page_without_period) Samples.registry_with_roster)
  = ingest 20%Z (Parsed Samples.page_without_period) Samples.registry_with_roster
  /\ check_and_update_on_duty Samples.jan_11 20%Z
       (Parsed Samples.page_without_period) Samples.registry_with_roster
     = (StillValid, Samples.registry_with_roster).
Proof.
  split.
  - apply (proj1 (proj2 (expiry_check Samples.jan_20 20%Z
                           (Parsed Samples.page_without_period)
                           Samples.registry_with_roster))).
    vm_compute. reflexivity.
  - apply (proj1 (proj2 (proj2 (expiry_check Samples.jan_11 20%Z
                                  (Parsed Samples.page_without_period)
                                  Samples.registry_with_roster)))
             "2025-01-11" Samples.jan_11); vm_compute; reflexivity.
Defined.

(** ** Listings without a name or a city *)

Lemma lstrip_head (s : string) (c : ascii) (r : string) :
  lstrip s = String c r -> is_space c = false.
Proof.
  induction s as [|c0 s IH]; cbn [lstrip]; [discriminate|].
  destruct (is_space c0) eqn:E; [exact IH|].
  intros [= <- _]. exact E.
Qed.

Lemma rstrip_head (c : ascii) (r : string) :
  is_space c = false -> exists r', rstrip (String c r) = String c r'.
Proof.
  intros Hc. cbn [rstrip]. destruct (rstrip r) as [|c' r'].
  - rewrite Hc. eauto.
  - eauto.
Qed.

Lemma strip_head (s : string) :
  strip s = EmptyString
  \/ exists c r, strip s = String c r /\ is_space c = false.
Proof.
  unfold strip. destruct (lstrip s) as [|c r] eqn:E.
  - left. reflexivity.
  - right. pose proof (lstrip_head _ _ _ E) as Hc.
    destruct (rstrip_head c r Hc) as [r' Hr]. eauto.
Qed.

Lemma lstrip_nonspace (c : ascii) (r : string) :
  is_space c = false -> lstrip (String c r) = String c r.
Proof. intros Hc. cbn [lstrip]. now rewrite Hc. Qed.

(** The city of a stripped address is empty only without the separator. *)
Lemma city_of_address_empty (raw : string) :
  city_of_address (strip raw) = EmptyString
  <-> contains " - " (strip raw) = false.
Proof.
  unfold city_of_address.
  destruct (contains " - " (strip raw)) eqn:E; [|tauto].
  split; [|discriminate]. intros H. exfalso.
  destruct (strip_head raw) as [Hs|(c & r & Hs & Hc)]; rewrite Hs in *.
  - discriminate.
  - revert H. cbn [split_head prefix].
    destruct (ascii_dec " " c) as [<-|_]; [discriminate|].
    unfold strip. rewrite (lstrip_nonspace _ _ Hc).
    destruct (rstrip_head c (split_head " - " r) Hc) as [r' ->]. discriminate.
Qed.

Lemma falsy_listing (p : listing) :
  name p = EmptyString \/ city p = EmptyString ->
  truthy (name p) && truthy (city p) = false.
Proof.
  intros [-> | ->]; [reflexivity | apply andb_false_r].
Qed.

(** C10. The parser gives an empty name to a row whose first cell has no
    bold element and an empty city exactly to a row whose address has no
    separator; a listing with an empty name or an empty city leaves the
    list of matches as it is whatever the matcher would answer, so the
    matches of the run, and what the run stores, are those of the run
    without that listing. *)
Theorem empty_name_or_city_skipped :
  (forall row c0 c1 c2 cells,
      find_all "td" row = c0 :: c1 :: c2 :: cells ->
      exists l,
        _parse_pharmacy_row row = Some l
        /\ (find "b" c0 = None -> name l = EmptyString)
        /\ (city l = EmptyString <-> contains " - " (strip (text c1)) = false))
  /\ (forall find_match acc p,
         name p = EmptyString \/ city p = EmptyString ->
         match_step_with find_match acc p = acc)
  /\ (forall d p l1 l2,
         name p = EmptyString \/ city p = EmptyString ->
         matched_ids d (l1 ++ p :: l2) = matched_ids d (l1 ++ l2))
  /\ (forall now d p l1 l2 s e,
         name p = EmptyString \/ city p = EmptyString ->
         process_scraped_pharmacies now (l1 ++ p :: l2) s e d
         = process_scraped_pharmacies now (l1 ++ l2) s e d).
Proof.
  assert (Hids : forall d p l1 l2,
             name p = EmptyString \/ city p = EmptyString ->
             matched_ids d (l1 ++ p :: l2) = matched_ids d (l1 ++ l2)).
  { intros d p l1 l2 Hp. rewrite !matched_ids_flat_map, !flat_map_app.
    cbn [flat_map]. unfold contribution at 2.
    rewrite (falsy_listing p Hp). reflexivity. }
  split; [|split; [|split]].
  - intros row c0 c1 c2 cells Hcells. unfold _parse_pharmacy_row.
    rewrite Hcells. eexists. split; [reflexivity|]. cbn [name city]. split.
    + intros ->. reflexivity.
    + apply city_of_address_empty.
  - intros find_match acc p Hp. unfold match_step_with.
    rewrite (falsy_listing p Hp). reflexivity.
  - exact Hids.
  - intros now d p l1 l2 s e Hp. unfold process_scraped_pharmacies.
    rewrite (Hids d p l1 l2 Hp). reflexivity.
Qed.

Lemma empty_name_or_city_skipped_witness :
  (exists l, _parse_pharmacy_row Samples.plain_row = Some l
             /\ name l = EmptyString /\ city l = EmptyString)
  /\ matched_ids Samples.registry_with_blank [Samples.rina; Samples.nameless]
     = matched_ids Samples.registry_with_blank [Samples.rina].
Proof.
  destruct empty_name_or_city_skipped as (Hparse & _ & Hids & _). split.
  - destruct (Hparse Samples.plain_row
                (Samples.td [NavigableString "Pharmacie Rina"])
                (Samples.td [NavigableString " Analakely "])
                (Samples.td [NavigableString "020 22 000 00"]) [] eq_refl)
      as (l & Hl & Hname & Hcity).
    exists l. split; [exact Hl|]. split.
    + apply Hname. reflexivity.
    + apply Hcity. reflexivity.
  - apply (Hids Samples.registry_with_blank Samples.nameless [Samples.rina] []).
    left. reflexivity.
Defined.

(** The guard is what skips the listing: asked about an empty name, the
    matcher itself can answer. *)
Lemma matcher_answers_empty_name :
  _find_pharmacy_match Samples.registry_with_blank "" "TANA" = Some 5%Z.
Proof. vm_compute. reflexivity. Qed.

(** ** Decimal digits *)

Lemma mod10_cases (n : Z) :
  In (n mod 10)%Z [0; 1; 2; 3; 4; 5; 6; 7; 8; 9]%Z.
Proof.
  pose proof (Z.mod_pos_bound n 10 eq_refl) as H. cbn [In].
  assert (n mod 10 = 0 \/ n mod 10 = 1 \/ n mod 10 = 2 \/ n mod 10 = 3
          \/ n mod 10 = 4 \/ n mod 10 = 5 \/ n mod 10 = 6 \/ n mod 10 = 7
          \/ n mod 10 = 8 \/ n mod 10 = 9)%Z as Hc by lia.
  intuition auto.
Qed.

Ltac by_digit n :=
  let H := fresh "Hdigit" in
  pose proof (mod10_cases n) as H; unfold digit_char;
  cbn [In] in H;
  repeat (destruct H as [H|H]; [rewrite <- H; reflexivity|]);
  contradiction.

Lemma digit_char_is_digit (n : Z) : is_digit (digit_char n) = true.
Proof. by_digit n. Qed.

Lemma digit_char_not_space (n : Z) : is_space (digit_char n) = false.
Proof. by_digit n. Qed.

Lemma digit_val_digit_char (n : Z) : digit_val (digit_char n) = (n mod 10)%Z.
Proof.
  pose proof (mod10_cases n) as H. unfold digit_char. cbn [In] in H.
  repeat (destruct H as [H|H]; [rewrite <- H; reflexivity|]).
  contradiction.
Qed.

Lemma digit_char_digit_val (c : ascii) :
  is_digit c = true ->
  digit_char (digit_val c) = c /\ (0 <= digit_val c <= 9)%Z.
Proof.
  destruct c as [[] [] [] [] [] [] [] []]; try discriminate;
    intros _; vm_compute; intuition discriminate.
Qed.

Lemma digit_char_mod (a b : Z) :
  (a mod 10 = b mod 10)%Z -> digit_char a = digit_char b.
Proof. unfold digit_char. intros ->. reflexivity. Qed.

Lemma pad2_digits (c1 c2 : ascii) :
  is_digit c1 = true -> is_digit c2 = true ->
  pad2 (10 * digit_val c1 + digit_val c2) = String c1 (String c2 EmptyString)
  /\ two_digits (10 * digit_val c1 + digit_val c2).
Proof.
  intros H1 H2.
  destruct (digit_char_digit_val c1 H1) as [E1 B1].
  destruct (digit_char_digit_val c2 H2) as [E2 B2].
  split; [|unfold two_digits; lia].
  transitivity (String (digit_char (digit_val c1))
                       (String (digit_char (digit_val c2)) EmptyString));
    [|now rewrite E1, E2].
  unfold pad2. f_equal; [|f_equal]; apply digit_char_mod.
  - f_equal. rewrite Z.add_comm, Z.mul_comm, Z.div_add by lia.
    rewrite Z.div_small by lia. reflexivity.
  - rewrite Z.add_comm, Z.mul_comm, Z.mod_add by lia. reflexivity.
Qed.

Lemma pad4_digits (c1 c2 c3 c4 : ascii) :
  is_digit c1 = true -> is_digit c2 = true ->
  is_digit c3 = true -> is_digit c4 = true ->
  let n := (1000 * digit_val c1 + 100 * digit_val c2
            + 10 * digit_val c3 + digit_val c4)%Z in
  pad4 n = String c1 (String c2 (String c3 (String c4 EmptyString)))
  /\ four_digits n.
Proof.
  intros H1 H2 H3 H4 n.
  destruct (digit_char_digit_val c1 H1) as [E1 B1].
  destruct (digit_char_digit_val c2 H2) as [E2 B2].
  destruct (digit_char_digit_val c3 H3) as [E3 B3].
  destruct (digit_char_digit_val c4 H4) as [E4 B4].
  split; [|unfold four_digits; lia].
  transitivity (String (digit_char (digit_val c1))
                (String (digit_char (digit_val c2))
                 (String (digit_char (digit_val c3))
                  (String (digit_char (digit_val c4)) EmptyString))));
    [|now rewrite E1, E2, E3, E4].
  assert (Hdiv : forall q r b : Z,
             (0 <= r < b)%Z -> ((r + q * b) / b = q)%Z).
  { intros q r b Hr. rewrite Z.div_add by lia. rewrite Z.div_small by lia.
    reflexivity. }
  unfold pad4, pad2.
  f_equal; [|f_equal; [|f_equal; [|f_equal]]]; apply digit_char_mod; subst n.
  - f_equal.
    replace (1000 * digit_val c1 + 100 * digit_val c2 + 10 * digit_val c3
             + digit_val c4)%Z
      with ((100 * digit_val c2 + 10 * digit_val c3 + digit_val c4)
            + digit_val c1 * 1000)%Z by lia.
    apply Hdiv. lia.
  - replace (1000 * digit_val c1 + 100 * digit_val c2 + 10 * digit_val c3
             + digit_val c4)%Z
      with ((10 * digit_val c3 + digit_val c4)
            + (digit_val c2 + digit_val c1 * 10) * 100)%Z by lia.
    rewrite Hdiv by lia. apply Z.mod_add. lia.
  - replace (1000 * digit_val c1 + 100 * digit_val c2 + 10 * digit_val c3
             + digit_val c4)%Z
      with (digit_val c4
            + (digit_val c3 + (10 * digit_val c1 + digit_val c2) * 10) * 10)%Z
      by lia.
    rewrite Hdiv by lia. apply Z.mod_add. lia.
  - replace (1000 * digit_val c1 + 100 * digit_val c2 + 10 * digit_val c3
             + digit_val c4)%Z
      with (digit_val c4
            + (100 * digit_val c1 + 10 * digit_val c2 + digit_val c3) * 10)%Z
      by lia.
    apply Z.mod_add. lia.
Qed.

Lemma pad4_value (y : Z) :
  four_digits y ->
  (1000 * ((y / 1000) mod 10) + 100 * ((y / 100) mod 10)
   + 10 * ((y / 10) mod 10) + y mod 10 = y)%Z.
Proof.
  unfold four_digits. intros H.
  rewrite (Z.mod_small (y / 1000)) by (split; [apply Z.div_pos; lia |
    apply Z.div_lt_upper_bound; lia]).
  pose proof (Z.div_mod y 10 ltac:(lia)).
  pose proof (Z.div_mod (y / 10) 10 ltac:(lia)).
  pose proof (Z.div_mod (y / 100) 10 ltac:(lia)).
  replace (y / 100)%Z with (y / 10 / 10)%Z in *
    by (rewrite Z.div_div by lia; reflexivity).
  replace (y / 1000)%Z with (y / 10 / 10 / 10)%Z
    by (rewrite !Z.div_div by lia; reflexivity).
  lia.
Qed.

(** ** Reading and writing dates *)

Local Open Scope string_scope.

Ltac by_two_digits d :=
  let n := fresh "n" in
  let Hn := fresh "Hn" in
  assert (exists n, (n < 100)%nat /\ d = Z.of_nat n) as (n & Hn & ->)
      by (exists (Z.to_nat d); unfold two_digits in *; lia);
  do 100 (destruct n as [|n]; [vm_compute; reflexivity|]);
  exfalso; lia.

Lemma then_lit_dir_d (sep : ascii) (d : Z) (r : string) :
  separator sep -> two_digits d ->
  then_lit dir_d sep (pad2 d ++ String sep r)
  = if (1 <=? d)%Z && (d <=? 31)%Z then [(d, r)] else [].
Proof. intros [-> | ->] Hd; by_two_digits d. Qed.

Lemma then_lit_dir_m (sep : ascii) (m : Z) (r : string) :
  separator sep -> two_digits m ->
  then_lit dir_m sep (pad2 m ++ String sep r)
  = if (1 <=? m)%Z && (m <=? 12)%Z then [(m, r)] else [].
Proof. intros [-> | ->] Hm; by_two_digits m. Qed.

Lemma dir_Y_pad4 (y : Z) (r : string) :
  four_digits y -> dir_Y (pad4 y ++ r) = [(y, r)].
Proof.
  intros Hy. unfold dir_Y, pad4, pad2. cbn [append].
  rewrite !digit_char_is_digit. cbn [andb].
  rewrite !digit_val_digit_char, (pad4_value y Hy). reflexivity.
Qed.

Lemma valid_date_range (y m d : Z) :
  valid_date y m d = true ->
  (1 <= y <= 9999)%Z /\ (1 <= m <= 12)%Z /\ (1 <= d <= 31)%Z.
Proof.
  unfold valid_date, days_in_month. intros H.
  repeat (apply andb_prop in H; destruct H as [H ?]).
  destruct (m =? 2)%Z; [destruct (is_leap y)|];
    [| |destruct ((m =? 4) || (m =? 6) || (m =? 9) || (m =? 11))%Z]; lia.
Qed.

Lemma make_date_out_of_range (y m d : Z) :
  (1 <=? d)%Z && (d <=? 31)%Z = false \/ (1 <=? m)%Z && (m <=? 12)%Z = false ->
  make_date y m d = None.
Proof.
  intros H. unfold make_date. destruct (valid_date y m d) eqn:E; [|reflexivity].
  apply valid_date_range in E. exfalso. destruct H as [H|H];
    apply andb_false_iff in H; destruct H as [H|H]; lia.
Qed.

(** [strptime] reads the text [dd/mm/yyyy] of three numbers as their date
    when they make one, and fails otherwise. *)
Lemma strptime_dmY_text (d m y : Z) :
  two_digits d -> two_digits m -> four_digits y ->
  strptime_dmY (dmy_text d m y) = make_date y m d.
Proof.
  intros Hd Hm Hy. unfold strptime_dmY, strptime_with, three, dmy_text.
  cbn [append].
  rewrite (then_lit_dir_d "/" d _ (or_introl eq_refl) Hd).
  destruct ((1 <=? d)%Z && (d <=? 31)%Z) eqn:Ed; cbn [flat_map].
  2:{ symmetry. apply make_date_out_of_range. now left. }
  rewrite (then_lit_dir_m "/" m _ (or_introl eq_refl) Hm).
  destruct ((1 <=? m)%Z && (m <=? 12)%Z) eqn:Em; cbn [flat_map].
  2:{ symmetry. apply make_date_out_of_range. now right. }
  change (pad4 y) with (pad4 y ++ ""). rewrite (dir_Y_pad4 y "" Hy).
  reflexivity.
Qed.

Lemma year_text_from_1000 (y : Z) : (1000 <= y)%Z -> year_text y = pad4 y.
Proof.
  intros H. unfold year_text.
  destruct (Z.ltb_spec y 10); [lia|]. destruct (Z.ltb_spec y 100); [lia|].
  destruct (Z.ltb_spec y 1000); [lia | reflexivity].
Qed.

(** From the year 1000 on [strftime] writes the text [yyyy-mm-dd]. *)
Lemma strftime_iso (y m d : Z) :
  (1000 <= y)%Z -> strftime_Ymd (mk_date y m d) = iso_text y m d.
Proof.
  intros H. unfold strftime_Ymd, iso_text. cbn [year month day].
  now rewrite year_text_from_1000.
Qed.

Lemma strftime_truthy (d : date) : truthy (strftime_Ymd d) = true.
Proof.
  unfold strftime_Ymd, year_text.
  destruct (year d <? 10)%Z; [reflexivity|].
  destruct (year d <? 100)%Z; [reflexivity|].
  destruct (year d <? 1000)%Z; reflexivity.
Qed.

(** Below the year 1000 it writes fewer than ten characters. *)
Lemma strftime_short (y m d : Z) :
  (y < 1000)%Z -> (String.length (strftime_Ymd (mk_date y m d)) < 10)%nat.
Proof.
  intros H. unfold strftime_Ymd, year_text. cbn [year month day].
  destruct (Z.ltb_spec y 10); [cbn; lia|].
  destruct (Z.ltb_spec y 100); [cbn; lia|].
  destruct (Z.ltb_spec y 1000); [cbn; lia | lia].
Qed.

Lemma dir_Y_needs_four_digits (c1 c2 c3 c4 : ascii) (r : string) :
  is_digit c2 && is_digit c3 && is_digit c4 = false ->
  dir_Y (String c1 (String c2 (String c3 (String c4 r)))) = [].
Proof.
  intros H. unfold dir_Y.
  destruct (is_digit c1), (is_digit c2), (is_digit c3), (is_digit c4);
    try reflexivity; discriminate.
Qed.

(** Such a text is not of the format [%Y-%m-%d]: [%Y] reads four digits. *)
Lemma strptime_Ymd_unpadded (y m d : Z) :
  (y < 1000)%Z -> strptime_Ymd (strftime_Ymd (mk_date y m d)) = None.
Proof.
  intros H.
  assert (HY : dir_Y (strftime_Ymd (mk_date y m d)) = []).
  { unfold strftime_Ymd, year_text, pad2. cbn [year month day].
    destruct (Z.ltb_spec y 10); [|destruct (Z.ltb_spec y 100);
                                   [|destruct (Z.ltb_spec y 1000); [|lia]]];
      cbn [append]; apply dir_Y_needs_four_digits;
      rewrite ?digit_char_is_digit; reflexivity. }
  unfold strptime_Ymd, strptime_with, three, then_lit at 2. rewrite HY.
  reflexivity.
Qed.

(** The check reads back every end date the scraper writes. *)
Lemma strptime_Ymd_text (y m d : Z) :
  two_digits d -> two_digits m -> four_digits y ->
  strptime_Ymd (iso_text y m d) = make_date y m d.
Proof.
  intros Hd Hm Hy. unfold strptime_Ymd, strptime_with, three, iso_text.
  unfold then_lit at 2. rewrite (dir_Y_pad4 y _ Hy).
  cbn [flat_map lit append map]. rewrite Ascii.eqb_refl. cbn [map app flat_map].
  rewrite (then_lit_dir_m "-" m _ (or_intror eq_refl) Hm).
  destruct ((1 <=? m)%Z && (m <=? 12)%Z) eqn:Em; cbn [flat_map].
  2:{ symmetry. apply make_date_out_of_range. now right. }
  rewrite !app_nil_r.
  transitivity (if (1 <=? d)%Z && (d <=? 31)%Z then make_date y m d else None).
  - generalize make_date. intros f. by_two_digits d.
  - destruct ((1 <=? d)%Z && (d <=? 31)%Z) eqn:Ed; [reflexivity|].
    symmetry. apply make_date_out_of_range. now left.
Qed.

(** ** The title pattern *)

Lemma append_assoc (a b c : string) : (a ++ b) ++ c = a ++ (b ++ c).
Proof. induction a as [|x a IH]; cbn; [reflexivity | now rewrite IH]. Qed.

Lemma substring_0_0 (s : string) : substring 0 0 s = "".
Proof. destruct s; reflexivity. Qed.

Lemma date_group_text (d m y : Z) (r : string) :
  date_group (dmy_text d m y ++ r) = Some (dmy_text d m y, r).
Proof.
  unfold dmy_text, pad4, pad2, date_group. cbn [append forallb].
  rewrite !digit_char_is_digit. cbn [andb].
  change (Ascii.eqb "/" "/") with true. cbn [andb substring].
  rewrite substring_0_0. reflexivity.
Qed.

Lemma date_group_inv (s g r : string) :
  date_group s = Some (g, r) ->
  s = g ++ r
  /\ exists d m y,
      two_digits d /\ two_digits m /\ four_digits y /\ g = dmy_text d m y.
Proof.
  unfold date_group.
  destruct s as [|d1 [|d2 [|s1 [|m1 [|m2 [|s2 [|y1 [|y2 [|y3 [|y4 r0]]]]]]]]]];
    try discriminate.
  destruct (forallb is_digit [d1; d2; m1; m2; y1; y2; y3; y4]
            && Ascii.eqb s1 "/" && Ascii.eqb s2 "/") eqn:E; [|discriminate].
  apply andb_prop in E. destruct E as [E E2]. apply andb_prop in E.
  destruct E as [E E1]. apply Ascii.eqb_eq in E1, E2. subst s1 s2.
  cbn [forallb] in E.
  repeat (apply andb_prop in E; let H := fresh "Hd" in destruct E as [H E]).
  cbn [substring]. rewrite substring_0_0. intros [= <- <-].
  split; [reflexivity|].
  destruct (pad2_digits d1 d2) as [P1 R1]; try assumption.
  destruct (pad2_digits m1 m2) as [P2 R2]; try assumption.
  destruct (pad4_digits y1 y2 y3 y4) as [P3 R3]; try assumption.
  eexists _, _, _. split; [exact R1|]. split; [exact R2|]. split; [exact R3|].
  unfold dmy_text. rewrite P1, P2, P3. reflexivity.
Qed.

Lemma lstrip_run (ws r : string) :
  all_space ws = true -> starts_unblank r -> lstrip (ws ++ r) = r.
Proof.
  intros Hws Hr. induction ws as [|c ws IH]; cbn [append lstrip].
  - destruct r as [|c r]; [reflexivity|]. cbn in Hr. cbn. now rewrite Hr.
  - cbn [all_space] in Hws. apply andb_prop in Hws. destruct Hws as [-> Hws].
    apply IH, Hws.
Qed.

Lemma lstrip_inv (s : string) :
  exists ws, s = ws ++ lstrip s /\ all_space ws = true.
Proof.
  induction s as [|c s (ws & Hs & Hws)]; cbn [lstrip].
  - exists "". split; reflexivity.
  - destruct (is_space c) eqn:E.
    + exists (String c ws). cbn. rewrite E, Hws, <- Hs. split; reflexivity.
    + exists "". split; reflexivity.
Qed.

Lemma spaces1_run (ws r : string) :
  blank_run ws = true -> starts_unblank r -> spaces1 (ws ++ r) = Some r.
Proof.
  unfold blank_run. destruct ws as [|c ws]; [discriminate|].
  cbn [truthy andb all_space append spaces1]. intros H Hr.
  apply andb_prop in H. destruct H as [-> H].
  now rewrite (lstrip_run ws r H Hr).
Qed.

Lemma spaces1_inv (s r : string) :
  spaces1 s = Some r -> exists ws, s = ws ++ r /\ blank_run ws = true.
Proof.
  unfold spaces1. destruct s as [|c s]; [discriminate|].
  destruct (is_space c) eqn:E; [|discriminate]. intros [= <-].
  destruct (lstrip_inv s) as (ws & Hs & Hws).
  exists (String c ws). unfold blank_run. cbn. rewrite E, Hws, <- Hs.
  split; reflexivity.
Qed.

Lemma literal_au_inv (s r : string) : literal_au s = Some r -> s = "au" ++ r.
Proof.
  unfold literal_au. destruct s as [|c1 [|c2 s]]; try discriminate.
  destruct (Ascii.eqb c1 "a") eqn:E1; [|discriminate].
  destruct (Ascii.eqb c2 "u") eqn:E2; [|discriminate].
  apply Ascii.eqb_eq in E1, E2. subst. intros [= <-]. reflexivity.
Qed.

Lemma dmy_text_unblank (d m y : Z) (r : string) :
  starts_unblank (dmy_text d m y ++ r).
Proof. unfold dmy_text, pad2. cbn. apply digit_char_not_space. Qed.

(** The pattern matches at the head of a text exactly when the text starts
    with a date, blanks, [au], blanks and a date. *)
Lemma match_here_text (d1 m1 y1 d2 m2 y2 : Z) (ws1 ws2 post : string) :
  blank_run ws1 = true -> blank_run ws2 = true ->
  match_here (dmy_text d1 m1 y1 ++ ws1 ++ "au" ++ ws2 ++ dmy_text d2 m2 y2 ++ post)
  = Some (dmy_text d1 m1 y1, dmy_text d2 m2 y2).
Proof.
  intros H1 H2. unfold match_here.
  rewrite date_group_text. cbn [bind].
  rewrite (spaces1_run ws1 _ H1) by reflexivity. cbn [bind].
  change (literal_au ("au" ++ ws2 ++ dmy_text d2 m2 y2 ++ post))
    with (Some (ws2 ++ dmy_text d2 m2 y2 ++ post)). cbn [bind].
  rewrite (spaces1_run ws2 _ H2) by apply dmy_text_unblank. cbn [bind].
  rewrite date_group_text. reflexivity.
Qed.

Lemma match_here_inv (s g1 g2 : string) :
  match_here s = Some (g1, g2) ->
  exists d1 m1 y1 ws1 ws2 d2 m2 y2 post,
    two_digits d1 /\ two_digits m1 /\ four_digits y1
    /\ two_digits d2 /\ two_digits m2 /\ four_digits y2
    /\ blank_run ws1 = true /\ blank_run ws2 = true
    /\ g1 = dmy_text d1 m1 y1 /\ g2 = dmy_text d2 m2 y2
    /\ s = g1 ++ ws1 ++ "au" ++ ws2 ++ g2 ++ post.
Proof.
  unfold match_here.
  destruct (date_group s) as [[g r1]|] eqn:E1; [|discriminate]. cbn [bind].
  destruct (spaces1 r1) as [r2|] eqn:E2; [|discriminate]. cbn [bind].
  destruct (literal_au r2) as [r3|] eqn:E3; [|discriminate]. cbn [bind].
  destruct (spaces1 r3) as [r4|] eqn:E4; [|discriminate]. cbn [bind].
  destruct (date_group r4) as [[g' post]|] eqn:E5; [|discriminate]. cbn [bind].
  intros [= <- <-].
  apply date_group_inv in E1. destruct E1 as (-> & d1 & m1 & y1 & ? & ? & ? & ->).
  apply spaces1_inv in E2. destruct E2 as (ws1 & -> & ?).
  apply literal_au_inv in E3. subst r2.
  apply spaces1_inv in E4. destruct E4 as (ws2 & -> & ?).
  apply date_group_inv in E5. destruct E5 as (-> & d2 & m2 & y2 & ? & ? & ? & ->).
  exists d1, m1, y1, ws1, ws2, d2, m2, y2, post. repeat (split; [assumption|]).
  split; [reflexivity|]. split; reflexivity.
Qed.

Lemma re_search_here (s : string) (g : string * string) :
  match_here s = Some g -> re_search s = Some g.
Proof. intros H. destruct s; cbn [re_search]; rewrite H; reflexivity. Qed.

Lemma re_search_skip (pre rest : string) :
  no_match_inside pre rest = true -> re_search (pre ++ rest) = re_search rest.
Proof.
  induction pre as [|c pre IH]; [reflexivity|].
  cbn [no_match_inside]. intros H. apply andb_prop in H. destruct H as [H1 H2].
  cbn [append re_search]. cbn [append] in H1.
  destruct (match_here (String c (pre ++ rest))); [discriminate|].
  apply IH, H2.
Qed.

Lemma re_search_inv (title : string) (g : string * string) :
  re_search title = Some g ->
  exists pre rest,
    title = pre ++ rest /\ match_here rest = Some g
    /\ no_match_inside pre rest = true.
Proof.
  induction title as [|c title IH]; cbn [re_search].
  - destruct (match_here "") eqn:E; [|discriminate].
    intros [= <-]. exists "", "". repeat split; assumption.
  - destruct (match_here (String c title)) eqn:E.
    + intros [= <-]. exists "", (String c title). repeat split; assumption.
    + intros H. destruct (IH H) as (pre & rest & -> & Hm & Hn).
      exists (String c pre), rest. split; [reflexivity|]. split; [exact Hm|].
      cbn [no_match_inside append]. rewrite E, Hn. reflexivity.
Qed.

(** C7. On the title [Pharmacies de garde du 05/01/0999 au 11/01/0999],
    which holds two dates [dd/mm/yyyy] separated by [au], the extraction
    does not return the pair of dates [yyyy-mm-dd]: it returns [999-01-05]
    and [999-01-11], with a year of three digits.  The format [%Y-%m-%d], by
    which the expiry check reads the end date of the roster, refuses such a
    text, while it reads the text [0999-01-11] as the date of the title. *)
Theorem extract_date_range_year_999 :
  _extract_date_range "Pharmacies de garde du 05/01/0999 au 11/01/0999"
  = (Some "999-01-05", Some "999-01-11")
  /\ iso_text 999 1 5 = "0999-01-05" /\ iso_text 999 1 11 = "0999-01-11"
  /\ strptime_Ymd "999-01-11" = None
  /\ strptime_Ymd "0999-01-11" = Some (mk_date 999 1 11).
Proof. repeat split; vm_compute; reflexivity. Qed.

(** X27. The title of scenario C gives the period (2025-01-05, 2025-01-11).
    For a title whose leftmost match of the pattern is a date [dd/mm/yyyy],
    blanks, [au], blanks and a date [dd/mm/yyyy], with years from 1000 on,
    the extraction gives the two dates as [yyyy-mm-dd] when both are
    calendar dates and reports the period absent when either is not; for a
    title that holds no match of the pattern, whatever the years, it reports
    the period absent. *)
Theorem extract_date_range_spec :
  _extract_date_range "Pharmacies de garde du 05/01/2025 au 11/01/2025"
  = (Some "2025-01-05", Some "2025-01-11")
  /\ (forall pre d1 m1 y1 ws1 ws2 d2 m2 y2 post,
         two_digits d1 -> two_digits m1 -> four_digits y1 -> (1000 <= y1)%Z ->
         two_digits d2 -> two_digits m2 -> four_digits y2 -> (1000 <= y2)%Z ->
         blank_run ws1 = true -> blank_run ws2 = true ->
         let rest := dmy_text d1 m1 y1 ++ ws1 ++ "au" ++ ws2
                     ++ dmy_text d2 m2 y2 ++ post in
         no_match_inside pre rest = true ->
         _extract_date_range (pre ++ rest)
         = if valid_date y1 m1 d1 && valid_date y2 m2 d2
           then (Some (iso_text y1 m1 d1), Some (iso_text y2 m2 d2))
           else (None, None))
  /\ (forall title,
         (forall pre d1 m1 y1 ws1 ws2 d2 m2 y2 post,
             two_digits d1 -> two_digits m1 -> four_digits y1 ->
             two_digits d2 -> two_digits m2 -> four_digits y2 ->
             blank_run ws1 = true -> blank_run ws2 = true ->
             title <> pre ++ dmy_text d1 m1 y1 ++ ws1 ++ "au" ++ ws2
                      ++ dmy_text d2 m2 y2 ++ post) ->
         _extract_date_range title = (None, None)).
Proof.
  split; [vm_compute; reflexivity|]. split.
  - intros pre d1 m1 y1 ws1 ws2 d2 m2 y2 post
           Hd1 Hm1 Hy1 Hy1' Hd2 Hm2 Hy2 Hy2' H1 H2 rest Hpre.
    unfold _extract_date_range. rewrite (re_search_skip pre rest Hpre).
    subst rest.
    rewrite (re_search_here _ _ (match_here_text d1 m1 y1 d2 m2 y2 ws1 ws2 post H1 H2)).
    rewrite !strptime_dmY_text by assumption. unfold make_date.
    destruct (valid_date y1 m1 d1); [|reflexivity].
    destruct (valid_date y2 m2 d2); [|reflexivity].
    rewrite !strftime_iso by assumption. reflexivity.
  - intros title Hno. unfold _extract_date_range.
    destruct (re_search title) as [[g1 g2]|] eqn:E; [|reflexivity].
    exfalso. apply re_search_inv in E. destruct E as (pre & rest & -> & Hm & _).
    apply match_here_inv in Hm.
    destruct Hm as (d1 & m1 & y1 & ws1 & ws2 & d2 & m2 & y2 & post
                    & Hd1 & Hm1 & Hy1 & Hd2 & Hm2 & Hy2 & H1 & H2 & -> & -> & ->).
    exact (Hno pre d1 m1 y1 ws1 ws2 d2 m2 y2 post
               Hd1 Hm1 Hy1 Hd2 Hm2 Hy2 H1 H2 eq_refl).
Qed.

Lemma extract_date_range_spec_witness :
  _extract_date_range
    ("Pharmacies de garde du " ++ dmy_text 29 2 2024 ++ " " ++ "au" ++ "  "
     ++ dmy_text 6 3 2024 ++ " (Antananarivo)")
  = (Some "2024-02-29", Some "2024-03-06").
Proof.
  apply (proj1 (proj2 extract_date_range_spec)
           "Pharmacies de garde du " 29%Z 2%Z 2024%Z " " "  " 6%Z 3%Z 2024%Z
           " (Antananarivo)");
    try (unfold two_digits, four_digits; lia); reflexivity.
Defined.

(** [strptime] with the format of the expiry check reads back what
    [strftime] wrote, from the year 1000 on. *)
Lemma strptime_strftime (y m d : Z) :
  valid_date y m d = true -> (1000 <= y)%Z ->
  strptime_Ymd (strftime_Ymd (mk_date y m d)) = Some (mk_date y m d).
Proof.
  intros V Hy. pose proof (valid_date_range y m d V) as (Hyr & Hm & Hd).
  rewrite strftime_iso, strptime_Ymd_text
    by (assumption || (unfold two_digits, four_digits; lia)).
  unfold make_date. now rewrite V.
Qed.

(** ** The similarity ratio on sample names *)

Example ratio_rina :
  Difflib.ratio "pharmacie rina" "pharmacie rina analakely" = Qmake 28 38.
Proof. vm_compute. reflexivity. Qed.

Example ratio_abcd : Difflib.ratio "abcd" "bcde" = Qmake 6 8.
Proof. vm_compute. reflexivity. Qed.

Example ratio_swap : Difflib.ratio "xabcy" "abcxy" = Qmake 8 10.
Proof. vm_compute. reflexivity. Qed.

Example ratio_empty : Difflib.ratio "" "" = 1%Q.
Proof. vm_compute. reflexivity. Qed.

(** ** The candidates of a city *)

Lemma select_pharmacies_in (d : db) (db_city : string) (id : Z) (nm : string) :
  In (id, nm) (select_pharmacies d db_city) <->
  exists p c,
    In p (pharmacies d) /\ In c (cities d)
    /\ p_city_id p = c_id c /\ c_name c = db_city
    /\ id = p_id p /\ nm = p_name p.
Proof.
  unfold select_pharmacies. rewrite in_flat_map. split.
  - intros (p & Hp & H). apply in_flat_map in H. destruct H as (c & Hc & H).
    destruct (Z.eqb (p_city_id p) (c_id c)) eqn:E1;
      [|destruct H]. destruct (String.eqb (c_name c) db_city) eqn:E2;
      [|destruct H]. destruct H as [[= <- <-]|[]].
    apply Z.eqb_eq in E1. apply String.eqb_eq in E2.
    exists p, c. repeat split; assumption.
  - intros (p & c & Hp & Hc & E1 & E2 & -> & ->).
    exists p. split; [exact Hp|]. apply in_flat_map. exists c.
    split; [exact Hc|]. apply Z.eqb_eq in E1. apply String.eqb_eq in E2.
    rewrite E1, E2. now left.
Qed.

(** ** Two checks one after the other *)

(** After a run that stored a period into a table of at most one row, the
    check reads the end date of that period. *)
Lemma end_date_after_update (now : timestamp) (s e : string) (ids : list Z) (d : db) :
  (List.length (on_duty_pharmacies d) <= 1)%nat ->
  select_end_date (_update_on_duty_pharmacies now s e ids d) = Some e.
Proof.
  intros Hlen. unfold _update_on_duty_pharmacies, select_end_date.
  destruct (on_duty_pharmacies d) as [|r [|r' rows]] eqn:E.
  - cbn. rewrite Z.eqb_refl. reflexivity.
  - cbn. rewrite Z.eqb_refl. cbn. rewrite Z.eqb_refl. reflexivity.
  - cbn in Hlen. lia.
Qed.

(** A second check right after a run that stored a period not yet over does
    nothing: it finds the roster valid. *)
Lemma second_check_idle (today : date) (now now' : timestamp) (page page' : fetched)
      (d : db) (ps : list listing) (s e : string) (end_date : date) :
  (List.length (on_duty_pharmacies d) <= 1)%nat ->
  scrape_pharmacies page = (ps, Some s, Some e) ->
  truthy s = true -> truthy e = true ->
  strptime_Ymd e = Some end_date -> date_leb today end_date = true ->
  check_and_update_on_duty today now' page' (ingest now page d)
  = (StillValid, ingest now page d).
Proof.
  intros Hlen Hpage Hs He Hparse Hle.
  assert (Hend : select_end_date (ingest now page d) = Some e).
  { unfold ingest. rewrite Hpage, (process_with_period _ _ _ _ _ Hs He).
    apply end_date_after_update, Hlen. }
  unfold check_and_update_on_duty. rewrite Hend, Hparse.
  unfold date_gtb. unfold date_leb in Hle. apply negb_true_iff in Hle.
  rewrite Hle. reflexivity.
Qed.

(** ** The recursion of the similarity ratio *)

Section LongestMatch.
Variables a b : list ascii.
Variables alo ahi blo bhi : nat.

Lemma hd_bounded (prev : list nat) (n : nat) :
  (forall v, In v prev -> (v <= n)%nat) ->
  (hd 0%nat prev <= n)%nat /\ forall v, In v (tl prev) -> (v <= n)%nat.
Proof.
  destruct prev as [|p prev]; cbn; intros H.
  - split; [lia | intros v []].
  - split; [apply H; now left | intros v Hv; apply H; now right].
Qed.

Lemma scan_row_window (x : ascii) (i : nat) :
  (alo <= i)%nat -> (i < ahi)%nat ->
  forall bs j prev best,
    (forall v, In v prev -> (v <= i - alo)%nat) ->
    in_window alo ahi best ->
    in_window alo ahi (snd (Difflib.scan_row b blo bhi x i j bs prev best))
    /\ forall v, In v (fst (Difflib.scan_row b blo bhi x i j bs prev best)) ->
                 (v <= S i - alo)%nat.
Proof.
  intros Hlo Hhi. induction bs as [|y bs IH]; intros j prev best Hprev Hbest.
  - cbn. split; [exact Hbest | intros v []].
  - cbn [Difflib.scan_row].
    destruct (hd_bounded prev _ Hprev) as [Hhd Htl].
    destruct ((blo <=? j)%nat && (j <? bhi)%nat && Ascii.eqb x y
              && negb (Difflib.popular b y)).
    + set (best' := if (Difflib.bsize best <? S (hd 0%nat prev))%nat
                    then (i + 1 - S (hd 0%nat prev), j + 1 - S (hd 0%nat prev),
                          S (hd 0%nat prev))%nat
                    else best).
      assert (Hbest' : in_window alo ahi best').
      { subst best'. destruct (Difflib.bsize best <? S (hd 0%nat prev))%nat;
          [|exact Hbest]. cbn. repeat split; lia. }
      destruct (IH (S j) (tl prev) best' Htl Hbest') as [H1 H2].
      destruct (Difflib.scan_row b blo bhi x i (S j) bs (tl prev) best')
        as [row best''].
      cbn [fst snd] in *. split; [exact H1|].
      intros v [<-|Hv]; [lia | apply H2, Hv].
    + destruct (IH (S j) (tl prev) best Htl Hbest) as [H1 H2].
      destruct (Difflib.scan_row b blo bhi x i (S j) bs (tl prev) best)
        as [row best''].
      cbn [fst snd] in *. split; [exact H1|].
      intros v [<-|Hv]; [lia | apply H2, Hv].
Qed.

Lemma scan_rows_window (xs : list ascii) :
  forall i j2len best,
    (forall v, In v j2len -> (v <= i - alo)%nat) ->
    in_window alo ahi best ->
    in_window alo ahi (Difflib.scan_rows b alo ahi blo bhi i xs j2len best).
Proof.
  induction xs as [|x xs IH]; intros i j2len best Hrow Hbest; [exact Hbest|].
  cbn [Difflib.scan_rows].
  destruct (i <? alo)%nat eqn:E1.
  - apply IH; [|exact Hbest]. intros v Hv. specialize (Hrow v Hv). lia.
  - destruct (ahi <=? i)%nat eqn:E2; [exact Hbest|].
    apply Nat.ltb_ge in E1. apply Nat.leb_gt in E2.
    assert (Hprev : forall v, In v (0%nat :: j2len) -> (v <= i - alo)%nat).
    { intros v [<-|Hv]; [lia | apply Hrow, Hv]. }
    destruct (scan_row_window x i E1 E2 b 0%nat (0%nat :: j2len) best Hprev Hbest)
      as [H1 H2].
    destruct (Difflib.scan_row b blo bhi x i 0 b (0%nat :: j2len) best)
      as [row best'].
    cbn [fst snd] in *. apply IH; assumption.
Qed.

Lemma extend_left_window (fuel : nat) :
  forall m, in_window alo ahi m ->
            in_window alo ahi (Difflib.extend_left a b alo blo fuel m).
Proof.
  induction fuel as [|fuel IH]; intros [[i j] k] Hm; [exact Hm|].
  cbn [Difflib.extend_left].
  destruct ((alo <? i)%nat && (blo <? j)%nat
            && Ascii.eqb (Difflib.at_a a (i - 1)) (Difflib.at_b b (j - 1))) eqn:E;
    [|exact Hm].
  apply IH. apply andb_prop in E. destruct E as [E _].
  apply andb_prop in E. destruct E as [E _]. apply Nat.ltb_lt in E.
  cbn in Hm |- *. destruct Hm as (H1 & H2 & H3).
  repeat split; lia.
Qed.

Lemma extend_right_window (fuel : nat) :
  forall m, in_window alo ahi m ->
            in_window alo ahi (Difflib.extend_right a b ahi bhi fuel m).
Proof.
  induction fuel as [|fuel IH]; intros [[i j] k] Hm; [exact Hm|].
  cbn [Difflib.extend_right].
  destruct ((i + k <? ahi)%nat && (j + k <? bhi)%nat
            && Ascii.eqb (Difflib.at_a a (i + k)) (Difflib.at_b b (j + k))) eqn:E;
    [|exact Hm].
  apply IH. apply andb_prop in E. destruct E as [E _].
  apply andb_prop in E. destruct E as [E _]. apply Nat.ltb_lt in E.
  cbn in Hm |- *. destruct Hm as (H1 & H2 & H3).
  repeat split; lia.
Qed.

(** The two [while] loops stop before their fuel is used up. *)
Lemma extend_left_fuel (fuel : nat) :
  forall m, (fst (fst m) <= fuel)%nat ->
            Difflib.extend_left a b alo blo (S fuel) m
            = Difflib.extend_left a b alo blo fuel m.
Proof.
  induction fuel as [|fuel IH]; intros [[i j] k] Hm; cbn [fst] in Hm.
  - cbn [Difflib.extend_left].
    assert (E : (alo <? i)%nat = false) by (apply Nat.ltb_ge; lia).
    rewrite E. reflexivity.
  - cbn [Difflib.extend_left].
    destruct ((alo <? i)%nat && (blo <? j)%nat
              && Ascii.eqb (Difflib.at_a a (i - 1)) (Difflib.at_b b (j - 1)));
      [|reflexivity].
    rewrite <- (IH (i - 1, j - 1, S k)%nat) by (cbn; lia). reflexivity.
Qed.

Lemma extend_right_fuel (fuel : nat) :
  forall m, (ahi - (fst (fst m) + snd m) <= fuel)%nat ->
            Difflib.extend_right a b ahi bhi (S fuel) m
            = Difflib.extend_right a b ahi bhi fuel m.
Proof.
  induction fuel as [|fuel IH]; intros [[i j] k] Hm; cbn [fst snd] in Hm.
  - cbn [Difflib.extend_right].
    assert (E : (i + k <? ahi)%nat = false) by (apply Nat.ltb_ge; lia).
    rewrite E. reflexivity.
  - cbn [Difflib.extend_right].
    destruct ((i + k <? ahi)%nat && (j + k <? bhi)%nat
              && Ascii.eqb (Difflib.at_a a (i + k)) (Difflib.at_b b (j + k)));
      [|reflexivity].
    rewrite <- (IH (i, j, S k)) by (cbn; lia). reflexivity.
Qed.

(** The block [find_longest_match] returns lies in its window. *)
Lemma find_longest_match_window :
  in_window alo ahi (Difflib.find_longest_match a b alo ahi blo bhi).
Proof.
  unfold Difflib.find_longest_match.
  apply extend_right_window, extend_left_window, scan_rows_window.
  - intros v [].
  - cbn. repeat split; lia.
Qed.
End LongestMatch.

(** The recursion over the windows ends before its fuel: any two amounts of
    fuel above the width of the window give the same total, so
    [total_matches] is the total of [get_matching_blocks]. *)
Lemma matches_fuel (a b : list ascii) (fuel1 : nat) :
  forall fuel2 alo ahi blo bhi,
    (ahi - alo < fuel1)%nat -> (ahi - alo < fuel2)%nat ->
    Difflib.matches a b fuel1 alo ahi blo bhi
    = Difflib.matches a b fuel2 alo ahi blo bhi.
Proof.
  induction fuel1 as [|fuel1 IH]; intros fuel2 alo ahi blo bhi H1 H2; [lia|].
  destruct fuel2 as [|fuel2]; [lia|].
  cbn [Difflib.matches].
  pose proof (find_longest_match_window a b alo ahi blo bhi) as Hw.
  destruct (Difflib.find_longest_match a b alo ahi blo bhi) as [[i j] k].
  cbn in Hw. destruct Hw as (Hlo & _ & Hhi).
  destruct (k =? 0)%nat eqn:Ek; [reflexivity|].
  apply Nat.eqb_neq in Ek. specialize (Hhi ltac:(lia)).
  f_equal; [f_equal|].
  - destruct ((alo <? i)%nat && (blo <? j)%nat); [|reflexivity].
    apply IH; lia.
  - destruct ((i + k <? ahi)%nat && (j + k <? bhi)%nat); [|reflexivity].
    apply IH; lia.
Qed.

Lemma total_matches_fuel (a b : list ascii) (fuel : nat) :
  (List.length a < fuel)%nat ->
  Difflib.total_matches a b
  = Difflib.matches a b fuel 0 (List.length a) 0 (List.length b).
Proof.
  intros H. unfold Difflib.total_matches. apply matches_fuel; lia.
Qed.

(** * Further properties of the pipeline *)

Import Pages.

(** ** City aliases *)

Lemma alias_hit (c k v : string) :
  In (k, v) CITY_MAPPING -> upper c = k -> _map_city_name c = v.
Proof.
  intros Hin Hk. unfold _map_city_name. rewrite Hk. cbn in Hin.
  repeat (destruct Hin as [[= <- <-]|Hin]; [reflexivity|]).
  destruct Hin.
Qed.

Lemma alias_miss (c : string) :
  ~ In (upper c) alias_keys -> _map_city_name c = c.
Proof.
  intros H. unfold _map_city_name, CITY_MAPPING, dict_get.
  repeat match goal with
         | |- context [String.eqb (upper c) ?k] =>
             destruct (String.eqb_spec (upper c) k) as [E|_];
             [exfalso; apply H; rewrite E; cbn; tauto|]
         end.
  reflexivity.
Qed.

Lemma alias_keys_dec (c : string) :
  (exists k v, In (k, v) CITY_MAPPING /\ upper c = k) \/ ~ In (upper c) alias_keys.
Proof.
  destruct (in_dec string_dec (upper c) alias_keys) as [H|H]; [left | now right].
  unfold alias_keys in H. apply in_map_iff in H. destruct H as ([k v] & Hk & Hin).
  cbn in Hk. subst k. eauto.
Qed.

(** X1. Normalising a city token twice is normalising it once; the result is
    the token itself or one of the seven canonical names; a token whose
    upper-case form is an alias is normalised to the canonical name whatever
    its case, and any other token is left as it is. *)
Theorem map_city_name_canonical (c : string) :
  _map_city_name (_map_city_name c) = _map_city_name c
  /\ (_map_city_name c = c \/ In (_map_city_name c) canonical_names)
  /\ (In (upper c) alias_keys ->
      In (_map_city_name c) canonical_names
      /\ forall c', upper c' = upper c -> _map_city_name c' = _map_city_name c)
  /\ (~ In (upper c) alias_keys -> _map_city_name c = c).
Proof.
  destruct (alias_keys_dec c) as [(k & v & Hin & Hk)|Hmiss].
  - pose proof (alias_hit c k v Hin Hk) as Hc.
    assert (Hv : In v canonical_names).
    { unfold canonical_names. apply in_map_iff. exists (k, v). now split. }
    rewrite Hc. split; [|split; [now right|split]].
    + clear - Hin. cbn in Hin.
      repeat (destruct Hin as [[= <- <-]|Hin]; [reflexivity|]). destruct Hin.
    + intros _. split; [exact Hv|]. intros c' Hc'.
      apply (alias_hit c' k v Hin). congruence.
    + intros Hno. exfalso. apply Hno. unfold alias_keys. apply in_map_iff.
      exists (k, v). split; [cbn; congruence | exact Hin].
  - rewrite (alias_miss c Hmiss). split; [apply alias_miss, Hmiss|].
    split; [now left|]. split; [contradiction | reflexivity].
Qed.

Lemma map_city_name_canonical_witness :
  _map_city_name "tAmAtAvE" = _map_city_name "Tamatave"
  /\ _map_city_name "Toamasina" = "Toamasina".
Proof.
  split.
  - apply (proj1 (proj2 (proj2 (map_city_name_canonical "Tamatave")))).
    + cbn. tauto.
    + reflexivity.
  - apply (proj2 (proj2 (proj2 (map_city_name_canonical "Toamasina")))).
    cbn. intros H. repeat (destruct H as [H|H]; [discriminate|]). exact H.
Defined.

(** ** Case of the names *)

Lemma lower_char_upper_char (c : ascii) : lower_char (upper_char c) = lower_char c.
Proof. destruct c as [[] [] [] [] [] [] [] []]; reflexivity. Qed.

Lemma lower_char_idem (c : ascii) : lower_char (lower_char c) = lower_char c.
Proof. destruct c as [[] [] [] [] [] [] [] []]; reflexivity. Qed.

Lemma upper_char_lower_char (c : ascii) : upper_char (lower_char c) = upper_char c.
Proof. destruct c as [[] [] [] [] [] [] [] []]; reflexivity. Qed.

Lemma map_chars_compose (f g h : ascii -> ascii) (s : string) :
  (forall c, f (g c) = h c) -> map_chars f (map_chars g s) = map_chars h s.
Proof.
  intros H. induction s as [|c s IH]; cbn; [reflexivity|]. now rewrite H, IH.
Qed.

Lemma lower_upper (s : string) : lower (upper s) = lower s.
Proof. apply map_chars_compose, lower_char_upper_char. Qed.

Lemma lower_lower (s : string) : lower (lower s) = lower s.
Proof. apply map_chars_compose, lower_char_idem. Qed.

Lemma upper_lower (s : string) : upper (lower s) = upper s.
Proof. apply map_chars_compose, upper_char_lower_char. Qed.

Lemma match_by_lower (d : db) (n1 n2 c : string) :
  lower n1 = lower n2 ->
  _find_pharmacy_match d n1 c = _find_pharmacy_match d n2 c.
Proof.
  intros H. unfold _find_pharmacy_match, find_pharmacy_match_at, best_candidate.
  assert (Hstep : forall st row, best_step n1 st row = best_step n2 st row).
  { intros st row. unfold best_step, similarity. now rewrite H. }
  assert (Hfold : forall rows st,
             fold_left (best_step n1) rows st = fold_left (best_step n2) rows st).
  { induction rows as [|r rows IH]; intros st; cbn; [reflexivity|].
    now rewrite Hstep, IH. }
  now rewrite Hfold.
Qed.

(** X2. The matcher does not see the case of a scraped name of ASCII
    characters: the name, its upper-case form and its lower-case form get
    the same answer; and for a city token of ASCII characters whose
    upper-case form is an alias the case of the token does not matter
    either.  (Beyond ASCII the upper-case form of a Python text can have
    another lower-case form than the text: [ß] becomes [SS].) *)
Theorem matcher_ignores_case (d : db) (pharmacy_name city : string) :
  isascii pharmacy_name = true ->
  isascii city = true ->
  _find_pharmacy_match d (upper pharmacy_name) city
  = _find_pharmacy_match d pharmacy_name city
  /\ _find_pharmacy_match d (lower pharmacy_name) city
     = _find_pharmacy_match d pharmacy_name city
  /\ (In (upper city) alias_keys ->
      _find_pharmacy_match d pharmacy_name (lower city)
      = _find_pharmacy_match d pharmacy_name city).
Proof.
  intros _ _.
  split; [apply match_by_lower, lower_upper|].
  split; [apply match_by_lower, lower_lower|].
  intros Hin. unfold _find_pharmacy_match, find_pharmacy_match_at.
  destruct (alias_keys_dec city) as [(k & v & Hkv & Hk)|Hmiss]; [|contradiction].
  rewrite (alias_hit city k v Hkv Hk).
  rewrite (alias_hit (lower city) k v Hkv) by (rewrite upper_lower; exact Hk).
  reflexivity.
Qed.

Lemma matcher_ignores_case_witness :
  _find_pharmacy_match Samples.registry "PHARMACIE RINA" "TaNa"
  = _find_pharmacy_match Samples.registry "Pharmacie Rina" "TaNa"
  /\ _find_pharmacy_match Samples.registry "Pharmacie Rina" "tana"
     = _find_pharmacy_match Samples.registry "Pharmacie Rina" "TaNa".
Proof.
  destruct (matcher_ignores_case Samples.registry "Pharmacie Rina" "TaNa"
                                 eq_refl eq_refl) as (Hup & _ & Hcity).
  split; [exact Hup|]. apply Hcity. cbn. tauto.
Defined.

(** ** The matches of a run *)

Lemma contribution_length (d : db) (p : listing) :
  (List.length (contribution d p) <= 1)%nat.
Proof.
  unfold contribution.
  destruct (truthy (name p) && truthy (city p)); [|cbn; lia].
  destruct (_find_pharmacy_match d (name p) (city p)) as [id|]; [|cbn; lia].
  destruct (Z.eqb id 0); cbn; lia.
Qed.

(** X3. The matches of a sequence of listings are the matches of its parts
    put end to end, and a run matches at most one identifier per listing. *)
Theorem matched_ids_compose (d : db) (l1 l2 : list listing) :
  matched_ids d (l1 ++ l2)%list = (matched_ids d l1 ++ matched_ids d l2)%list
  /\ (List.length (matched_ids d l1) <= List.length l1)%nat.
Proof.
  split.
  - rewrite !matched_ids_flat_map. apply flat_map_app.
  - rewrite matched_ids_flat_map. induction l1 as [|p l1 IH]; [cbn; lia|].
    cbn [flat_map List.length]. rewrite length_app.
    pose proof (contribution_length d p). lia.
Qed.

Lemma truthy_nonempty (s : string) : truthy s = true <-> s <> "".
Proof. destruct s; cbn; split; congruence. Qed.

(** Where a matched identifier comes from. *)
Lemma contribution_sound (d : db) (p : listing) (id : Z) :
  In id (contribution d p) ->
  id <> 0%Z /\ name p <> "" /\ city p <> ""
  /\ exists ph c,
      In ph (pharmacies d) /\ In c (cities d)
      /\ p_id ph = id /\ p_city_id ph = c_id c
      /\ c_name c = _map_city_name (city p).
Proof.
  unfold contribution.
  destruct (truthy (name p) && truthy (city p)) eqn:Et; [|intros []].
  apply andb_prop in Et. destruct Et as [Hn Hc].
  apply truthy_nonempty in Hn, Hc.
  destruct (_find_pharmacy_match d (name p) (city p)) as [x|] eqn:Ef; [|intros []].
  destruct (Z.eqb x 0) eqn:E0; [intros []|]. intros [<-|[]].
  apply Z.eqb_neq in E0. repeat (split; [assumption|]).
  apply (find_at_some SIMILARITY_THRESHOLD _ _ _ _ threshold_nonneg) in Ef.
  destruct Ef as (l1 & nm & l2 & Hrows & _).
  assert (Hin : In (x, nm) (select_pharmacies d (_map_city_name (city p)))).
  { rewrite Hrows. apply in_elt. }
  apply select_pharmacies_in in Hin.
  destruct Hin as (ph & c & Hph & Hcin & Hcity & Hname & Hid & _).
  exists ph, c. repeat split; auto.
Qed.

Lemma matched_ids_sound (d : db) (ps : list listing) (id : Z) :
  In id (matched_ids d ps) ->
  id <> 0%Z
  /\ exists p ph c,
      In p ps /\ In ph (pharmacies d) /\ In c (cities d)
      /\ p_id ph = id /\ p_city_id ph = c_id c
      /\ c_name c = _map_city_name (city p).
Proof.
  rewrite matched_ids_flat_map, in_flat_map. intros (p & Hp & Hid).
  destruct (contribution_sound d p id Hid) as (H0 & _ & _ & ph & c & H).
  split; [exact H0|]. exists p, ph, c. tauto.
Qed.

(** X4. What a run stores refers to the registry: every identifier in the
    roster row written by a run with a period is different from 0 and is the
    identifier of a pharmacy row whose city row carries the normalised city
    of one of the listings of the run. *)
Theorem stored_ids_reference_registry (now : timestamp) (ps : list listing)
        (s e : string) (d : db) :
  truthy s = true -> truthy e = true ->
  let d' := process_scraped_pharmacies now ps (Some s) (Some e) d in
  forall r id,
    In r (on_duty_pharmacies d') ->
    min_id (on_duty_pharmacies d') = Some (od_id r) ->
    In id (pharmacy_ids r) ->
    id <> 0%Z
    /\ exists p ph c,
        In p ps /\ In ph (pharmacies d') /\ In c (cities d')
        /\ p_id ph = id /\ p_city_id ph = c_id c
        /\ c_name c = _map_city_name (city p).
Proof.
  intros Hs He d' r id Hr Hmin Hid. subst d'.
  rewrite (process_with_period _ _ _ _ _ Hs He) in *.
  destruct (update_first_row now s e (matched_ids d ps) d) as (m & Hm & Hrow).
  rewrite Hm in Hmin. injection Hmin as Hmin.
  destruct (Hrow r Hr (eq_sym Hmin)) as (_ & _ & Hids & _).
  rewrite Hids in Hid.
  destruct (update_registry now s e (matched_ids d ps) d) as [-> ->].
  apply matched_ids_sound, Hid.
Qed.

Lemma stored_ids_reference_registry_witness :
  7%Z <> 0%Z
  /\ exists p ph c,
      In p [Samples.rina; Samples.nameless]
      /\ In ph (pharmacies
                  (process_scraped_pharmacies 10%Z [Samples.rina; Samples.nameless]
                     (Some "2025-01-05") (Some "2025-01-11") Samples.registry))
      /\ In c (cities
                 (process_scraped_pharmacies 10%Z [Samples.rina; Samples.nameless]
                    (Some "2025-01-05") (Some "2025-01-11") Samples.registry))
      /\ p_id ph = 7%Z /\ p_city_id ph = c_id c
      /\ c_name c = _map_city_name (city p).
Proof.
  apply (stored_ids_reference_registry 10%Z [Samples.rina; Samples.nameless]
           "2025-01-05" "2025-01-11" Samples.registry eq_refl eq_refl
           (mk_on_duty 1%Z "2025-01-05" "2025-01-11" [7%Z] 10%Z 10%Z) 7%Z).
  - vm_compute. left. reflexivity.
  - vm_compute. reflexivity.
  - left. reflexivity.
Defined.

(** X5. The pipeline reads the registry and never writes it: after a run of
    [process_scraped_pharmacies], and so after an ingest or an expiry check,
    the cities and the pharmacies are those of before; the roster rows keep
    their identifiers and their places, with at most one row added at the
    end. *)
Theorem pipeline_keeps_registry (now : timestamp) (d : db) :
  (forall ps s e,
      let d' := process_scraped_pharmacies now ps s e d in
      cities d' = cities d /\ pharmacies d' = pharmacies d
      /\ exists added,
          map od_id (on_duty_pharmacies d')
          = (map od_id (on_duty_pharmacies d) ++ added)%list
          /\ (List.length added <= 1)%nat
          /\ (on_duty_pharmacies d <> [] -> added = []))
  /\ (forall page,
         cities (ingest now page d) = cities d
         /\ pharmacies (ingest now page d) = pharmacies d)
  /\ (forall today page,
         cities (snd (check_and_update_on_duty today now page d)) = cities d
         /\ pharmacies (snd (check_and_update_on_duty today now page d))
            = pharmacies d).
Proof.
  assert (H : forall ps s e,
             let d' := process_scraped_pharmacies now ps s e d in
             cities d' = cities d /\ pharmacies d' = pharmacies d
             /\ exists added,
                 map od_id (on_duty_pharmacies d')
                 = (map od_id (on_duty_pharmacies d) ++ added)%list
                 /\ (List.length added <= 1)%nat
                 /\ (on_duty_pharmacies d <> [] -> added = [])).
  { intros ps s e d'. subst d'. unfold process_scraped_pharmacies.
    assert (Hsame : cities d = cities d /\ pharmacies d = pharmacies d
                    /\ exists added,
                        map od_id (on_duty_pharmacies d)
                        = (map od_id (on_duty_pharmacies d) ++ added)%list
                        /\ (List.length added <= 1)%nat
                        /\ (on_duty_pharmacies d <> [] -> added = [])).
    { split; [reflexivity|]. split; [reflexivity|]. exists [].
      rewrite app_nil_r. cbn. repeat split; auto. }
    destruct s as [s|]; [|exact Hsame]. destruct e as [e|]; [|exact Hsame].
    destruct (truthy s && truthy e); [|exact Hsame].
    destruct (update_registry now s e (matched_ids d ps) d) as [Hc Hp].
    split; [exact Hc|]. split; [exact Hp|].
    destruct (min_id (on_duty_pharmacies d)) as [m|] eqn:E.
    - rewrite (update_when_present _ _ _ _ _ _ E). cbn [on_duty_pharmacies with_on_duty].
      exists []. rewrite overwrite_ids, app_nil_r. cbn. repeat split; auto.
    - apply min_id_none in E. rewrite (update_when_empty _ _ _ _ _ E), E.
      exists [next_id d]. cbn. repeat split; auto. congruence. }
  assert (Hi : forall page,
             cities (ingest now page d) = cities d
             /\ pharmacies (ingest now page d) = pharmacies d).
  { intros page. unfold ingest.
    destruct (scrape_pharmacies page) as [[ps s] e].
    destruct (H ps s e) as (Hc & Hp & _). split; assumption. }
  split; [exact H|]. split; [exact Hi|].
  intros today page. unfold check_and_update_on_duty.
  destruct (select_end_date d) as [result|]; [|apply Hi].
  destruct (strptime_Ymd result) as [end_date|]; [|split; reflexivity].
  destruct (date_gtb today end_date); [apply Hi | split; reflexivity].
Qed.

(** ** The period of a page *)

(** What the extraction returns was written by [strftime] from two
    calendar dates. *)
Lemma extract_inv (title s e : string) :
  _extract_date_range title = (Some s, Some e) ->
  exists y1 m1 d1 y2 m2 d2,
    s = strftime_Ymd (mk_date y1 m1 d1) /\ e = strftime_Ymd (mk_date y2 m2 d2)
    /\ valid_date y1 m1 d1 = true /\ valid_date y2 m2 d2 = true.
Proof.
  unfold _extract_date_range.
  destruct (re_search title) as [[g1 g2]|] eqn:E; [|discriminate].
  apply re_search_inv in E. destruct E as (pre & rest & _ & Hm & _).
  apply match_here_inv in Hm.
  destruct Hm as (d1 & m1 & y1 & ws1 & ws2 & d2 & m2 & y2 & post
                  & Hd1 & Hm1 & Hy1 & Hd2 & Hm2 & Hy2 & _ & _ & -> & -> & _).
  rewrite !strptime_dmY_text by assumption. unfold make_date.
  destruct (valid_date y1 m1 d1) eqn:V1; [|discriminate].
  destruct (valid_date y2 m2 d2) eqn:V2; [|discriminate].
  intros [= <- <-]. exists y1, m1, d1, y2, m2, d2. repeat split; assumption.
Qed.

Lemma extract_truthy (title s e : string) :
  _extract_date_range title = (Some s, Some e) ->
  truthy s = true /\ truthy e = true.
Proof.
  intros H. destruct (extract_inv _ _ _ H)
    as (y1 & m1 & d1 & y2 & m2 & d2 & -> & -> & _).
  split; apply strftime_truthy.
Qed.

(** X6. The extraction gives both dates or none.  When it gives them, each
    is a non-empty text, true for [if start_date and end_date], that
    [strftime] wrote from a calendar date.  From the year 1000 on the text
    has ten characters and the expiry check reads it back as that date;
    below the year 1000 the text is shorter and the format of the expiry
    check refuses it. *)
Theorem extracted_period_shape (title : string) :
  _extract_date_range title = (None, None)
  \/ exists s e ds de,
      _extract_date_range title = (Some s, Some e)
      /\ truthy s = true /\ truthy e = true
      /\ strftime_Ymd ds = s /\ strftime_Ymd de = e
      /\ valid_date (year ds) (month ds) (day ds) = true
      /\ valid_date (year de) (month de) (day de) = true
      /\ ((1000 <= year ds)%Z ->
          String.length s = 10%nat /\ strptime_Ymd s = Some ds)
      /\ ((1000 <= year de)%Z ->
          String.length e = 10%nat /\ strptime_Ymd e = Some de)
      /\ ((year ds < 1000)%Z ->
          (String.length s < 10)%nat /\ strptime_Ymd s = None)
      /\ ((year de < 1000)%Z ->
          (String.length e < 10)%nat /\ strptime_Ymd e = None).
Proof.
  destruct (_extract_date_range title) as [[s|] [e|]] eqn:E;
    try (left; reflexivity);
    try (exfalso; revert E; unfold _extract_date_range;
         destruct (re_search title) as [[g1 g2]|]; [|discriminate];
         destruct (strptime_dmY g1); [|discriminate];
         destruct (strptime_dmY g2); discriminate).
  right. destruct (extract_truthy _ _ _ E) as [Hs He].
  destruct (extract_inv _ _ _ E)
    as (y1 & m1 & d1 & y2 & m2 & d2 & -> & -> & V1 & V2).
  exists (strftime_Ymd (mk_date y1 m1 d1)), (strftime_Ymd (mk_date y2 m2 d2)),
         (mk_date y1 m1 d1), (mk_date y2 m2 d2).
  cbn [year month day].
  split; [reflexivity|]. split; [exact Hs|]. split; [exact He|].
  split; [reflexivity|]. split; [reflexivity|].
  split; [exact V1|]. split; [exact V2|].
  split; [|split; [|split]]; intros Hy.
  - split; [rewrite strftime_iso by exact Hy; reflexivity
           | apply strptime_strftime; assumption].
  - split; [rewrite strftime_iso by exact Hy; reflexivity
           | apply strptime_strftime; assumption].
  - split; [apply strftime_short | apply strptime_Ymd_unpadded]; exact Hy.
  - split; [apply strftime_short | apply strptime_Ymd_unpadded]; exact Hy.
Qed.

Lemma scrape_period (page : fetched) (ps : list listing) (s e : option string) :
  scrape_pharmacies page = (ps, s, e) ->
  (s = None /\ e = None)
  \/ exists soup, page = Parsed soup
                  /\ _extract_date_range (page_title soup) = (s, e).
Proof.
  destruct page as [| |soup]; cbn [scrape_pharmacies].
  - intros [= <- <- <-]. now left.
  - intros [= <- <- <-]. now left.
  - unfold page_title.
    destruct (_extract_date_range
                match find_where is_title soup with
                | Some title_element => strip (text title_element)
                | None => ""
                end) as [s0 e0] eqn:Ex.
    intros [= _ <- <-]. right. exists soup. split; [reflexivity | exact Ex].
Qed.

(** X7. After a run that stored the period of its page into a roster table
    of at most one row, the expiry check reads the end date of that period,
    a text [strftime] wrote from a calendar date.  When the year of that
    date is 1000 or later, a check does nothing on every day up to that
    date and runs the scraper again from the day after.  When it is earlier
    the stored text is not of the format of the check: every check fails,
    whatever the day, and leaves the database as it is. *)
Theorem check_after_run (now : timestamp) (page : fetched) (d : db)
        (ps : list listing) (s e : string) :
  (List.length (on_duty_pharmacies d) <= 1)%nat ->
  scrape_pharmacies page = (ps, Some s, Some e) ->
  let d1 := ingest now page d in
  exists end_date,
    strftime_Ymd end_date = e
    /\ valid_date (year end_date) (month end_date) (day end_date) = true
    /\ select_end_date d1 = Some e
    /\ forall today now' page',
        ((1000 <= year end_date)%Z ->
         (date_leb today end_date = true ->
          check_and_update_on_duty today now' page' d1 = (StillValid, d1))
         /\ (date_ltb end_date today = true ->
             check_and_update_on_duty today now' page' d1
             = (ScraperRun, ingest now' page' d1)))
        /\ ((year end_date < 1000)%Z ->
            check_and_update_on_duty today now' page' d1 = (CheckError, d1)).
Proof.
  intros Hlen Hpage d1.
  destruct (scrape_period _ _ _ _ Hpage) as [[Hs _]|(soup & -> & Hx)];
    [discriminate|].
  destruct (extract_truthy _ _ _ Hx) as [Hts Hte].
  destruct (extract_inv _ _ _ Hx)
    as (y1 & m1 & d1' & y2 & m2 & d2 & Hs & He & _ & V2).
  exists (mk_date y2 m2 d2). cbn [year month day].
  split; [now rewrite He|]. split; [exact V2|].
  assert (Hend : select_end_date d1 = Some e).
  { subst d1. unfold ingest. rewrite Hpage, (process_with_period _ _ _ _ _ Hts Hte).
    apply end_date_after_update, Hlen. }
  split; [exact Hend|]. intros today now' page'. split.
  - intros Hy.
    assert (Hparse : strptime_Ymd e = Some (mk_date y2 m2 d2))
      by (rewrite He; apply strptime_strftime; assumption).
    split.
    + intros Hle. subst d1.
      apply (second_check_idle today now now' (Parsed soup) page' d ps s e
               (mk_date y2 m2 d2)); assumption.
    + intros Hlt. unfold check_and_update_on_duty. rewrite Hend, Hparse.
      unfold date_gtb. rewrite Hlt. reflexivity.
  - intros Hy. unfold check_and_update_on_duty.
    rewrite Hend, He, (strptime_Ymd_unpadded y2 m2 d2 Hy). reflexivity.
Qed.

Lemma check_after_run_witness :
  exists end_date,
    strftime_Ymd end_date = "2025-01-11"
    /\ select_end_date (ingest 20%Z (Parsed page_with_period) Samples.registry)
       = Some "2025-01-11".
Proof.
  destruct (check_after_run 20%Z (Parsed page_with_period) Samples.registry
              [mk_listing "Pharmacie Rina" "TANA - Analakely" "TANA"
                          ["020 22 000 00"; "033 11 000 00"]]
              "2025-01-05" "2025-01-11")
    as (end_date & Hwritten & _ & Hend & _).
  - cbn. lia.
  - vm_compute. reflexivity.
  - exists end_date. split; assumption.
Defined.

(** ** The row the check reads and the row the reconciler writes *)

Lemma find_after_overwrite (now : timestamp) (s e : string) (ids : list Z)
      (m big : Z) (rows : list on_duty_row) :
  m <> big ->
  option_map end_date
    (List.find (fun r => Z.eqb (od_id r) big)
       (map (fun r => if Z.eqb (od_id r) m then overwritten now s e ids r else r)
            rows))
  = option_map end_date (List.find (fun r => Z.eqb (od_id r) big) rows).
Proof.
  intros Hne. induction rows as [|r rows IH]; [reflexivity|].
  cbn [map List.find].
  destruct (Z.eqb (od_id r) m) eqn:Em.
  - apply Z.eqb_eq in Em. cbn [od_id overwritten].
    assert (E : Z.eqb (od_id r) big = false) by (apply Z.eqb_neq; congruence).
    rewrite E. exact IH.
  - destruct (Z.eqb (od_id r) big); [reflexivity | exact IH].
Qed.

Lemma update_keeps_latest_end_date (now : timestamp) (s e : string) (ids : list Z)
      (d : db) (m big : Z) :
  min_id (on_duty_pharmacies d) = Some m ->
  max_id (on_duty_pharmacies d) = Some big ->
  m <> big ->
  select_end_date (_update_on_duty_pharmacies now s e ids d) = select_end_date d.
Proof.
  intros Hm Hbig Hne. rewrite (update_when_present _ _ _ _ _ _ Hm).
  unfold select_end_date. cbn [on_duty_pharmacies with_on_duty].
  unfold max_id in *. rewrite overwrite_ids, Hbig.
  apply find_after_overwrite, Hne.
Qed.

(** X8. The reconciler writes the row of least identifier and the expiry
    check reads the row of greatest identifier.  On a roster table whose
    least and greatest identifiers differ, a run therefore leaves the end
    date the check reads as it was, and a check that runs the scraper is
    followed by checks that run it again, whatever the pages give. *)
Theorem check_reads_another_row (d : db) (m big : Z) :
  min_id (on_duty_pharmacies d) = Some m ->
  max_id (on_duty_pharmacies d) = Some big ->
  m <> big ->
  (forall now ps s e,
      select_end_date (process_scraped_pharmacies now ps s e d)
      = select_end_date d)
  /\ (forall today now page now' page',
         fst (check_and_update_on_duty today now' page'
                (snd (check_and_update_on_duty today now page d)))
         = fst (check_and_update_on_duty today now page d)).
Proof.
  intros Hm Hbig Hne.
  assert (H : forall now ps s e,
             select_end_date (process_scraped_pharmacies now ps s e d)
             = select_end_date d).
  { intros now ps s e. unfold process_scraped_pharmacies.
    destruct s as [s|]; [|reflexivity]. destruct e as [e|]; [|reflexivity].
    destruct (truthy s && truthy e); [|reflexivity].
    apply (update_keeps_latest_end_date _ _ _ _ _ m big); assumption. }
  split; [exact H|].
  intros today now page now' page'.
  assert (Hend : select_end_date (snd (check_and_update_on_duty today now page d))
                 = select_end_date d).
  { unfold check_and_update_on_duty.
    assert (Hi : select_end_date (ingest now page d) = select_end_date d).
    { unfold ingest. destruct (scrape_pharmacies page) as [[ps s] e]. apply H. }
    destruct (select_end_date d) as [result|] eqn:Er; [|exact Hi].
    destruct (strptime_Ymd result) as [end_date|]; [|exact Er].
    destruct (date_gtb today end_date); [exact Hi | exact Er]. }
  unfold check_and_update_on_duty at 1 3. rewrite Hend.
  destruct (select_end_date d) as [result|]; [|reflexivity].
  destruct (strptime_Ymd result) as [end_date|]; [|reflexivity].
  destruct (date_gtb today end_date); reflexivity.
Qed.

Lemma check_reads_another_row_witness :
  fst (check_and_update_on_duty Samples.jan_11 30%Z (Parsed page_with_period)
         (snd (check_and_update_on_duty Samples.jan_11 20%Z
                 (Parsed page_with_period) two_rosters)))
  = fst (check_and_update_on_duty Samples.jan_11 20%Z (Parsed page_with_period)
           two_rosters)
  /\ fst (check_and_update_on_duty Samples.jan_11 20%Z (Parsed page_with_period)
            two_rosters) = ScraperRun.
Proof.
  split.
  - apply (proj2 (check_reads_another_row two_rosters 1%Z 2%Z
                    eq_refl eq_refl ltac:(discriminate))).
  - vm_compute. reflexivity.
Defined.

(** ** The fields of a listing *)

Lemma rstrip_cons (c : ascii) (r : string) :
  rstrip (String c r)
  = match rstrip r with
    | "" => if is_space c then "" else String c ""
    | String c' r' => String c (String c' r')
    end.
Proof. reflexivity. Qed.

Lemma rstrip_idem (s : string) : rstrip (rstrip s) = rstrip s.
Proof.
  induction s as [|c s IH]; [reflexivity|]. rewrite rstrip_cons.
  destruct (rstrip s) as [|c' r'] eqn:E.
  - destruct (is_space c) eqn:Ec; [reflexivity|].
    rewrite rstrip_cons. cbn [rstrip]. now rewrite Ec.
  - rewrite rstrip_cons, IH. reflexivity.
Qed.

Lemma strip_idem (s : string) : strip (strip s) = strip s.
Proof.
  unfold strip. destruct (lstrip s) as [|c r] eqn:E; [reflexivity|].
  pose proof (lstrip_head _ _ _ E) as Hc.
  destruct (rstrip_head c r Hc) as [r' Hr].
  rewrite Hr, (lstrip_nonspace c r' Hc), <- Hr. apply rstrip_idem.
Qed.

Lemma city_of_address_stripped (a : string) :
  strip (city_of_address a) = city_of_address a.
Proof.
  unfold city_of_address. destruct (contains " - " a); [apply strip_idem | reflexivity].
Qed.

(** X9. [_parse_pharmacy_row] gives no listing exactly for a row with fewer
    than three cells.  The name, the address and the city of a listing carry
    no blank at either end, and the contact numbers are non-empty texts
    without a blank at either end. *)
Theorem parse_row_fields (row : node) :
  (_parse_pharmacy_row row = None <-> (List.length (find_all "td" row) < 3)%nat)
  /\ forall l,
      _parse_pharmacy_row row = Some l ->
      strip (name l) = name l /\ strip (address l) = address l
      /\ strip (city l) = city l
      /\ Forall (fun num => num <> "" /\ strip num = num) (contact_numbers l).
Proof.
  unfold _parse_pharmacy_row.
  destruct (find_all "td" row) as [|c0 [|c1 [|c2 cells]]]; cbn [List.length].
  - split; [split; [lia | reflexivity] | discriminate].
  - split; [split; [lia | reflexivity] | discriminate].
  - split; [split; [lia | reflexivity] | discriminate].
  - split; [split; [discriminate | lia]|].
    intros l [= <-]. cbn [name address city contact_numbers].
    split; [destruct (find "b" c0); [apply strip_idem | reflexivity]|].
    split; [apply strip_idem|]. split; [apply city_of_address_stripped|].
    apply Forall_forall. intros num Hnum. apply in_map_iff in Hnum.
    destruct Hnum as (raw & <- & Hraw). apply filter_In in Hraw.
    destruct Hraw as [_ Ht]. split; [apply truthy_nonempty, Ht | apply strip_idem].
Qed.

Lemma parse_row_fields_witness :
  _parse_pharmacy_row Samples.plain_row <> None
  /\ _parse_pharmacy_row (Tag "tr" None [] [Tag "td" None [] []]) = None.
Proof.
  split.
  - intros H. apply (proj1 (parse_row_fields Samples.plain_row)) in H.
    cbn in H. lia.
  - apply (proj1 (parse_row_fields (Tag "tr" None [] [Tag "td" None [] []]))).
    cbn. lia.
Defined.

(** ** The separator of the address *)

Lemma prefix_app (p x t : string) : prefix p x = true -> prefix p (x ++ t) = true.
Proof.
  revert x. induction p as [|a p IH]; intros x H;
    [destruct (x ++ t); reflexivity|].
  destruct x as [|b x]; [discriminate|]. cbn [prefix append] in *.
  destruct (ascii_dec a b); [apply IH, H | discriminate].
Qed.

Lemma prefix_split (p s : string) : prefix p s = true -> exists t, s = p ++ t.
Proof.
  revert s. induction p as [|a p IH]; intros s H; [exists s; reflexivity|].
  destruct s as [|b s]; [discriminate|]. cbn [prefix] in H.
  destruct (ascii_dec a b) as [<-|]; [|discriminate].
  destruct (IH s H) as [t ->]. exists t. reflexivity.
Qed.

Lemma split_head_prefix (sep s : string) : exists t, s = split_head sep s ++ t.
Proof.
  induction s as [|c s (t & IH)]; cbn [split_head].
  - destruct (prefix sep ""); exists ""; reflexivity.
  - destruct (prefix sep (String c s)); [exists (String c s); reflexivity|].
    exists t. cbn. now rewrite <- IH.
Qed.

(** The text before the first separator, the separator and the rest make
    the text; the separator does not occur before its first occurrence. *)
Lemma split_head_spec (sep s : string) :
  sep <> "" ->
  contains sep (split_head sep s) = false
  /\ (contains sep s = true -> exists rest, s = split_head sep s ++ sep ++ rest).
Proof.
  intros Hsep. induction s as [|c s [IH1 IH2]]; cbn [split_head contains].
  - destruct sep as [|a sep]; [congruence|]. cbn. split; [reflexivity | discriminate].
  - destruct (prefix sep (String c s)) eqn:E.
    + split.
      * destruct sep as [|a sep]; [congruence | reflexivity].
      * intros _. apply prefix_split in E. destruct E as [t ->]. exists t. reflexivity.
    + split.
      * cbn [contains]. rewrite IH1.
        destruct (prefix sep (String c (split_head sep s))) eqn:E'; [|reflexivity].
        destruct (split_head_prefix sep s) as [t Ht].
        apply (prefix_app _ _ t) in E'. cbn [append] in E'.
        rewrite <- Ht in E'. congruence.
      * intros H. destruct (IH2 H) as [rest Hrest]. exists rest. cbn.
        now rewrite <- Hrest.
Qed.

(** X10. A listing with a city has an address of the form head, [" - "],
    rest, where the separator does not occur in the head and the city is the
    head without the blanks at its ends: the city is cut at the first
    separator of the address. *)
Theorem city_is_address_head (row : node) (l : listing) :
  _parse_pharmacy_row row = Some l ->
  city l <> "" ->
  exists head rest,
    address l = head ++ " - " ++ rest
    /\ contains " - " head = false
    /\ city l = strip head.
Proof.
  unfold _parse_pharmacy_row.
  destruct (find_all "td" row) as [|c0 [|c1 [|c2 cells]]]; try discriminate.
  intros [= <-]. cbn [city address]. unfold city_of_address.
  destruct (contains " - " (strip (text c1))) eqn:E; [|congruence].
  intros _.
  destruct (split_head_spec " - " (strip (text c1)) ltac:(discriminate))
    as [Hno Hsplit].
  destruct (Hsplit E) as [rest Hrest].
  exists (split_head " - " (strip (text c1))), rest. repeat split; assumption.
Qed.

Lemma city_is_address_head_witness :
  exists head rest,
    "TANA  -  Lot 12 - Analakely" = head ++ " - " ++ rest
    /\ contains " - " head = false
    /\ "TANA" = strip head.
Proof.
  apply (city_is_address_head
           (Tag "tr" None []
                [Tag "td" None [] []; 
                 Tag "td" None [] [NavigableString " TANA  -  Lot 12 - Analakely "];
                 Tag "td" None [] []])
           (mk_listing "" "TANA  -  Lot 12 - Analakely" "TANA" [])).
  - vm_compute. reflexivity.
  - discriminate.
Defined.

(** ** The listings of a page *)

Lemma scrape_parsed (soup : node) :
  scrape_pharmacies (Parsed soup)
  = (flat_map (fun row => match _parse_pharmacy_row row with
                          | Some pharmacy_data => [pharmacy_data]
                          | None => []
                          end) (page_rows soup),
     fst (_extract_date_range (page_title soup)),
     snd (_extract_date_range (page_title soup))).
Proof.
  unfold scrape_pharmacies, page_rows, page_title.
  destruct (_extract_date_range _) as [s e]. cbn [fst snd].
  destruct (find_where is_table soup) as [table|]; [|reflexivity].
  destruct (find "tbody" table); reflexivity.
Qed.

(** X11. The listings of a page are the rows of the body of its table that
    have at least three cells, in the order of the page, so there are at
    most as many listings as rows; the period comes from the title alone.
    A page without the table, or whose table has no body, gives no listing
    and still gives the period of its title. *)
Theorem scraped_listings (soup : node) :
  let ps := fst (fst (scrape_pharmacies (Parsed soup))) in
  let s := snd (fst (scrape_pharmacies (Parsed soup))) in
  let e := snd (scrape_pharmacies (Parsed soup)) in
  (s, e) = _extract_date_range (page_title soup)
  /\ (List.length ps <= List.length (page_rows soup))%nat
  /\ (forall l, In l ps <->
                exists row, In row (page_rows soup)
                            /\ _parse_pharmacy_row row = Some l)
  /\ (find_where is_table soup = None -> ps = [])
  /\ (forall table, find_where is_table soup = Some table ->
                    find "tbody" table = None -> ps = []).
Proof.
  cbv zeta. rewrite scrape_parsed. cbn [fst snd].
  split; [now destruct (_extract_date_range (page_title soup))|].
  split; [|split; [|split]].
  - induction (page_rows soup) as [|row rows IH]; [cbn; lia|].
    cbn [flat_map List.length]. rewrite length_app.
    destruct (_parse_pharmacy_row row); cbn [List.length]; lia.
  - intros l. rewrite in_flat_map. split.
    + intros (row & Hrow & Hl). exists row. split; [exact Hrow|].
      destruct (_parse_pharmacy_row row) as [l'|]; [|destruct Hl].
      destruct Hl as [<-|[]]. reflexivity.
    + intros (row & Hrow & Hl). exists row. split; [exact Hrow|].
      rewrite Hl. now left.
  - intros H. unfold page_rows. rewrite H. reflexivity.
  - intros table H1 H2. unfold page_rows. rewrite H1, H2. reflexivity.
Qed.

Lemma scraped_listings_witness :
  fst (fst (scrape_pharmacies (Parsed page_without_table))) = [].
Proof.
  apply (proj1 (proj2 (proj2 (proj2 (scraped_listings page_without_table))))).
  reflexivity.
Defined.

(** X12. A run on a page that has a period and no table overwrites the
    roster with that period and an empty list of identifiers: the row of
    least identifier then carries the period of the page, no identifier and
    the clock reading of the run. *)
Theorem run_without_table (now : timestamp) (soup : node) (d : db) (s e : string) :
  find_where is_table soup = None ->
  _extract_date_range (page_title soup) = (Some s, Some e) ->
  exists r,
    In r (on_duty_pharmacies (ingest now (Parsed soup) d))
    /\ min_id (on_duty_pharmacies (ingest now (Parsed soup) d)) = Some (od_id r)
    /\ start_date r = s /\ end_date r = e
    /\ pharmacy_ids r = [] /\ updated_at r = now.
Proof.
  intros Htable Hperiod.
  destruct (extract_truthy _ _ _ Hperiod) as [Hts Hte].
  unfold ingest. rewrite scrape_parsed, Hperiod. cbn [fst snd].
  unfold page_rows. rewrite Htable. cbn [flat_map].
  rewrite (process_with_period _ _ _ _ _ Hts Hte).
  change (matched_ids d []) with (@nil Z).
  destruct (update_first_row now s e [] d) as (m & Hm & Hrow).
  destruct (min_id_spec _ _ Hm) as [(r & Hr & Hid) _].
  exists r. split; [exact Hr|]. split; [now rewrite Hid|].
  destruct (Hrow r Hr Hid) as (H1 & H2 & H3 & H4). auto.
Qed.

Lemma run_without_table_witness :
  exists r,
    In r (on_duty_pharmacies
            (ingest 20%Z (Parsed page_without_table) Samples.registry_with_roster))
    /\ pharmacy_ids r = [] /\ end_date r = "2025-01-18".
Proof.
  destruct (run_without_table 20%Z page_without_table
              Samples.registry_with_roster "2025-01-12" "2025-01-18")
    as (r & Hr & _ & _ & He & Hids & _).
  - reflexivity.
  - vm_compute. reflexivity.
  - exists r. repeat split; assumption.
Defined.

(** * The coordinate finder *)

Import Finder.

(** ** Texts put end to end *)

Lemma length_append (a b : string) :
  String.length (a ++ b) = (String.length a + String.length b)%nat.
Proof. induction a as [|c a IH]; cbn; [reflexivity | now rewrite IH]. Qed.

Lemma append_inv_head (a x y : string) : a ++ x = a ++ y -> x = y.
Proof.
  induction a as [|c a IH]; cbn; [auto|]. intros [= H]. auto.
Qed.

Lemma append_inv_tail (t x y : string) : x ++ t = y ++ t -> x = y.
Proof.
  revert y. induction x as [|c x IH]; intros [|c' y] H; cbn in H.
  - reflexivity.
  - apply (f_equal String.length) in H. cbn in H. rewrite length_append in H. lia.
  - apply (f_equal String.length) in H. cbn in H. rewrite length_append in H. lia.
  - injection H as -> H. f_equal. apply IH, H.
Qed.

Lemma prefix_refl (p t : string) : prefix p (p ++ t) = true.
Proof.
  induction p as [|a p IH]; [destruct ("" ++ t); reflexivity|].
  cbn. destruct (ascii_dec a a); [exact IH | congruence].
Qed.

Lemma contains_prefix (sep s : string) :
  prefix sep s = true -> contains sep s = true.
Proof. intros H. destruct s; cbn [contains]; rewrite H; reflexivity. Qed.

Lemma contains_app (sep a b : string) : contains sep (a ++ sep ++ b) = true.
Proof.
  induction a as [|c a IH].
  - cbn [append]. apply contains_prefix, prefix_refl.
  - cbn [append contains]. rewrite IH.
    destruct (prefix sep (String c (a ++ sep ++ b))); reflexivity.
Qed.

Lemma strip_or_empty (address : string) :
  (if truthy address then strip address else "") = strip address.
Proof. destruct address; reflexivity. Qed.

(** ** The queries *)

Lemma unique_pair (q1 q2 : string) :
  snd (fold_left unique_step [q1; q2] ([], []))
  = if String.eqb q2 q1 then [q1] else [q1; q2].
Proof. cbn. destruct (String.eqb q2 q1); reflexivity. Qed.

(** X13. [create_search_queries] gives at most two queries, without
    repetition: the query by address, then the query by city.  With an
    address the two are given, as one when address and city are the same
    text; without an address the query by address is never given, and the
    query by city is given unless it holds [", , "], which it does when the
    city is empty as well: then there is no query at all. *)
Theorem create_search_queries_spec (pharmacy_name address city : string) :
  let by_address := "pharmacie " ++ strip pharmacy_name ++ ", "
                    ++ strip address ++ ", Madagascar" in
  let by_city := "pharmacie " ++ strip pharmacy_name ++ ", "
                 ++ strip city ++ ", Madagascar" in
  let queries := create_search_queries pharmacy_name address city in
  NoDup queries
  /\ (strip address <> "" ->
      queries = if String.eqb (strip city) (strip address)
                then [by_address] else [by_address; by_city])
  /\ (strip address = "" ->
      ~ In by_address queries
      /\ queries = if contains ", , " by_city then [] else [by_city])
  /\ (strip address = "" -> strip city = "" -> queries = []).
Proof.
  cbv zeta. unfold create_search_queries. rewrite strip_or_empty.
  set (q1 := "pharmacie " ++ strip pharmacy_name ++ ", " ++ strip address
             ++ ", Madagascar").
  set (q2 := "pharmacie " ++ strip pharmacy_name ++ ", " ++ strip city
             ++ ", Madagascar").
  assert (Heq : String.eqb q2 q1 = String.eqb (strip city) (strip address)).
  { destruct (String.eqb_spec (strip city) (strip address)) as [E|E].
    - apply String.eqb_eq. subst q1 q2. now rewrite E.
    - apply String.eqb_neq. intros H. apply E. subst q1 q2.
      apply append_inv_head, append_inv_head, append_inv_head in H.
      apply append_inv_tail in H. exact H. }
  assert (Hblank : strip address = "" -> contains ", , " q1 = true).
  { intros E. subst q1. rewrite E.
    change ("pharmacie " ++ strip pharmacy_name ++ ", " ++ "" ++ ", Madagascar")
      with ("pharmacie " ++ strip pharmacy_name ++ ", , " ++ "Madagascar").
    rewrite <- append_assoc. apply contains_app. }
  destruct (truthy (strip address)) eqn:Et.
  - assert (Ha : strip address <> "") by (apply truthy_nonempty, Et).
    cbn [negb]. rewrite unique_pair, Heq.
    split; [|split; [reflexivity|split; contradiction]].
    destruct (String.eqb_spec (strip city) (strip address)) as [E|E].
    + repeat constructor. intros [].
    + repeat constructor; [|intros []]. intros [H|[]].
      apply String.eqb_neq in Heq. congruence.
  - assert (Ha : strip address = "").
    { destruct (strip address); [reflexivity | discriminate]. }
    cbn [negb filter]. rewrite (Hblank Ha). cbn [negb].
    assert (Hq : snd (fold_left unique_step
                        (if negb (contains ", , " q2) then [q2] else [])
                        ([], []))
                 = if contains ", , " q2 then [] else [q2]).
    { destruct (contains ", , " q2); reflexivity. }
    rewrite Hq. split; [|split; [congruence|split]].
    + destruct (contains ", , " q2); repeat constructor. intros [].
    + intros _. split; [|reflexivity].
      destruct (contains ", , " q2) eqn:E2; [intros []|].
      intros [H|[]]. rewrite H in E2. rewrite (Hblank Ha) in E2. discriminate.
    + intros _ Ec.
      assert (E2 : contains ", , " q2 = true).
      { subst q2. rewrite Ec.
        change ("pharmacie " ++ strip pharmacy_name ++ ", " ++ "" ++ ", Madagascar")
          with ("pharmacie " ++ strip pharmacy_name ++ ", , " ++ "Madagascar").
        rewrite <- append_assoc. apply contains_app. }
      now rewrite E2.
Qed.

Lemma create_search_queries_spec_witness :
  create_search_queries " Rina " "" "  " = []
  /\ create_search_queries " Rina " " Analakely" "Analakely "
     = ["pharmacie Rina, Analakely, Madagascar"].
Proof.
  split.
  - apply (proj2 (proj2 (proj2 (create_search_queries_spec " Rina " "" "  "))));
      reflexivity.
  - apply (proj1 (proj2 (create_search_queries_spec " Rina " " Analakely"
                           "Analakely "))).
    discriminate.
Defined.

(** ** The results of a search *)

(** X14. [search_coordinates] gives nothing for a failed request.  For a
    decoded answer it gives the results that look like a pharmacy, in the
    order of the answer, when there is one, and the whole answer when there
    is none: it gives an empty list only for an empty answer, and never a
    result that the answer does not hold. *)
Theorem search_coordinates_spec (results : list place) :
  search_coordinates RequestError = []
  /\ ((exists r, In r results /\ is_pharmacy r = true) ->
      search_coordinates (Results results) = filter is_pharmacy results
      /\ Forall (fun r => is_pharmacy r = true) (search_coordinates (Results results)))
  /\ ((forall r, In r results -> is_pharmacy r = false) ->
      search_coordinates (Results results) = results)
  /\ (search_coordinates (Results results) = [] <-> results = [])
  /\ incl (search_coordinates (Results results)) results.
Proof.
  split; [reflexivity|]. cbn [search_coordinates].
  destruct (filter is_pharmacy results) as [|r0 rs] eqn:E.
  - assert (Hnone : forall r, In r results -> is_pharmacy r = false).
    { intros r Hr. destruct (is_pharmacy r) eqn:Ep; [|reflexivity].
      assert (Hin : In r (filter is_pharmacy results))
        by (apply filter_In; now split).
      rewrite E in Hin. destruct Hin. }
    split; [|split; [|split]].
    + intros (r & Hr & Hp). rewrite (Hnone r Hr) in Hp. discriminate.
    + reflexivity.
    + reflexivity.
    + apply incl_refl.
  - split; [|split; [|split]].
    + intros _. split; [reflexivity|]. rewrite <- E. apply Forall_forall.
      intros r Hr. apply filter_In in Hr. apply Hr.
    + intros Hnone. assert (Hin : In r0 (filter is_pharmacy results))
        by (rewrite E; now left).
      apply filter_In in Hin. destruct Hin as [Hr Hp].
      rewrite (Hnone r0 Hr) in Hp. discriminate.
    + split; [discriminate|]. intros ->. discriminate.
    + rewrite <- E. intros r Hr. apply filter_In in Hr. apply Hr.
Qed.

Lemma search_coordinates_spec_witness :
  search_coordinates (Results [osm_street; osm_pharmacy]) = [osm_pharmacy]
  /\ search_coordinates (Results [osm_street]) = [osm_street].
Proof.
  split.
  - apply (proj1 (proj2 (search_coordinates_spec [osm_street; osm_pharmacy]))).
    exists osm_pharmacy. split; [right; now left | reflexivity].
  - apply (proj1 (proj2 (proj2 (search_coordinates_spec [osm_street])))).
    intros r [<-|[]]. reflexivity.
Defined.

(** ** Results gathered over the queries *)

Lemma option_eqb_eq (a b : option string) : option_eqb a b = true <-> a = b.
Proof.
  destruct a as [x|], b as [y|]; cbn; try (split; congruence).
  rewrite String.eqb_eq. split; congruence.
Qed.

Lemma same_spot_eq (result r : place) :
  same_spot result r = true <-> spot r = spot result.
Proof.
  unfold same_spot, spot. rewrite andb_true_iff, !option_eqb_eq.
  split; [intros [-> ->]; reflexivity | intros [= -> ->]; now split].
Qed.

Lemma existsb_same_spot (result : place) (all : list place) :
  existsb (same_spot result) all = true <-> In (spot result) (map spot all).
Proof.
  rewrite existsb_exists, in_map_iff. split.
  - intros (r & Hr & Hs). exists r. split; [apply same_spot_eq, Hs | exact Hr].
  - intros (r & Hs & Hr). exists r. split; [exact Hr | apply same_spot_eq, Hs].
Qed.

Lemma NoDup_snoc {A : Type} (l : list A) (x : A) :
  NoDup l -> ~ In x l -> NoDup (l ++ [x])%list.
Proof.
  induction l as [|y l IH]; intros Hl Hx; cbn.
  - constructor; [intros [] | constructor].
  - inversion Hl as [|y' l' Hy Hl']; subst. constructor.
    + intros H. apply in_app_or in H. destruct H as [H|[H|[]]]; [auto|].
      apply Hx. now left.
    + apply IH; [exact Hl'|]. intros H. apply Hx. now right.
Qed.

Lemma add_unique_spec (results all : list place) :
  NoDup (map spot all) ->
  NoDup (map spot (add_unique all results))
  /\ (exists added, add_unique all results = (all ++ added)%list
                    /\ incl added results)
  /\ forall r, In r results -> In (spot r) (map spot (add_unique all results)).
Proof.
  unfold add_unique. revert all.
  induction results as [|r results IH]; intros all Hall; cbn [fold_left].
  - split; [exact Hall|]. split; [|intros r []].
    exists []. rewrite app_nil_r. split; [reflexivity | apply incl_refl].
  - destruct (existsb (same_spot r) all) eqn:E.
    + destruct (IH all Hall) as (H1 & (added & H2 & H3) & H4).
      split; [exact H1|]. split.
      * exists added. split; [exact H2 | now apply incl_tl].
      * intros r' [<-|Hr']; [|apply H4, Hr'].
        apply existsb_same_spot in E. rewrite H2, map_app.
        apply in_or_app. now left.
    + assert (Hall' : NoDup (map spot (all ++ [r])%list)).
      { rewrite map_app. cbn [map]. apply NoDup_snoc; [exact Hall|].
        apply not_true_iff_false in E. intros H. apply E, existsb_same_spot, H. }
      destruct (IH (all ++ [r])%list Hall') as (H1 & (added & H2 & H3) & H4).
      split; [exact H1|]. split.
      * exists (r :: added). rewrite H2, <- app_assoc. split; [reflexivity|].
        intros x [<-|Hx]; [now left | right; apply H3, Hx].
      * intros r' [<-|Hr']; [|apply H4, Hr'].
        rewrite H2, !map_app. apply in_or_app. left. apply in_or_app. right.
        now left.
Qed.

Lemma gather_step (ask : string -> response) (query : string)
      (queries : list string) (all : list place) :
  gather ask (query :: queries) all
  = if (5 <=? List.length (add_unique all (search_coordinates (ask query))))%nat
    then add_unique all (search_coordinates (ask query))
    else gather ask queries (add_unique all (search_coordinates (ask query))).
Proof.
  cbn [gather]. destruct (search_coordinates (ask query)); reflexivity.
Qed.

(** X15. The results gathered over the queries never hold two results with
    the same coordinates; they extend the results already there by results
    that some query gave; and when fewer than five are gathered in the end,
    every query was asked and each of its results is there, itself or an
    earlier one with its coordinates. *)
Theorem gather_spec (ask : string -> response) (queries : list string)
        (all : list place) :
  NoDup (map spot all) ->
  NoDup (map spot (gather ask queries all))
  /\ (exists added,
         gather ask queries all = (all ++ added)%list
         /\ forall r, In r added ->
                      exists q, In q queries /\ In r (search_coordinates (ask q)))
  /\ ((List.length (gather ask queries all) < 5)%nat ->
      forall q r, In q queries -> In r (search_coordinates (ask q)) ->
                  In (spot r) (map spot (gather ask queries all))).
Proof.
  revert all. induction queries as [|query queries IH]; intros all Hall.
  - cbn [gather]. split; [exact Hall|]. split; [|intros _ q r []].
    exists []. rewrite app_nil_r. split; [reflexivity | intros r []].
  - rewrite gather_step.
    destruct (add_unique_spec (search_coordinates (ask query)) all Hall)
      as (Hnd & (added & Hadd & Hincl) & Hspots).
    destruct (5 <=? List.length (add_unique all (search_coordinates (ask query))))%nat
      eqn:E.
    + split; [exact Hnd|]. split.
      * exists added. split; [exact Hadd|]. intros r Hr. exists query.
        split; [now left | apply Hincl, Hr].
      * intros Hlt. apply Nat.leb_le in E. lia.
    + destruct (IH _ Hnd) as (H1 & (added' & H2 & H3) & H4).
      split; [exact H1|]. split.
      * exists (added ++ added')%list. rewrite H2, Hadd, <- app_assoc.
        split; [reflexivity|]. intros r Hr. apply in_app_or in Hr.
        destruct Hr as [Hr|Hr].
        -- exists query. split; [now left | apply Hincl, Hr].
        -- destruct (H3 r Hr) as (q & Hq & Hrq). exists q. split; [now right | exact Hrq].
      * intros Hlt q r [<-|Hq] Hr; [|apply (H4 Hlt q r Hq Hr)].
        rewrite H2, map_app. apply in_or_app. left. apply Hspots, Hr.
Qed.

Lemma gather_spec_witness :
  NoDup (map spot
           (gather (fun _ => Results [osm_street; osm_pharmacy; osm_pharmacy])
                   ["pharmacie Rina, Analakely, Madagascar";
                    "pharmacie Rina, Antananarivo, Madagascar"] [])).
Proof.
  apply (proj1 (gather_spec
                  (fun _ => Results [osm_street; osm_pharmacy; osm_pharmacy])
                  ["pharmacie Rina, Analakely, Madagascar";
                   "pharmacie Rina, Antananarivo, Madagascar"] [] (NoDup_nil _))).
Defined.

(** ** The choice at the prompt *)

Lemma valid_index (results : list place) (n : Z) :
  (0 <=? n - 1)%Z && (n - 1 <? Z.of_nat (List.length results))%Z = true ->
  exists r, nth_error results (Z.to_nat (n - 1)) = Some r /\ In r results.
Proof.
  intros H. apply andb_prop in H. destruct H as [H1 H2].
  apply Z.leb_le in H1. apply Z.ltb_lt in H2.
  destruct (nth_error results (Z.to_nat (n - 1))) as [r|] eqn:E.
  - exists r. split; [reflexivity | apply (nth_error_In _ _ E)].
  - apply nth_error_None in E. lia.
Qed.

Lemma choice_loop_spec (results : list place) (typed : list keyboard) :
  (exists used, typed = (used ++ snd (choice_loop results typed))%list)
  /\ (forall r, fst (choice_loop results typed) = Chosen r -> In r results)
  /\ (fst (choice_loop results typed) = EndOfInput ->
      snd (choice_loop results typed) = [] /\ ~ In Interrupt typed).
Proof.
  induction typed as [|k typed (IH1 & IH2 & IH3)]; cbn [choice_loop].
  - cbn. split; [exists []; reflexivity|]. split; [discriminate | auto].
  - assert (Hstop : forall c,
               (forall r, c = Chosen r -> In r results) -> c <> EndOfInput ->
               (exists used, k :: typed = (used ++ snd (c, typed))%list)
               /\ (forall r, fst (c, typed) = Chosen r -> In r results)
               /\ (fst (c, typed) = EndOfInput ->
                   snd (c, typed) = [] /\ ~ In Interrupt (k :: typed))).
    { intros c Hc Hne. cbn [fst snd]. split; [exists [k]; reflexivity|].
      split; [exact Hc | contradiction]. }
    assert (Hnext : forall text, k = Line text ->
               (exists used, k :: typed = (used ++ snd (choice_loop results typed))%list)
               /\ (forall r, fst (choice_loop results typed) = Chosen r ->
                              In r results)
               /\ (fst (choice_loop results typed) = EndOfInput ->
                   snd (choice_loop results typed) = []
                   /\ ~ In Interrupt (k :: typed))).
    { intros text ->. split; [|split; [exact IH2|]].
      - destruct IH1 as [used Hused]. exists (Line text :: used). cbn.
        now rewrite <- Hused.
      - intros H. destruct (IH3 H) as [H1 H2]. split; [exact H1|].
        intros [H'|H']; [discriminate | auto]. }
    destruct k as [text|]; [|apply Hstop; discriminate].
    destruct (String.eqb (lower (strip text)) "s"); [apply Hstop; discriminate|].
    destruct (String.eqb (lower (strip text)) "0"); [apply Hstop; discriminate|].
    destruct (py_int (lower (strip text))) as [n|]; [|apply (Hnext text eq_refl)].
    destruct ((0 <=? n - 1)%Z && (n - 1 <? Z.of_nat (List.length results))%Z) eqn:E;
      [|apply (Hnext text eq_refl)].
    destruct (valid_index results n E) as (r & -> & Hr).
    apply Hstop; [|discriminate]. intros r' [= <-]. exact Hr.
Qed.

Lemma get_user_choice_loop (results : list place) (typed : list keyboard) :
  results <> [] -> get_user_choice results typed = choice_loop results typed.
Proof. destruct results; [congruence | reflexivity]. Qed.

(** X16. [get_user_choice] reads nothing and skips the pharmacy when there
    are no results.  Otherwise it reads lines until one decides: the result
    it returns is one of the results shown, and what is left to read is the
    end of what was typed; a line that reads as a number between 1 and the
    number of results selects the result of that rank; a line that is
    neither [s] nor [0] and reads as no such number is passed over; the
    input can run out only after lines that were all passed over. *)
Theorem get_user_choice_spec (results : list place) (typed : list keyboard) :
  (exists used, typed = (used ++ snd (get_user_choice results typed))%list)
  /\ (forall r, fst (get_user_choice results typed) = Chosen r -> In r results)
  /\ (results = [] -> get_user_choice results typed = (SkipThis, typed))
  /\ (fst (get_user_choice results typed) = EndOfInput ->
      snd (get_user_choice results typed) = [] /\ ~ In Interrupt typed)
  /\ (forall text n,
         results <> [] ->
         py_int (lower (strip text)) = Some n ->
         (1 <= n <= Z.of_nat (List.length results))%Z ->
         exists r,
           nth_error results (Z.to_nat (n - 1)) = Some r
           /\ get_user_choice results (Line text :: typed) = (Chosen r, typed))
  /\ (forall text,
         results <> [] ->
         lower (strip text) <> "s" -> lower (strip text) <> "0" ->
         (forall n, py_int (lower (strip text)) = Some n ->
                    (n < 1 \/ Z.of_nat (List.length results) < n)%Z) ->
         get_user_choice results (Line text :: typed)
         = get_user_choice results typed).
Proof.
  destruct results as [|r0 results'] eqn:Er.
  - cbn [get_user_choice fst snd]. split; [exists []; reflexivity|].
    split; [discriminate|]. split; [reflexivity|]. split; [discriminate|].
    split; [intros text n H; congruence | intros text H; congruence].
  - rewrite <- Er. assert (Hne : results <> []) by (rewrite Er; discriminate).
    clear Er. rewrite !(get_user_choice_loop results _ Hne).
    destruct (choice_loop_spec results typed) as (H1 & H2 & H3).
    split; [exact H1|]. split; [exact H2|]. split; [contradiction|].
    split; [exact H3|]. split.
    + intros text n _ Hint Hn. rewrite (get_user_choice_loop results _ Hne).
      cbn [choice_loop]. rewrite Hint.
      destruct (String.eqb_spec (lower (strip text)) "s") as [E|_];
        [rewrite E in Hint; discriminate|].
      destruct (String.eqb_spec (lower (strip text)) "0") as [E|_];
        [rewrite E in Hint; injection Hint as <-; lia|].
      assert (E : (0 <=? n - 1)%Z && (n - 1 <? Z.of_nat (List.length results))%Z
                  = true).
      { apply andb_true_iff. split; [apply Z.leb_le | apply Z.ltb_lt]; lia. }
      rewrite E. destruct (valid_index results n E) as (r & -> & _).
      exists r. split; reflexivity.
    + intros text _ Hs H0 Hint. rewrite (get_user_choice_loop results _ Hne).
      cbn [choice_loop].
      destruct (String.eqb_spec (lower (strip text)) "s") as [E|_]; [contradiction|].
      destruct (String.eqb_spec (lower (strip text)) "0") as [E|_]; [contradiction|].
      destruct (py_int (lower (strip text))) as [n|]; [|reflexivity].
      destruct ((0 <=? n - 1)%Z && (n - 1 <? Z.of_nat (List.length results))%Z) eqn:E;
        [|reflexivity].
      apply andb_prop in E. destruct E as [E1 E2].
      apply Z.leb_le in E1. apply Z.ltb_lt in E2.
      specialize (Hint n eq_refl). lia.
Qed.

Lemma get_user_choice_spec_witness :
  get_user_choice [osm_street; osm_pharmacy]
                  [Line "x"; Line "00"; Line " +2 "; Line "1"]
  = (Chosen osm_pharmacy, [Line "1"]).
Proof.
  rewrite (proj2 (proj2 (proj2 (proj2 (proj2
             (get_user_choice_spec [osm_street; osm_pharmacy]
                [Line "00"; Line " +2 "; Line "1"]))))) "x");
    [|discriminate|discriminate|discriminate|discriminate].
  rewrite (proj2 (proj2 (proj2 (proj2 (proj2
             (get_user_choice_spec [osm_street; osm_pharmacy]
                [Line " +2 "; Line "1"]))))) "00");
    [|discriminate|discriminate|discriminate
     |intros n [= <-]; left; reflexivity].
  destruct (proj1 (proj2 (proj2 (proj2 (proj2
              (get_user_choice_spec [osm_street; osm_pharmacy] [Line "1"])))))
              " +2 " 2%Z ltac:(discriminate) eq_refl ltac:(cbn; lia))
    as (r & Hr & ->).
  cbn in Hr. injection Hr as <-. reflexivity.
Defined.

(** * The dataset converter *)

Import Store Converter.

(** ** One pharmacy *)

Lemma convert_pharmacy_spec (now : timestamp) (cid : Z) (acc : progress)
      (ph : pharmacy_entry) :
  let acc' := convert_pharmacy now cid acc ph in
  st_cities (database acc') = st_cities (database acc)
  /\ st_city_seq (database acc') = st_city_seq (database acc)
  /\ st_on_duty (database acc') = st_on_duty (database acc)
  /\ st_on_duty_seq (database acc') = st_on_duty_seq (database acc)
  /\ total_pharmacies acc' = total_pharmacies acc
  /\ exists new,
      st_pharmacies (database acc')
      = (st_pharmacies (database acc) ++ new)%list
      /\ inserted_pharmacies acc' = (inserted_pharmacies acc + List.length new)%nat
      /\ Forall (fun p => pr_city_id p = cid) new
      /\ map record_fields new
         = map entry_fields (filter importable_pharmacy [ph]).
Proof.
  cbv zeta. unfold convert_pharmacy. cbn [filter]. unfold importable_pharmacy.
  destruct (truthy (strip (get_text (e_name ph)))); cbn [negb].
  - cbn. repeat (split; [reflexivity|]).
    eexists [_]. split; [reflexivity|]. split; [cbn; lia|].
    split; [repeat constructor | reflexivity].
  - repeat (split; [reflexivity|]). exists [].
    rewrite app_nil_r. cbn. split; [reflexivity|]. split; [lia|].
    split; [constructor | reflexivity].
Qed.

Lemma convert_pharmacies_spec (now : timestamp) (cid : Z)
      (phs : list pharmacy_entry) (acc : progress) :
  let acc' := fold_left (convert_pharmacy now cid) phs acc in
  st_cities (database acc') = st_cities (database acc)
  /\ st_city_seq (database acc') = st_city_seq (database acc)
  /\ st_on_duty (database acc') = st_on_duty (database acc)
  /\ st_on_duty_seq (database acc') = st_on_duty_seq (database acc)
  /\ total_pharmacies acc' = total_pharmacies acc
  /\ exists new,
      st_pharmacies (database acc')
      = (st_pharmacies (database acc) ++ new)%list
      /\ inserted_pharmacies acc' = (inserted_pharmacies acc + List.length new)%nat
      /\ Forall (fun p => pr_city_id p = cid) new
      /\ map record_fields new
         = map entry_fields (filter importable_pharmacy phs).
Proof.
  cbv zeta. revert acc. induction phs as [|ph phs IH]; intros acc.
  - cbn. repeat (split; [reflexivity|]). exists []. rewrite app_nil_r.
    cbn. split; [reflexivity|]. split; [lia|]. split; [constructor | reflexivity].
  - cbn [fold_left].
    destruct (convert_pharmacy_spec now cid acc ph)
      as (C1 & C2 & C3 & C4 & C5 & new1 & P1 & I1 & F1 & M1).
    destruct (IH (convert_pharmacy now cid acc ph))
      as (D1 & D2 & D3 & D4 & D5 & new2 & P2 & I2 & F2 & M2).
    split; [congruence|]. split; [congruence|]. split; [congruence|].
    split; [congruence|]. split; [congruence|].
    exists (new1 ++ new2)%list. split; [rewrite P2, P1, <- app_assoc; reflexivity|].
    split; [rewrite I2, I1, length_app; lia|].
    split; [apply Forall_app; now split|].
    rewrite map_app, M1, M2, <- map_app. f_equal.
    change (ph :: phs) with ([ph] ++ phs)%list. symmetry. apply filter_app.
Qed.

(** ** One city *)

Lemma existsb_name (n : string) (cities : list city_record) :
  existsb (fun c => String.eqb (cr_name c) n) cities = true
  <-> In n (map cr_name cities).
Proof.
  rewrite existsb_exists, in_map_iff. split.
  - intros (c & Hc & E). apply String.eqb_eq in E. eauto.
  - intros (c & E & Hc). exists c. split; [exact Hc | now apply String.eqb_eq].
Qed.

Lemma next_rowid_above (ids : list Z) (seq : Z) : (seq < next_rowid ids seq)%Z.
Proof. unfold next_rowid. destruct (greatest ids); lia. Qed.

Lemma insert_city_spec (now : timestamp) (n : string) (st : store) :
  let st' := insert_city_or_ignore now n st in
  st_pharmacies st' = st_pharmacies st
  /\ st_pharmacy_seq st' = st_pharmacy_seq st
  /\ st_on_duty st' = st_on_duty st
  /\ st_on_duty_seq st' = st_on_duty_seq st
  /\ (st_city_seq st < st_city_seq st')%Z
  /\ (In n (map cr_name (st_cities st)) -> st_cities st' = st_cities st)
  /\ (~ In n (map cr_name (st_cities st)) ->
      st_cities st'
      = (st_cities st
         ++ [mk_city_record
               (next_rowid (map cr_id (st_cities st)) (st_city_seq st)) n now])%list)
  /\ exists c, In c (st_cities st') /\ cr_name c = n
               /\ select_city_id n st' = Some (cr_id c).
Proof.
  cbv zeta. unfold insert_city_or_ignore, select_city_id.
  cbn [st_pharmacies st_pharmacy_seq st_on_duty st_on_duty_seq st_city_seq st_cities].
  repeat (split; [reflexivity|]). split; [apply next_rowid_above|].
  destruct (existsb (fun c => String.eqb (cr_name c) n) (st_cities st)) eqn:E.
  - split; [reflexivity|]. split; [intros H; apply existsb_name in E; contradiction|].
    destruct (List.find (fun c => String.eqb (cr_name c) n) (st_cities st))
      as [c|] eqn:F.
    + apply find_some in F. destruct F as [Hc Hn]. apply String.eqb_eq in Hn.
      exists c. repeat split; assumption.
    + apply existsb_exists in E. destruct E as (c & Hc & Hn).
      rewrite (find_none _ _ F c Hc) in Hn. discriminate.
  - split; [intros H; apply existsb_name in H; congruence|].
    split; [reflexivity|].
    set (c := mk_city_record _ n now).
    destruct (List.find (fun c0 => String.eqb (cr_name c0) n) (st_cities st ++ [c])%list)
      as [c'|] eqn:F.
    + apply find_some in F. destruct F as [Hc Hn]. apply String.eqb_eq in Hn.
      exists c'. repeat split; assumption.
    + assert (Hin : In c (st_cities st ++ [c])%list) by (apply in_or_app; right; now left).
      pose proof (find_none _ _ F c Hin) as Hn. cbn in Hn.
      rewrite String.eqb_refl in Hn. discriminate.
Qed.

Lemma convert_city_skip (now : timestamp) (acc : progress) (cd : city_entry) :
  importable_city cd = false -> convert_city now acc cd = acc.
Proof.
  unfold convert_city, importable_city. intros ->. reflexivity.
Qed.

Lemma convert_city_spec (now : timestamp) (acc : progress) (cd : city_entry) :
  importable_city cd = true ->
  let acc' := convert_city now acc cd in
  let n := stored_city cd in
  st_on_duty (database acc') = st_on_duty (database acc)
  /\ st_on_duty_seq (database acc') = st_on_duty_seq (database acc)
  /\ (st_city_seq (database acc) < st_city_seq (database acc'))%Z
  /\ total_pharmacies acc'
     = (total_pharmacies acc + List.length (e_pharmacies cd))%nat
  /\ (In n (map cr_name (st_cities (database acc))) ->
      st_cities (database acc') = st_cities (database acc))
  /\ exists new_c new_p c,
      st_cities (database acc') = (st_cities (database acc) ++ new_c)%list
      /\ Forall (fun c' => cr_name c' = n) new_c
      /\ (List.length new_c <= 1)%nat
      /\ (In n (map cr_name (st_cities (database acc))) -> new_c = [])
      /\ In c (st_cities (database acc')) /\ cr_name c = n
      /\ st_pharmacies (database acc')
         = (st_pharmacies (database acc) ++ new_p)%list
      /\ inserted_pharmacies acc'
         = (inserted_pharmacies acc + List.length new_p)%nat
      /\ Forall (fun p => pr_city_id p = cr_id c) new_p
      /\ map record_fields new_p
         = map entry_fields (filter importable_pharmacy (e_pharmacies cd)).
Proof.
  intros Hi. cbv zeta. unfold convert_city. unfold importable_city in Hi.
  rewrite Hi. cbn [negb]. fold (stored_city cd).
  destruct (insert_city_spec now (stored_city cd) (database acc))
    as (S1 & S2 & S3 & S4 & S5 & S6 & S7 & c & Hc & Hn & Hsel).
  rewrite Hsel.
  destruct (convert_pharmacies_spec now (cr_id c) (e_pharmacies cd)
              (mk_progress
                 (insert_city_or_ignore now (stored_city cd) (database acc))
                 (total_pharmacies acc + List.length (e_pharmacies cd))
                 (inserted_pharmacies acc)))
    as (C1 & C2 & C3 & C4 & C5 & new_p & P1 & I1 & F1 & M1).
  cbn [database total_pharmacies inserted_pharmacies] in *.
  split; [congruence|]. split; [congruence|]. split; [rewrite C2; exact S5|].
  split; [exact C5|]. split; [intros H; rewrite C1; apply S6, H|].
  destruct (in_dec string_dec (stored_city cd) (map cr_name (st_cities (database acc))))
    as [Hin|Hout].
  - exists [], new_p, c. rewrite C1, (S6 Hin), app_nil_r.
    split; [reflexivity|]. split; [constructor|]. split; [cbn; lia|].
    split; [reflexivity|]. split; [rewrite <- (S6 Hin); exact Hc|].
    split; [exact Hn|]. split; [rewrite P1, S1; reflexivity|].
    split; [exact I1|]. split; [exact F1 | exact M1].
  - eexists [_], new_p, c. rewrite C1, (S7 Hout).
    split; [reflexivity|]. split; [repeat constructor|]. split; [cbn; lia|].
    split; [contradiction|]. split; [rewrite <- (S7 Hout); exact Hc|].
    split; [exact Hn|]. split; [rewrite P1, S1; reflexivity|].
    split; [exact I1|]. split; [exact F1 | exact M1].
Qed.

(** ** The whole dataset *)

Lemma convert_fold_spec (now : timestamp) (data : list city_entry) :
  forall acc,
    let acc' := fold_left (convert_city now) data acc in
    st_on_duty (database acc') = st_on_duty (database acc)
    /\ st_on_duty_seq (database acc') = st_on_duty_seq (database acc)
    /\ (st_city_seq (database acc)
        + Z.of_nat (List.length (filter importable_city data))
        <= st_city_seq (database acc'))%Z
    /\ total_pharmacies acc'
       = (total_pharmacies acc
          + list_sum (map (fun c => List.length (e_pharmacies c))
                          (filter importable_city data)))%nat
    /\ exists new_c new_p,
        st_cities (database acc') = (st_cities (database acc) ++ new_c)%list
        /\ st_pharmacies (database acc')
           = (st_pharmacies (database acc) ++ new_p)%list
        /\ inserted_pharmacies acc'
           = (inserted_pharmacies acc + List.length new_p)%nat
        /\ map record_fields new_p = fields_of_data data
        /\ (forall c, In c new_c ->
                      exists cd, In cd data /\ importable_city cd = true
                                 /\ cr_name c = stored_city cd)
        /\ (forall cd ph,
               In cd data -> importable_city cd = true ->
               In ph (e_pharmacies cd) -> importable_pharmacy ph = true ->
               exists p c,
                 In p new_p /\ record_fields p = entry_fields ph
                 /\ In c (st_cities (database acc'))
                 /\ cr_id c = pr_city_id p /\ cr_name c = stored_city cd)
        /\ (forall p, In p new_p ->
                      exists c cd,
                        In c (st_cities (database acc'))
                        /\ cr_id c = pr_city_id p /\ In cd data
                        /\ importable_city cd = true
                        /\ cr_name c = stored_city cd)
        /\ (forall cd, In cd data -> importable_city cd = true ->
                       In (stored_city cd) (map cr_name (st_cities (database acc'))))
        /\ (NoDup (map cr_name (st_cities (database acc))) ->
            NoDup (map cr_name (st_cities (database acc'))))
        /\ ((forall cd, In cd data -> importable_city cd = true ->
                        In (stored_city cd)
                           (map cr_name (st_cities (database acc)))) ->
            new_c = []).
Proof.
  induction data as [|cd data IH]; intros acc; cbv zeta.
  - cbn. repeat (split; [reflexivity || lia|]). exists [], [].
    rewrite !app_nil_r. cbn.
    repeat (split; [reflexivity || lia || (intros; contradiction) || auto|]).
    auto.
  - cbn [fold_left]. specialize (IH (convert_city now acc cd)). cbv zeta in IH.
    destruct IH as (D1 & D2 & D3 & D4 & nc2 & np2 & Hc2 & Hp2 & Hi2 & Hf2
                    & Hnew2 & Hvis2 & Href2 & Hall2 & Hnd2 & Hnone2).
    destruct (importable_city cd) eqn:Ei.
    + destruct (convert_city_spec now acc cd Ei)
        as (S1 & S2 & S3 & S4 & S5 & nc1 & np1 & c1 & Hc1 & Hname1 & Hlen1
            & Hnone1 & Hcin & Hcn & Hp1 & Hi1 & Hcity1 & Hf1).
      assert (Hpre : forall c, In c (st_cities (database (convert_city now acc cd))) ->
                               In c (st_cities (database
                                       (fold_left (convert_city now) data
                                                  (convert_city now acc cd))))).
      { intros c Hc. rewrite Hc2. apply in_or_app. now left. }
      unfold fields_of_data. cbn [filter]. rewrite Ei. cbn [List.length map list_sum flat_map].
      split; [congruence|]. split; [congruence|]. split; [lia|].
      split; [rewrite D4, S4; unfold list_sum; cbn [fold_right]; lia|].
      exists (nc1 ++ nc2)%list, (np1 ++ np2)%list.
      split; [rewrite Hc2, Hc1, <- app_assoc; reflexivity|].
      split; [rewrite Hp2, Hp1, <- app_assoc; reflexivity|].
      split; [rewrite Hi2, Hi1, length_app; lia|].
      split; [rewrite map_app, Hf1, Hf2; reflexivity|].
      split; [|split; [|split; [|split; [|split]]]].
      * intros c Hc. apply in_app_or in Hc. destruct Hc as [Hc|Hc].
        -- exists cd. split; [now left|]. split; [exact Ei|].
           apply (proj1 (Forall_forall _ _) Hname1 c Hc).
        -- destruct (Hnew2 c Hc) as (cd' & Hcd' & Hi' & Hn').
           exists cd'. split; [now right | now split].
      * intros cd' ph [<-|Hcd'] Hi' Hph Hip.
        -- assert (Hin : In (entry_fields ph) (map record_fields np1)).
           { rewrite Hf1. apply in_map, filter_In. now split. }
           apply in_map_iff in Hin. destruct Hin as (p & Hfp & Hp).
           exists p, c1. split; [apply in_or_app; now left|].
           split; [exact Hfp|]. split; [apply Hpre, Hcin|].
           split; [symmetry; apply (proj1 (Forall_forall _ _) Hcity1 p Hp) | exact Hcn].
        -- destruct (Hvis2 cd' ph Hcd' Hi' Hph Hip) as (p & c & Hp & Hfp & Hc & Hid & Hn).
           exists p, c. split; [apply in_or_app; now right|]. auto.
      * intros p Hp. apply in_app_or in Hp. destruct Hp as [Hp|Hp].
        -- exists c1, cd. split; [apply Hpre, Hcin|].
           split; [symmetry; apply (proj1 (Forall_forall _ _) Hcity1 p Hp)|].
           split; [now left|]. split; [exact Ei | exact Hcn].
        -- destruct (Href2 p Hp) as (c & cd' & Hc & Hid & Hcd' & Hi' & Hn).
           exists c, cd'. split; [exact Hc|]. split; [exact Hid|].
           split; [now right | now split].
      * intros cd' [<-|Hcd'] Hi'; [|apply (Hall2 cd' Hcd' Hi')].
        apply in_map_iff. exists c1. split; [exact Hcn | apply Hpre, Hcin].
      * intros Hnd. apply Hnd2. rewrite Hc1, map_app.
        destruct nc1 as [|c' [|c'' nc1]]; [now rewrite app_nil_r| |cbn in Hlen1; lia].
        cbn [map]. apply NoDup_snoc; [exact Hnd|]. intros Hin.
        inversion Hname1 as [|x l Hx _]; subst. rewrite Hx in Hin.
        specialize (Hnone1 Hin). discriminate.
      * intros Hall.
        assert (Hin : In (stored_city cd) (map cr_name (st_cities (database acc))))
          by (apply Hall; [now left | exact Ei]).
        rewrite (Hnone1 Hin). cbn [app]. apply Hnone2.
        intros cd' Hcd' Hi'. rewrite (S5 Hin). apply Hall; [now right | exact Hi'].
    + rewrite (convert_city_skip now acc cd Ei) in *.
      unfold fields_of_data. cbn [filter]. rewrite Ei.
      split; [exact D1|]. split; [exact D2|]. split; [exact D3|].
      split; [exact D4|]. exists nc2, np2.
      split; [exact Hc2|]. split; [exact Hp2|]. split; [exact Hi2|].
      split; [exact Hf2|]. split; [|split; [|split; [|split; [|split]]]].
      * intros c Hc. destruct (Hnew2 c Hc) as (cd' & Hcd' & Hi' & Hn').
        exists cd'. split; [now right | now split].
      * intros cd' ph [<-|Hcd'] Hi' Hph Hip; [congruence|].
        apply (Hvis2 cd' ph Hcd' Hi' Hph Hip).
      * intros p Hp. destruct (Href2 p Hp) as (c & cd' & Hc & Hid & Hcd' & Hi' & Hn).
        exists c, cd'. split; [exact Hc|]. split; [exact Hid|].
        split; [now right | now split].
      * intros cd' [<-|Hcd'] Hi'; [congruence | apply (Hall2 cd' Hcd' Hi')].
      * exact Hnd2.
      * intros Hall. apply Hnone2. intros cd' Hcd' Hi'.
        apply Hall; [now right | exact Hi'].
Qed.

Lemma fields_of_data_length (data : list city_entry) :
  List.length (fields_of_data data) = importable data.
Proof.
  unfold fields_of_data, importable.
  induction (filter importable_city data) as [|c l IH]; [reflexivity|].
  cbn [flat_map map]. rewrite length_app, length_map, IH. reflexivity.
Qed.

Lemma importable_le_total (data : list city_entry) :
  (importable data
   <= list_sum (map (fun c => List.length (e_pharmacies c))
                    (filter importable_city data)))%nat.
Proof.
  unfold importable. induction (filter importable_city data) as [|c l IH];
    [cbn; lia|].
  cbn [map]. unfold list_sum in *. cbn [fold_right].
  pose proof (filter_length_le importable_pharmacy (e_pharmacies c)). lia.
Qed.

(** X17. The conversion only appends: the database after it holds the
    cities and pharmacies of before, followed by the new ones, and the
    roster is untouched.  It inserts one pharmacy for each pharmacy with a
    non-blank name under a city with a non-blank name, in the order of the
    dataset, with the name stripped, the address and the phone as given or
    absent, and the coordinates; the counter of inserted pharmacies is the
    number of rows added and is at most the counter of processed ones. *)
Theorem convert_appends (now : timestamp) (data : list city_entry) (st : store) :
  let r := convert now data st in
  exists new_cities new_pharmacies,
    st_cities (database r) = (st_cities st ++ new_cities)%list
    /\ st_pharmacies (database r) = (st_pharmacies st ++ new_pharmacies)%list
    /\ st_on_duty (database r) = st_on_duty st
    /\ st_on_duty_seq (database r) = st_on_duty_seq st
    /\ map record_fields new_pharmacies = fields_of_data data
    /\ inserted_pharmacies r = List.length new_pharmacies
    /\ inserted_pharmacies r = importable data
    /\ total_pharmacies r
       = list_sum (map (fun c => List.length (e_pharmacies c))
                       (filter importable_city data))
    /\ (inserted_pharmacies r <= total_pharmacies r)%nat.
Proof.
  cbv zeta. unfold convert.
  destruct (convert_fold_spec now data (mk_progress st 0 0))
    as (D1 & D2 & _ & D4 & nc & np & Hc & Hp & Hi & Hf & _).
  cbn [database total_pharmacies inserted_pharmacies] in *.
  assert (Hlen : List.length np = importable data).
  { rewrite <- fields_of_data_length, <- Hf, length_map. reflexivity. }
  exists nc, np. split; [exact Hc|]. split; [exact Hp|]. split; [exact D1|].
  split; [exact D2|]. split; [exact Hf|]. split; [exact Hi|].
  split; [rewrite Hi, Hlen; reflexivity|]. split; [exact D4|].
  rewrite Hi, D4, Hlen. cbn. apply importable_le_total.
Qed.

Lemma entry_fields_clean (ph : pharmacy_entry) :
  importable_pharmacy ph = true ->
  let '(name, address, phone, _, _) := entry_fields ph in
  name <> "" /\ strip name = name /\ address <> Some "" /\ phone <> Some "".
Proof.
  unfold importable_pharmacy, entry_fields. intros H.
  assert (Hnone : forall s, or_none s <> Some "").
  { intros s. unfold or_none. destruct s; cbn; congruence. }
  split; [apply truthy_nonempty, H|]. split; [apply strip_idem|].
  split; [apply Hnone|]. unfold phone_of.
  destruct (e_phone ph) as [|s|[|x l]]; try congruence; apply Hnone.
Qed.

(** X18. Every pharmacy the conversion adds has a non-empty name without
    blanks at its ends, never an empty text as address or phone, and the
    [city_id] of a city row of the database whose name is the stripped,
    non-empty city of an entry of the dataset. *)
Theorem convert_references_cities (now : timestamp) (data : list city_entry)
        (st : store) (p : pharmacy_record) :
  In p (st_pharmacies (database (convert now data st))) ->
  In p (st_pharmacies st)
  \/ (pr_name p <> "" /\ strip (pr_name p) = pr_name p
      /\ pr_address p <> Some "" /\ pr_phone p <> Some ""
      /\ exists c cd,
          In c (st_cities (database (convert now data st)))
          /\ cr_id c = pr_city_id p
          /\ In cd data /\ cr_name c = stored_city cd /\ cr_name c <> "").
Proof.
  unfold convert.
  destruct (convert_fold_spec now data (mk_progress st 0 0))
    as (_ & _ & _ & _ & nc & np & Hc & Hp & _ & Hf & _ & _ & Href & _).
  cbn [database] in *. rewrite Hp. intros Hin. apply in_app_or in Hin.
  destruct Hin as [Hin|Hin]; [now left | right].
  assert (Hfields : In (record_fields p) (fields_of_data data)).
  { rewrite <- Hf. apply in_map, Hin. }
  unfold fields_of_data in Hfields. apply in_flat_map in Hfields.
  destruct Hfields as (cd0 & _ & Hph). apply in_map_iff in Hph.
  destruct Hph as (ph & Heq & Hph). apply filter_In in Hph.
  pose proof (entry_fields_clean ph (proj2 Hph)) as Hclean.
  rewrite Heq in Hclean. unfold record_fields in Hclean.
  destruct Hclean as (H1 & H2 & H3 & H4). repeat (split; [assumption|]).
  destruct (Href p Hin) as (c & cd & Hcin & Hid & Hcd & Hi & Hn).
  exists c, cd. repeat (split; [assumption|]).
  rewrite Hn. apply truthy_nonempty. exact Hi.
Qed.

Lemma convert_references_cities_witness :
  exists c,
    In c (st_cities (database (convert 5%Z sample_dataset empty_store)))
    /\ cr_id c = 1%Z /\ cr_name c <> "".
Proof.
  destruct (convert_references_cities 5%Z sample_dataset empty_store
              (mk_pharmacy_record 1%Z 1%Z "Pharmacie Rina Analakely"
                 (Some "Analakely") (Some "020 22 000 00, 033 11 000 00")
                 (Some (Qmake (-189060) 10000)) (Some (Qmake 475250 10000))
                 5%Z 5%Z))
    as [[]|(_ & _ & _ & _ & c & cd & Hc & Hid & _ & _ & Hne)].
  - vm_compute. left. reflexivity.
  - exists c. repeat split; assumption.
Defined.

(** X19. The conversion keeps the names of the cities distinct: when no two
    city rows share a name before, none do after.  Every city it adds is
    named after an entry of the dataset, every entry with a non-blank city
    has a city row of its stripped name afterwards, and an entry whose
    city is already there adds no row. *)
Theorem convert_cities_unique (now : timestamp) (data : list city_entry)
        (st : store) :
  let cities' := st_cities (database (convert now data st)) in
  (NoDup (map cr_name (st_cities st)) -> NoDup (map cr_name cities'))
  /\ (forall c, In c cities' ->
                In c (st_cities st)
                \/ exists cd, In cd data /\ cr_name c = stored_city cd
                              /\ cr_name c <> "")
  /\ (forall cd, In cd data -> stored_city cd <> "" ->
                 In (stored_city cd) (map cr_name cities'))
  /\ ((forall cd, In cd data -> stored_city cd <> "" ->
                  In (stored_city cd) (map cr_name (st_cities st))) ->
      cities' = st_cities st).
Proof.
  cbv zeta. unfold convert.
  destruct (convert_fold_spec now data (mk_progress st 0 0))
    as (_ & _ & _ & _ & nc & np & Hc & _ & _ & _ & Hnew & _ & _ & Hall & Hnd & Hnone).
  cbn [database] in *. split; [exact Hnd|]. split; [|split].
  - intros c Hin. rewrite Hc in Hin. apply in_app_or in Hin.
    destruct Hin as [Hin|Hin]; [now left | right].
    destruct (Hnew c Hin) as (cd & Hcd & Hi & Hn). exists cd.
    split; [exact Hcd|]. split; [exact Hn|]. rewrite Hn.
    apply truthy_nonempty, Hi.
  - intros cd Hcd Hne. apply (Hall cd Hcd). apply truthy_nonempty, Hne.
  - intros H. rewrite Hc, Hnone, app_nil_r; [reflexivity|].
    intros cd Hcd Hi. apply (H cd Hcd). apply truthy_nonempty, Hi.
Qed.

Lemma convert_cities_unique_witness :
  NoDup (map cr_name (st_cities (database (convert 5%Z sample_dataset empty_store)))).
Proof.
  apply (proj1 (convert_cities_unique 5%Z sample_dataset empty_store)).
  constructor.
Defined.

(** X20. Converting is not idempotent.  A second conversion of the same
    dataset adds no city and adds every pharmacy once more: the number of
    pharmacy rows grows by the number of importable pharmacies each time.
    The counter of the cities moves on all the same, by at least one for
    each entry with a non-blank city, since a rowid is allocated before the
    row is ignored. *)
Theorem convert_twice (now now' : timestamp) (data : list city_entry) (st : store) :
  let once := database (convert now data st) in
  let twice := database (convert now' data once) in
  st_cities twice = st_cities once
  /\ List.length (st_pharmacies twice)
     = (List.length (st_pharmacies st) + 2 * importable data)%nat
  /\ (st_city_seq once
      + Z.of_nat (List.length (filter importable_city data))
      <= st_city_seq twice)%Z.
Proof.
  cbv zeta. unfold convert.
  destruct (convert_fold_spec now data (mk_progress st 0 0))
    as (_ & _ & _ & _ & nc1 & np1 & Hc1 & Hp1 & _ & Hf1 & _ & _ & _ & Hall1 & _).
  destruct (convert_fold_spec now' data
              (mk_progress
                 (database (fold_left (convert_city now) data (mk_progress st 0 0)))
                 0 0))
    as (_ & _ & Hseq & _ & nc2 & np2 & Hc2 & Hp2 & _ & Hf2 & _ & _ & _ & _ & _ & Hnone2).
  cbn [database] in *.
  assert (L1 : List.length np1 = importable data)
    by (rewrite <- fields_of_data_length, <- Hf1, length_map; reflexivity).
  assert (L2 : List.length np2 = importable data)
    by (rewrite <- fields_of_data_length, <- Hf2, length_map; reflexivity).
  split; [|split].
  - rewrite Hc2, (Hnone2 Hall1), app_nil_r. reflexivity.
  - rewrite Hp2, Hp1, !length_app. lia.
  - exact Hseq.
Qed.

(** X21. What the conversion imports, the matcher finds: for every
    pharmacy with a non-blank name under a city with a non-blank name, the
    candidates the matcher selects for that city, on the converted database,
    hold a row with the stripped name of the pharmacy. *)
Theorem converted_visible_to_matcher (now : timestamp) (data : list city_entry)
        (st : store) (cd : city_entry) (ph : pharmacy_entry) :
  In cd data -> stored_city cd <> "" ->
  In ph (e_pharmacies cd) -> strip (get_text (e_name ph)) <> "" ->
  exists id,
    In (id, strip (get_text (e_name ph)))
       (select_pharmacies (pipeline_view (database (convert now data st)))
                          (stored_city cd)).
Proof.
  intros Hcd Hcity Hph Hname. unfold convert.
  destruct (convert_fold_spec now data (mk_progress st 0 0))
    as (_ & _ & _ & _ & nc & np & _ & Hp & _ & _ & _ & Hvis & _).
  cbn [database] in *.
  destruct (Hvis cd ph Hcd (proj2 (truthy_nonempty _) Hcity) Hph
              (proj2 (truthy_nonempty _) Hname))
    as (p & c & Hpin & Hf & Hcin & Hid & Hn).
  exists (pr_id p). apply select_pharmacies_in.
  exists (mk_pharmacy (pr_id p) (pr_city_id p) (pr_name p)),
         (mk_city (cr_id c) (cr_name c)).
  unfold pipeline_view. cbn [pharmacies cities p_id p_city_id p_name c_id c_name].
  split; [|split; [|split; [|split; [|split]]]].
  - apply (in_map (fun p0 => mk_pharmacy (pr_id p0) (pr_city_id p0) (pr_name p0))).
    rewrite Hp. apply in_or_app. now right.
  - apply (in_map (fun c0 => mk_city (cr_id c0) (cr_name c0))). exact Hcin.
  - symmetry. exact Hid.
  - exact Hn.
  - reflexivity.
  - unfold record_fields, entry_fields in Hf. congruence.
Qed.

Lemma converted_visible_to_matcher_witness :
  exists id,
    In (id, "Pharmacie Metropole")
       (select_pharmacies
          (pipeline_view (database (convert 5%Z sample_dataset empty_store)))
          "Antananarivo").
Proof.
  apply (converted_visible_to_matcher 5%Z sample_dataset empty_store
           (mk_city_entry (Some "Antananarivo")
              [mk_pharmacy_entry (Some "Pharmacie Metropole") (Some "")
                                 (PhoneText "") None])
           (mk_pharmacy_entry (Some "Pharmacie Metropole") (Some "")
                              (PhoneText "") None)).
  - right. right. left. reflexivity.
  - discriminate.
  - left. reflexivity.
  - discriminate.
Defined.

(** * The read endpoints *)

Import Api.

(** ** Phone numbers, written and read *)

Lemma prefix_empty (s : string) : prefix "" s = true.
Proof. destruct s; reflexivity. Qed.

Lemma contains_comma_cons (c : ascii) (r : string) :
  contains "," (String c r) = false ->
  Ascii.eqb c "," = false /\ contains "," r = false.
Proof.
  cbn [contains prefix]. destruct (ascii_dec "," c) as [<-|Hne].
  - rewrite prefix_empty. discriminate.
  - intros H. split; [|exact H]. apply Ascii.eqb_neq. congruence.
Qed.

Lemma split_char_plain (a : string) :
  contains "," a = false -> split_char "," a = [a].
Proof.
  induction a as [|c a IH]; [reflexivity|]. intros H.
  apply contains_comma_cons in H. destruct H as [Hc Ha].
  cbn [split_char]. rewrite Hc, (IH Ha). reflexivity.
Qed.

Lemma split_char_app (a b : string) :
  contains "," a = false ->
  split_char "," (a ++ String "," b) = a :: split_char "," b.
Proof.
  induction a as [|c a IH]; intros H.
  - reflexivity.
  - apply contains_comma_cons in H. destruct H as [Hc Ha].
    cbn [append split_char]. rewrite Hc, (IH Ha). reflexivity.
Qed.

Lemma stripped_shape (x : string) :
  strip x = x -> x <> "" ->
  starts_unblank x /\ rstrip x = x /\ truthy x = true.
Proof.
  intros Hs Hne. destruct (strip_head x) as [E|(c & r & E & Hc)].
  - congruence.
  - rewrite Hs in E. subst x. split; [exact Hc|]. split; [|reflexivity].
    unfold strip in Hs. now rewrite (lstrip_nonspace c r Hc) in Hs.
Qed.

Lemma strip_blank_prefix (pre x : string) :
  pre = "" \/ pre = " " -> strip x = x -> x <> "" -> strip (pre ++ x) = x.
Proof.
  intros Hpre Hs Hne. destruct (stripped_shape x Hs Hne) as (Hu & Hr & _).
  unfold strip. rewrite (lstrip_run pre x); [exact Hr| |exact Hu].
  destruct Hpre as [-> | ->]; reflexivity.
Qed.

Lemma comma_blank_prefix (pre x : string) :
  pre = "" \/ pre = " " -> contains "," x = false -> contains "," (pre ++ x) = false.
Proof.
  intros [-> | ->] H; [exact H|]. cbn [append contains prefix].
  destruct (ascii_dec "," " "); [discriminate | exact H].
Qed.

Lemma numbers_of_join (l : list string) :
  l <> [] ->
  Forall (fun s => s <> "" /\ plain_number s) l ->
  forall pre, pre = "" \/ pre = " " ->
    map strip (filter (fun x => truthy (strip x))
                      (split_char "," (pre ++ String.concat ", " l)))
    = l.
Proof.
  induction l as [|x l IH]; [congruence|]. intros _ Hall pre Hpre.
  inversion Hall as [|x' l' (Hne & Hs & Hc) Hl]; subst.
  pose proof (strip_blank_prefix pre x Hpre Hs Hne) as Hx.
  destruct l as [|y l].
  - cbn [String.concat].
    rewrite (split_char_plain _ (comma_blank_prefix pre x Hpre Hc)).
    cbn [filter]. rewrite Hx. destruct (stripped_shape x Hs Hne) as (_ & _ & ->).
    cbn [map]. now rewrite Hx.
  - change (String.concat ", " (x :: y :: l))
      with (x ++ String "," (" " ++ String.concat ", " (y :: l))).
    rewrite <- append_assoc.
    rewrite (split_char_app _ _ (comma_blank_prefix pre x Hpre Hc)).
    cbn [filter]. rewrite Hx. destruct (stripped_shape x Hs Hne) as (_ & _ & ->).
    cbn [map]. rewrite Hx. f_equal.
    apply IH; [discriminate | exact Hl | now right].
Qed.

Lemma concat_truthy (l : list string) :
  l <> [] -> Forall (fun s => s <> "") l -> truthy (String.concat ", " l) = true.
Proof.
  destruct l as [|x l]; [congruence|]. intros _ H.
  inversion H as [|x' l' Hx _]; subst.
  destruct x as [|c x]; [congruence|]. destruct l; reflexivity.
Qed.

(** X22. Phone numbers make the round trip from the dataset to the
    endpoints: for a list of numbers without commas and without blanks at
    their ends, the list an endpoint builds from the column the conversion
    writes is the list of the numbers that are not empty, in their order. *)
Theorem phone_round_trip (numbers : list string) :
  Forall plain_number numbers ->
  phone_list (phone_of (PhoneList numbers)) = filter truthy numbers.
Proof.
  intros Hall. unfold phone_of.
  assert (Hfilt : Forall (fun s => s <> "" /\ plain_number s) (filter truthy numbers)).
  { apply Forall_forall. intros s Hs. apply filter_In in Hs.
    destruct Hs as [Hin Ht]. split; [apply truthy_nonempty, Ht|].
    apply (proj1 (Forall_forall _ _) Hall s Hin). }
  assert (Hgoal : phone_list (or_none (String.concat ", " (filter truthy numbers)))
                  = filter truthy numbers).
  { destruct (filter truthy numbers) as [|x l] eqn:E; [reflexivity|].
    assert (Ht : truthy (String.concat ", " (x :: l)) = true).
    { apply concat_truthy; [discriminate|].
      apply Forall_forall. intros s Hs.
      apply (proj1 (Forall_forall _ _) Hfilt s Hs). }
    unfold or_none, phone_list. rewrite Ht, Ht.
    apply (numbers_of_join (x :: l) ltac:(discriminate) Hfilt ""). now left. }
  destruct numbers as [|n ns]; [reflexivity | exact Hgoal].
Qed.

Lemma phone_round_trip_witness :
  phone_list (phone_of (PhoneList ["020 22 000 00"; ""; "033 11 000 00"]))
  = ["020 22 000 00"; "033 11 000 00"].
Proof.
  apply (phone_round_trip ["020 22 000 00"; ""; "033 11 000 00"]).
  repeat constructor.
Defined.

(** ** Sorting *)

Lemma insert_by_perm {A : Type} (le : A -> A -> bool) (x : A) (l : list A) :
  Permutation (insert_by le x l) (x :: l).
Proof.
  induction l as [|y l IH]; cbn [insert_by]; [reflexivity|].
  destruct (le x y); [reflexivity|].
  rewrite IH. apply perm_swap.
Qed.

Lemma order_by_perm {A : Type} (le : A -> A -> bool) (l : list A) :
  Permutation (order_by le l) l.
Proof.
  induction l as [|x l IH]; cbn [order_by]; [reflexivity|].
  rewrite insert_by_perm. now constructor.
Qed.

Lemma insert_by_sorted {A : Type} (le : A -> A -> bool) (x : A) (l : list A) :
  (forall a b, le a b = true \/ le b a = true) ->
  Sorted (ordered le) l -> Sorted (ordered le) (insert_by le x l).
Proof.
  intros Htot Hl. induction Hl as [|y l Hl IH Hhd]; cbn [insert_by].
  - repeat constructor.
  - destruct (le x y) eqn:E.
    + constructor; [constructor; assumption | constructor; exact E].
    + constructor; [exact IH|].
      assert (Hyx : le y x = true) by (destruct (Htot x y); congruence).
      destruct l as [|z l]; cbn [insert_by]; [constructor; exact Hyx|].
      destruct (le x z); constructor; [exact Hyx|].
      inversion Hhd; assumption.
Qed.

Lemma order_by_sorted {A : Type} (le : A -> A -> bool) (l : list A) :
  (forall a b, le a b = true \/ le b a = true) ->
  Sorted (ordered le) (order_by le l).
Proof.
  intros Htot. induction l as [|x l IH]; cbn [order_by]; [constructor|].
  apply insert_by_sorted; assumption.
Qed.

Lemma by_name_total (r1 r2 : pharmacy_record * city_record) :
  by_name r1 r2 = true \/ by_name r2 r1 = true.
Proof. apply String.leb_total. Qed.

Lemma joined_in (st : store) (p : pharmacy_record) (c : city_record) :
  In (p, c) (joined st) <->
  In p (st_pharmacies st) /\ In c (st_cities st) /\ pr_city_id p = cr_id c.
Proof.
  unfold joined. rewrite in_flat_map. split.
  - intros (p' & Hp & H). apply in_flat_map in H. destruct H as (c' & Hc & H).
    destruct (Z.eqb (pr_city_id p') (cr_id c')) eqn:E; [|destruct H].
    destruct H as [[= <- <-]|[]]. apply Z.eqb_eq in E. auto.
  - intros (Hp & Hc & E). exists p. split; [exact Hp|]. apply in_flat_map.
    exists c. split; [exact Hc|]. apply Z.eqb_eq in E. rewrite E. now left.
Qed.

(** ** Pharmacies of a city *)

(** X23. [/pharmacies/city/<name>] answers 404 exactly when no pharmacy
    row is joined to a city row whose name equals the asked name up to case.
    Otherwise it returns those pharmacies and no other, each once per joined
    row, sorted by name as byte sequences; the case of the asked name does
    not change the answer. *)
Theorem pharmacies_by_city (city_name : string) (st : store) :
  let matching :=
    filter (fun row => String.eqb (lower (cr_name (snd row))) (lower city_name))
           (joined st) in
  (get_pharmacies_by_city city_name st = None <-> matching = [])
  /\ (forall pharmacies,
         get_pharmacies_by_city city_name st = Some pharmacies ->
         exists rows,
           pharmacies = map view_of rows
           /\ Permutation rows matching
           /\ Sorted (ordered by_name) rows)
  /\ get_pharmacies_by_city (upper city_name) st
     = get_pharmacies_by_city city_name st
  /\ get_pharmacies_by_city (lower city_name) st
     = get_pharmacies_by_city city_name st.
Proof.
  cbv zeta. unfold get_pharmacies_by_city. rewrite lower_upper, lower_lower.
  set (matching := filter _ (joined st)).
  pose proof (order_by_perm by_name matching) as Hperm.
  pose proof (order_by_sorted by_name matching by_name_total) as Hsort.
  split; [|split; [|split; reflexivity]].
  - destruct (order_by by_name matching) as [|r rows] eqn:E.
    + split; [intros _|reflexivity]. apply Permutation_nil. now symmetry.
    + cbn [map]. split; [discriminate|]. intros H. rewrite H in Hperm.
      apply Permutation_sym, Permutation_nil in Hperm. discriminate.
  - intros pharmacies H. exists (order_by by_name matching).
    split; [|split; assumption].
    destruct (map view_of (order_by by_name matching)); [discriminate | congruence].
Qed.

Lemma pharmacies_by_city_witness :
  get_pharmacies_by_city "NoSuchCity" sample_store = None.
Proof.
  apply (proj2 (proj1 (pharmacies_by_city "NoSuchCity" sample_store))).
  reflexivity.
Defined.

(** ** The pharmacies on duty *)

Lemma join_one_city (x : Z) (p : pharmacy_record) (cities : list city_record) :
  NoDup (map cr_id cities) ->
  (List.length
     (flat_map (fun c => if Z.eqb x (cr_id c) then [(p, c)] else []) cities)
   <= 1)%nat.
Proof.
  induction cities as [|c cities IH]; intros Hnd; [cbn; lia|].
  inversion Hnd as [|y l Hnotin Hnd']; subst. cbn [flat_map].
  rewrite length_app. destruct (Z.eqb x (cr_id c)) eqn:E; [|cbn; apply IH, Hnd'].
  apply Z.eqb_eq in E. cbn [List.length].
  assert (Hnone : flat_map (fun c0 => if Z.eqb x (cr_id c0) then [(p, c0)] else [])
                           cities = []).
  { clear IH Hnd Hnd'. induction cities as [|c' cities IH]; [reflexivity|].
    cbn [flat_map]. destruct (Z.eqb x (cr_id c')) eqn:E'.
    - apply Z.eqb_eq in E'. exfalso. apply Hnotin. left. congruence.
    - apply IH. intros H. apply Hnotin. now right. }
  rewrite Hnone. cbn. lia.
Qed.

Lemma joined_ids_nodup (st : store) :
  NoDup (map pr_id (st_pharmacies st)) ->
  NoDup (map cr_id (st_cities st)) ->
  NoDup (map row_id (joined st)).
Proof.
  intros Hp Hc. unfold joined.
  induction (st_pharmacies st) as [|p ps IH]; [constructor|].
  inversion Hp as [|y l Hnotin Hp']; subst. cbn [flat_map]. rewrite map_app.
  pose proof (join_one_city (pr_city_id p) p (st_cities st) Hc) as Hlen.
  assert (Hrest : forall x,
             In x (map row_id
                     (flat_map
                        (fun p0 =>
                           flat_map (fun c => if Z.eqb (pr_city_id p0) (cr_id c)
                                              then [(p0, c)] else [])
                                    (st_cities st)) ps)) ->
             In x (map pr_id ps)).
  { intros x Hx. apply in_map_iff in Hx. destruct Hx as ([p' c'] & <- & Hin).
    apply in_flat_map in Hin. destruct Hin as (p0 & Hp0 & Hin).
    apply in_flat_map in Hin. destruct Hin as (c0 & _ & Hin).
    destruct (Z.eqb (pr_city_id p0) (cr_id c0)); [|destruct Hin].
    destruct Hin as [[= <- <-]|[]]. exact (in_map pr_id ps p0 Hp0). }
  destruct (flat_map (fun c => if Z.eqb (pr_city_id p) (cr_id c) then [(p, c)] else [])
                     (st_cities st)) as [|r [|r' rs]] eqn:E.
  - apply IH, Hp'.
  - assert (Hr : row_id r = pr_id p).
    { assert (Hin : In r (flat_map
                            (fun c => if Z.eqb (pr_city_id p) (cr_id c)
                                      then [(p, c)] else []) (st_cities st)))
        by (rewrite E; now left).
      apply in_flat_map in Hin. destruct Hin as (c0 & _ & Hin).
      destruct (Z.eqb (pr_city_id p) (cr_id c0)); [|destruct Hin].
      destruct Hin as [<-|[]]. reflexivity. }
    cbn [map app]. constructor; [|apply IH, Hp'].
    rewrite Hr. intros H. apply Hnotin, Hrest, H.
  - cbn in Hlen. lia.
Qed.

Lemma nodup_map_filter {A B : Type} (f : A -> B) (g : A -> bool) (l : list A) :
  NoDup (map f l) -> NoDup (map f (filter g l)).
Proof.
  induction l as [|x l IH]; [constructor|]. cbn [map filter]. intros H.
  inversion H as [|y l' Hnotin Hnd]; subst.
  destruct (g x); [|apply IH, Hnd]. cbn [map]. constructor; [|apply IH, Hnd].
  intros Hin. apply Hnotin. apply in_map_iff in Hin.
  destruct Hin as (y & Hy & Hin). apply filter_In in Hin.
  rewrite <- Hy. apply in_map, Hin.
Qed.

Lemma latest_duty_spec (st : store) :
  (latest_duty st = None <-> st_on_duty st = [])
  /\ forall r, latest_duty st = Some r ->
               In r (st_on_duty st)
               /\ forall r', In r' (st_on_duty st) -> (od_id r' <= od_id r)%Z.
Proof.
  unfold latest_duty. destruct (max_id (st_on_duty st)) as [m|] eqn:E.
  - destruct (max_id_spec _ _ E) as [(r0 & Hr0 & Hid0) Hle]. split.
    + split; [|intros H; rewrite H in Hr0; destruct Hr0].
      intros F. pose proof (find_none _ _ F r0 Hr0) as H. cbn in H.
      rewrite Hid0, Z.eqb_refl in H. discriminate.
    + intros r F. apply find_some in F. destruct F as [Hr Hid].
      apply Z.eqb_eq in Hid. split; [exact Hr|]. rewrite Hid. exact Hle.
  - split; [|discriminate]. split; [intros _; apply max_id_none, E | reflexivity].
Qed.

Lemma duty_rows (limit : nat) (st : store) (r : on_duty_row) :
  latest_duty st = Some r ->
  (List.length (pharmacy_ids r) <= limit)%nat ->
  get_on_duty_pharmacies limit st
  = let rows := order_by by_city_then_name
                  (filter (fun row => existsb (Z.eqb (row_id row)) (pharmacy_ids r))
                          (joined st)) in
    Some (mk_duty (Some (start_date r, end_date r, created_at r, updated_at r))
                  (map duty_view_of rows) (List.length (map duty_view_of rows))
                  (pharmacy_ids r)).
Proof.
  intros H Hlen. unfold get_on_duty_pharmacies. rewrite H. cbv zeta.
  destruct (pharmacy_ids r) as [|i ids] eqn:E.
  - assert (Hnil : filter (fun row => existsb (Z.eqb (row_id row)) []) (joined st)
                   = []).
    { induction (joined st) as [|x l IH]; [reflexivity | exact IH]. }
    rewrite Hnil. reflexivity.
  - destruct (Nat.ltb_spec limit (List.length (i :: ids))) as [Hlt|_]; [lia|].
    reflexivity.
Qed.

Lemma duty_refused (limit : nat) (st : store) :
  get_on_duty_pharmacies limit st = None <->
  exists r, latest_duty st = Some r
            /\ (limit < List.length (pharmacy_ids r))%nat.
Proof.
  unfold get_on_duty_pharmacies. destruct (latest_duty st) as [r|].
  - cbv zeta. destruct (pharmacy_ids r) as [|i ids] eqn:E.
    + split; [discriminate|]. intros (r' & [= <-] & Hlt). rewrite E in Hlt.
      cbn in Hlt. lia.
    + destruct (Nat.ltb_spec limit (List.length (i :: ids))) as [Hlt|Hle].
      * split; [|reflexivity]. intros _. exists r. rewrite E. now split.
      * split; [discriminate|]. intros (r' & [= <-] & Hlt). rewrite E in Hlt. lia.
  - split; [discriminate|]. intros (r & Hr & _). discriminate.
Qed.

(** X24. [/on-duty] answers 500 exactly when the roster row of greatest
    identifier lists more identifiers than SQLite binds in one statement.
    Otherwise it answers that there is no data exactly when the roster table
    is empty; for a roster row it returns the list of identifiers of the row
    of greatest identifier as it is stored, and the pharmacy rows joined to a
    city whose identifier is in that list and no other; [total_count] is
    their number.  With distinct identifiers in the pharmacy and city tables
    each pharmacy is returned at most once, however often the list repeats
    its identifier, so [total_count] is at most the number of different
    identifiers in the list. *)
Theorem on_duty_answer (limit : nat) (st : store) :
  (get_on_duty_pharmacies limit st = None <->
   exists r, latest_duty st = Some r
             /\ (limit < List.length (pharmacy_ids r))%nat)
  /\ forall answer,
      get_on_duty_pharmacies limit st = Some answer ->
      (duty_period answer = None <-> st_on_duty st = [])
      /\ total_count answer = List.length (duty_pharmacies answer)
      /\ forall r,
          latest_duty st = Some r ->
          (forall r', In r' (st_on_duty st) -> (od_id r' <= od_id r)%Z)
          /\ duty_pharmacy_ids answer = pharmacy_ids r
          /\ (forall v, In v (duty_pharmacies answer) <->
                        exists p c,
                          In p (st_pharmacies st) /\ In c (st_cities st)
                          /\ pr_city_id p = cr_id c
                          /\ In (pr_id p) (pharmacy_ids r)
                          /\ v = duty_view_of (p, c))
          /\ (NoDup (map pr_id (st_pharmacies st)) ->
              NoDup (map cr_id (st_cities st)) ->
              (total_count answer
               <= List.length (nodup Z.eq_dec (pharmacy_ids r)))%nat).
Proof.
  split; [apply duty_refused|]. intros answer Hanswer.
  destruct (latest_duty_spec st) as [Hnone Hsome].
  destruct (latest_duty st) as [r|] eqn:E.
  - assert (Hlen : (List.length (pharmacy_ids r) <= limit)%nat).
    { destruct (Nat.le_gt_cases (List.length (pharmacy_ids r)) limit) as [H|H];
        [exact H|].
      assert (Hno : get_on_duty_pharmacies limit st = None).
      { apply duty_refused. exists r. split; [exact E | exact H]. }
      congruence. }
    rewrite (duty_rows limit st r E Hlen) in Hanswer. cbv zeta in Hanswer.
    injection Hanswer as <-.
    cbn [duty_period total_count duty_pharmacies duty_pharmacy_ids].
    split; [split; [discriminate|]|].
    { intros H. apply Hnone in H. discriminate. }
    split; [reflexivity|]. intros r0 [= <-].
    split; [apply (Hsome r eq_refl)|]. split; [reflexivity|].
    set (chosen := filter (fun row => existsb (Z.eqb (row_id row)) (pharmacy_ids r))
                          (joined st)).
    pose proof (order_by_perm by_city_then_name chosen) as Hperm.
    split.
    + intros v. rewrite in_map_iff. split.
      * intros ([p c] & <- & Hin).
        apply (Permutation_in _ Hperm) in Hin. apply filter_In in Hin.
        destruct Hin as [Hj Hmem]. apply joined_in in Hj.
        destruct Hj as (Hp & Hc & Hid). apply existsb_exists in Hmem.
        destruct Hmem as (i & Hi & Heq). apply Z.eqb_eq in Heq.
        unfold row_id in Heq. cbn [fst] in Heq. subst i.
        exists p, c. repeat split; assumption.
      * intros (p & c & Hp & Hc & Hid & Hmem & ->). exists (p, c).
        split; [reflexivity|].
        apply (Permutation_in _ (Permutation_sym Hperm)). apply filter_In.
        split; [apply joined_in; auto|]. apply existsb_exists.
        exists (pr_id p). split; [exact Hmem | apply Z.eqb_refl].
    + intros Hp Hc. rewrite length_map, (Permutation_length Hperm).
      rewrite <- (length_map row_id chosen).
      apply NoDup_incl_length.
      * apply nodup_map_filter, joined_ids_nodup; assumption.
      * intros i Hi. apply in_map_iff in Hi. destruct Hi as (row & <- & Hrow).
        apply filter_In in Hrow. destruct Hrow as [_ Hmem].
        apply existsb_exists in Hmem. destruct Hmem as (i & Hi & Heq).
        apply Z.eqb_eq in Heq. rewrite Heq. apply nodup_In, Hi.
  - unfold get_on_duty_pharmacies in Hanswer. rewrite E in Hanswer.
    injection Hanswer as <-. cbn.
    split; [split; [intros _; apply Hnone; reflexivity | reflexivity]|].
    split; [reflexivity | discriminate].
Qed.

Lemma on_duty_answer_witness :
  exists answer,
    get_on_duty_pharmacies 999 sample_store = Some answer
    /\ (total_count answer <= 2)%nat
    /\ duty_pharmacy_ids answer = [7; 7; 99]%Z.
Proof.
  eexists. split; [reflexivity|].
  destruct (proj2 (on_duty_answer 999 sample_store) _ eq_refl)
    as (_ & _ & Hrow).
  destruct (Hrow (mk_on_duty 1%Z "2025-01-05" "2025-01-11" [7; 7; 99]%Z 10%Z 10%Z)
                 eq_refl)
    as (_ & Hids & _ & Hcount).
  split; [|exact Hids].
  apply Hcount; repeat constructor; cbn; intuition discriminate.
Defined.

(** ** The lists of the pharmacies and of the cities *)

Lemma list_sum_perm (l l' : list nat) :
  Permutation l l' -> list_sum l = list_sum l'.
Proof.
  induction 1 as [|x l l' _ IH|x y l|l l' l'' _ IH1 _ IH2];
    unfold list_sum in *; cbn [fold_right] in *; lia.
Qed.

Lemma list_sum_zero {A : Type} (l : list A) :
  list_sum (map (fun _ => 0%nat) l) = 0%nat.
Proof.
  induction l as [|x l IH]; [reflexivity|].
  unfold list_sum in *. cbn [map fold_right]. rewrite IH. reflexivity.
Qed.

Lemma list_sum_add {A : Type} (f g : A -> nat) (l : list A) :
  list_sum (map (fun x => (f x + g x)%nat) l)
  = (list_sum (map f l) + list_sum (map g l))%nat.
Proof.
  induction l as [|x l IH]; [reflexivity|].
  unfold list_sum in *. cbn [map fold_right]. rewrite IH. lia.
Qed.

Lemma list_sum_ext {A : Type} (f g : A -> nat) (l : list A) :
  (forall x, In x l -> f x = g x) ->
  list_sum (map f l) = list_sum (map g l).
Proof. intros H. f_equal. apply map_ext_in, H. Qed.

Lemma indicator_sum {K : Type} (dec : forall a b : K, {a = b} + {a <> b})
      (a : K) (ks : list K) :
  NoDup ks ->
  list_sum (map (fun k => if dec a k then 1%nat else 0%nat) ks)
  = if in_dec dec a ks then 1%nat else 0%nat.
Proof.
  induction 1 as [|k ks Hnotin Hnd IH]; [reflexivity|].
  unfold list_sum in *. cbn [map fold_right]. rewrite IH.
  destruct (dec a k) as [->|Hne].
  - destruct (in_dec dec k ks) as [Hin|_]; [contradiction|].
    destruct (in_dec dec k (k :: ks)) as [_|Hout]; [reflexivity|].
    exfalso. apply Hout. now left.
  - destruct (in_dec dec a ks) as [Hin|Hout];
      destruct (in_dec dec a (k :: ks)) as [Hin'|Hout']; try reflexivity.
    + exfalso. apply Hout'. now right.
    + destruct Hin' as [->|Hin']; contradiction.
Qed.

(** Counting by groups: the groups share out the rows. *)
Lemma count_by_group {A K : Type} (dec : forall a b : K, {a = b} + {a <> b})
      (key : A -> K) (g : A -> bool) (ks : list K) (l : list A) :
  NoDup ks ->
  (forall x, In x l -> In (key x) ks) ->
  list_sum (map (fun k =>
                   List.length (filter (fun x => if dec (key x) k then g x else false)
                                       l))
                ks)
  = List.length (filter g l).
Proof.
  intros Hnd. induction l as [|x l IH]; intros Hin.
  - cbn [filter List.length]. apply list_sum_zero.
  - rewrite (list_sum_ext _
               (fun k => ((if dec (key x) k then if g x then 1 else 0 else 0)
                          + List.length
                              (filter (fun x => if dec (key x) k then g x else false)
                                      l))%nat)).
    + rewrite list_sum_add, IH by (intros y Hy; apply Hin; now right).
      cbn [filter]. destruct (g x).
      * rewrite (indicator_sum dec (key x) ks Hnd).
        destruct (in_dec dec (key x) ks) as [_|Hout]; [reflexivity|].
        exfalso. apply Hout, Hin. now left.
      * rewrite (list_sum_ext _ (fun _ => 0%nat)), list_sum_zero; [reflexivity|].
        intros k _. destruct (dec (key x) k); reflexivity.
    + intros k _. cbn [filter]. destruct (dec (key x) k); [|reflexivity].
      destruct (g x); reflexivity.
Qed.

Lemma indicator_length {B : Type} (f : B -> bool) (l : list B) :
  list_sum (map (fun b => if f b then 1%nat else 0%nat) l)
  = List.length (filter f l).
Proof.
  induction l as [|b l IH]; [reflexivity|].
  unfold list_sum in *. cbn [map fold_right filter]. rewrite IH.
  destruct (f b); reflexivity.
Qed.

(** Counting the pairs of a join by its left or by its right table. *)
Lemma count_swap {A B : Type} (f : A -> B -> bool) (la : list A) (lb : list B) :
  list_sum (map (fun a => List.length (filter (f a) lb)) la)
  = list_sum (map (fun b => List.length (filter (fun a => f a b) la)) lb).
Proof.
  induction la as [|a la IH].
  - cbn [map filter List.length]. rewrite list_sum_zero. reflexivity.
  - rewrite (list_sum_ext
               (fun b => List.length (filter (fun a0 => f a0 b) (a :: la)))
               (fun b => ((if f a b then 1 else 0)
                          + List.length (filter (fun a0 => f a0 b) la))%nat)).
    + rewrite list_sum_add, indicator_length, <- IH.
      unfold list_sum. cbn [map fold_right]. reflexivity.
    + intros b _. cbn [filter]. destruct (f a b); reflexivity.
Qed.

Lemma rows_of_city_fst (pharmacies : list pharmacy_record) (c : city_record)
      (row : city_record * option pharmacy_record) :
  In row (rows_of_city pharmacies c) -> fst row = c.
Proof.
  unfold rows_of_city.
  destruct (filter (fun p => Z.eqb (cr_id c) (pr_city_id p)) pharmacies) as [|p ps].
  - intros [<-|[]]. reflexivity.
  - intros H. apply in_map_iff in H. destruct H as (p' & <- & _). reflexivity.
Qed.

Lemma rows_of_city_nonempty (pharmacies : list pharmacy_record) (c : city_record) :
  rows_of_city pharmacies c <> [].
Proof.
  unfold rows_of_city.
  destruct (filter (fun p => Z.eqb (cr_id c) (pr_city_id p)) pharmacies);
    discriminate.
Qed.

Lemma rows_of_city_count (pharmacies : list pharmacy_record) (c : city_record) :
  List.length (filter with_pharmacy (rows_of_city pharmacies c))
  = List.length (filter (fun p => Z.eqb (cr_id c) (pr_city_id p)) pharmacies).
Proof.
  unfold rows_of_city.
  destruct (filter (fun p => Z.eqb (cr_id c) (pr_city_id p)) pharmacies) as [|p ps];
    [reflexivity|].
  generalize (p :: ps). intros l. induction l as [|q l IH]; [reflexivity|].
  cbn [map filter with_pharmacy snd List.length]. cbn in IH. rewrite IH.
  reflexivity.
Qed.

Lemma left_joined_rows (st : store) :
  left_joined st = flat_map (rows_of_city (st_pharmacies st)) (st_cities st).
Proof. reflexivity. Qed.

Lemma left_joined_keys (st : store) (k : group_key) :
  In k (map (fun row => key_of (fst row)) (left_joined st)) <->
  In k (map key_of (st_cities st)).
Proof.
  rewrite left_joined_rows, !in_map_iff. split.
  - intros (row & <- & Hrow). apply in_flat_map in Hrow.
    destruct Hrow as (c & Hc & Hrow). apply rows_of_city_fst in Hrow.
    exists c. split; [now rewrite Hrow | exact Hc].
  - intros (c & <- & Hc).
    destruct (rows_of_city (st_pharmacies st) c) as [|row rows] eqn:E;
      [now apply rows_of_city_nonempty in E|].
    exists row. split.
    + f_equal. apply (rows_of_city_fst (st_pharmacies st)). rewrite E. now left.
    + apply in_flat_map. exists c. split; [exact Hc|]. rewrite E. now left.
Qed.

Lemma joined_length (st : store) :
  List.length (joined st)
  = list_sum (map (fun p =>
                     List.length (filter (fun c => Z.eqb (cr_id c) (pr_city_id p))
                                         (st_cities st)))
                  (st_pharmacies st)).
Proof.
  unfold joined. induction (st_pharmacies st) as [|p ps IH]; [reflexivity|].
  cbn [flat_map map]. rewrite length_app, IH. unfold list_sum. cbn [fold_right].
  f_equal. clear IH. induction (st_cities st) as [|c cs IHc]; [reflexivity|].
  cbn [flat_map filter]. rewrite length_app, IHc, (Z.eqb_sym (cr_id c)).
  destruct (Z.eqb (pr_city_id p) (cr_id c)); reflexivity.
Qed.

Lemma left_joined_length (st : store) :
  List.length (filter with_pharmacy (left_joined st)) = List.length (joined st).
Proof.
  rewrite joined_length, <- (count_swap (fun c p => Z.eqb (cr_id c) (pr_city_id p))).
  rewrite left_joined_rows. induction (st_cities st) as [|c cs IH]; [reflexivity|].
  cbn [flat_map map]. rewrite filter_app, length_app, IH, rows_of_city_count.
  unfold list_sum. cbn [fold_right]. reflexivity.
Qed.

Lemma counted_elsewhere (pharmacies : list pharmacy_record) (k : group_key)
      (cities : list city_record) :
  (forall c, In c cities -> cr_id c <> fst (fst k)) ->
  filter (counted k) (flat_map (rows_of_city pharmacies) cities) = [].
Proof.
  intros H. induction cities as [|c cs IH]; [reflexivity|].
  cbn [flat_map]. rewrite filter_app, IH by (intros c' Hc'; apply H; now right).
  rewrite app_nil_r.
  assert (Hall : forall row, In row (rows_of_city pharmacies c) ->
                             counted k row = false).
  { intros row Hrow. apply rows_of_city_fst in Hrow. unfold counted.
    destruct (key_eq_dec (key_of (fst row)) k) as [Heq|_]; [|reflexivity].
    exfalso. apply (H c); [now left|]. rewrite <- Heq, Hrow. reflexivity. }
  induction (rows_of_city pharmacies c) as [|row rows IHr]; [reflexivity|].
  cbn [filter]. rewrite (Hall row) by now left.
  apply IHr. intros row' Hrow'. apply Hall. now right.
Qed.

Lemma counted_here (pharmacies : list pharmacy_record) (c : city_record) :
  filter (counted (key_of c)) (rows_of_city pharmacies c)
  = filter with_pharmacy (rows_of_city pharmacies c).
Proof.
  apply filter_ext_in. intros row Hrow. apply rows_of_city_fst in Hrow.
  unfold counted, with_pharmacy.
  destruct (key_eq_dec (key_of (fst row)) (key_of c)) as [_|Hne]; [reflexivity|].
  exfalso. apply Hne. now rewrite Hrow.
Qed.

Lemma count_of_city (st : store) (c : city_record) :
  NoDup (map cr_id (st_cities st)) ->
  In c (st_cities st) ->
  List.length (filter (counted (key_of c)) (left_joined st))
  = List.length (filter (fun p => Z.eqb (pr_city_id p) (cr_id c)) (st_pharmacies st)).
Proof.
  rewrite left_joined_rows. intros Hnd Hin.
  rewrite (filter_ext (fun p => Z.eqb (pr_city_id p) (cr_id c))
                      (fun p => Z.eqb (cr_id c) (pr_city_id p)))
    by (intros p; apply Z.eqb_sym).
  rewrite <- rows_of_city_count.
  induction (st_cities st) as [|c0 cs IH]; [destruct Hin|].
  cbn [map] in Hnd. inversion Hnd as [|i l Hnotin Hnd']; subst.
  cbn [flat_map]. rewrite filter_app, length_app.
  destruct Hin as [->|Hin].
  - rewrite counted_elsewhere, counted_here; [cbn; lia|].
    intros c' Hc' Heq. apply Hnotin. cbn in Heq. rewrite <- Heq.
    apply in_map, Hc'.
  - rewrite (IH Hnd' Hin).
    assert (H0 : filter (counted (key_of c))
                        (flat_map (rows_of_city (st_pharmacies st)) [c0]) = []).
    { apply counted_elsewhere. intros c' [<-|[]] Heq. apply Hnotin.
      cbn in Heq. rewrite Heq. apply in_map, Hin. }
    cbn [flat_map] in H0. rewrite app_nil_r in H0. rewrite H0. reflexivity.
Qed.

Lemma by_city_then_name_total (r1 r2 : pharmacy_record * city_record) :
  by_city_then_name r1 r2 = true \/ by_city_then_name r2 r1 = true.
Proof.
  unfold by_city_then_name.
  rewrite (String.compare_antisym (cr_name (snd r1)) (cr_name (snd r2))).
  destruct (String.compare (cr_name (snd r2)) (cr_name (snd r1)));
    cbn [CompOpp]; auto. apply String.leb_total.
Qed.

Lemma by_city_rows (city_name : string) (st : store) (l : list pharmacy_view) :
  get_pharmacies_by_city city_name st = Some l ->
  l = map view_of
          (order_by by_name
             (filter (fun row => String.eqb (lower (cr_name (snd row)))
                                            (lower city_name))
                     (joined st))).
Proof.
  unfold get_pharmacies_by_city. cbv zeta.
  destruct (map view_of _) as [|v vs]; [discriminate|]. now intros [= <-].
Qed.

(** X25. [/cities] returns the cities sorted by name, and the pharmacy
    counts it reports add up to the number of pharmacies [/pharmacies]
    returns.  With distinct identifiers in the cities table it returns one
    entry for each city row, a city without a pharmacy too, with the number
    of pharmacy rows that carry its identifier. *)
Theorem cities_count_pharmacies (st : store) :
  list_sum (map pharmacy_count (get_all_cities st))
  = List.length (get_all_pharmacies st)
  /\ Sorted (ordered by_city_name) (get_all_cities st)
  /\ (NoDup (map cr_id (st_cities st)) ->
      Permutation
        (get_all_cities st)
        (map (fun c =>
                mk_city_view
                  (cr_id c) (cr_name c) (cr_created_at c)
                  (List.length (filter (fun p => Z.eqb (pr_city_id p) (cr_id c))
                                       (st_pharmacies st))))
             (st_cities st))).
Proof.
  unfold get_all_cities, get_all_pharmacies. cbv zeta.
  set (rows := left_joined st).
  set (keys := nodup key_eq_dec (map (fun row => key_of (fst row)) rows)).
  pose proof (order_by_perm by_city_name (map (city_view_of rows) keys)) as Hperm.
  split; [|split].
  - rewrite (list_sum_perm _ _ (Permutation_map pharmacy_count Hperm)).
    rewrite map_map, length_map, (Permutation_length (order_by_perm _ _)).
    rewrite <- left_joined_length. fold rows.
    rewrite <- (count_by_group key_eq_dec (fun row => key_of (fst row))
                               with_pharmacy keys rows).
    + apply list_sum_ext. intros [[id name] created] _. reflexivity.
    + apply NoDup_nodup.
    + intros row Hrow. apply nodup_In.
      exact (in_map (fun row => key_of (fst row)) rows row Hrow).
  - apply order_by_sorted. intros a b. apply String.leb_total.
  - intros Hnd. rewrite Hperm.
    assert (Hkeys : Permutation keys (map key_of (st_cities st))).
    { apply NoDup_Permutation.
      - apply NoDup_nodup.
      - apply (NoDup_map_inv (fun k : group_key => fst (fst k))).
        rewrite map_map. exact Hnd.
      - intros k. unfold keys. rewrite nodup_In. apply left_joined_keys. }
    rewrite (Permutation_map (city_view_of rows) Hkeys), map_map.
    rewrite (map_ext_in _
               (fun c =>
                  mk_city_view
                    (cr_id c) (cr_name c) (cr_created_at c)
                    (List.length (filter (fun p => Z.eqb (pr_city_id p) (cr_id c))
                                         (st_pharmacies st))))); [reflexivity|].
    intros c Hc. unfold city_view_of, key_of at 1. f_equal.
    apply (count_of_city st c Hnd Hc).
Qed.

Lemma cities_count_pharmacies_witness :
  Permutation (get_all_cities sample_store)
              [mk_city_view 1%Z "Antananarivo" 1%Z 2; mk_city_view 2%Z "Toamasina" 1%Z 1].
Proof.
  apply (proj2 (proj2 (cities_count_pharmacies sample_store))).
  repeat constructor; cbn; intuition discriminate.
Defined.

(** X26. [/pharmacies] returns every pharmacy row joined to its city, once
    per joined row, sorted by city name and then by name, and never answers
    404.  A pharmacy is in its answer exactly when it is in the answer of
    [/pharmacies/city/<name>] for some name; the name of its own city is
    one. *)
Theorem all_pharmacies_by_city (st : store) :
  (exists rows,
      get_all_pharmacies st = map view_of rows
      /\ Permutation rows (joined st)
      /\ Sorted (ordered by_city_then_name) rows)
  /\ (forall v,
         In v (get_all_pharmacies st) <->
         exists city_name pharmacies,
           get_pharmacies_by_city city_name st = Some pharmacies
           /\ In v pharmacies)
  /\ (forall v,
         In v (get_all_pharmacies st) ->
         exists pharmacies,
           get_pharmacies_by_city (v_city_name v) st = Some pharmacies
           /\ In v pharmacies).
Proof.
  assert (Hall : forall v, In v (get_all_pharmacies st) <->
                           exists row, In row (joined st) /\ v = view_of row).
  { intros v. unfold get_all_pharmacies. rewrite in_map_iff. split.
    - intros (row & <- & Hrow). exists row. split; [|reflexivity].
      apply (Permutation_in _ (order_by_perm by_city_then_name (joined st))), Hrow.
    - intros (row & Hrow & ->). exists row. split; [reflexivity|].
      apply (Permutation_in
               _ (Permutation_sym (order_by_perm by_city_then_name (joined st)))),
        Hrow. }
  assert (Hown : forall v, In v (get_all_pharmacies st) ->
                           exists pharmacies,
                             get_pharmacies_by_city (v_city_name v) st = Some pharmacies
                             /\ In v pharmacies).
  { intros v Hv. apply Hall in Hv. destruct Hv as ([p c] & Hrow & ->).
    cbn [view_of v_city_name].
    assert (Hin : In (view_of (p, c))
                     (map view_of
                          (order_by by_name
                             (filter (fun row => String.eqb (lower (cr_name (snd row)))
                                                            (lower (cr_name c)))
                                     (joined st))))).
    { apply in_map.
      eapply Permutation_in; [apply Permutation_sym, order_by_perm|].
      apply filter_In. split; [exact Hrow|]. cbn [snd]. apply String.eqb_refl. }
    unfold get_pharmacies_by_city. cbv zeta.
    destruct (map view_of _) as [|v vs] eqn:E; [destruct Hin|].
    exists (v :: vs). split; [reflexivity | exact Hin]. }
  split; [|split].
  - exists (order_by by_city_then_name (joined st)). split; [reflexivity|].
    split; [apply order_by_perm|].
    apply order_by_sorted, by_city_then_name_total.
  - intros v. split.
    + intros Hv. destruct (Hown v Hv) as (l & Hl & Hin).
      exists (v_city_name v), l. split; assumption.
    + intros (city_name & l & Hl & Hin). apply by_city_rows in Hl. subst l.
      apply in_map_iff in Hin. destruct Hin as (row & <- & Hrow).
      eapply Permutation_in in Hrow; [|apply order_by_perm].
      apply filter_In in Hrow. apply Hall. exists row. split; [apply Hrow|reflexivity].
  - exact Hown.
Qed.

Lemma all_pharmacies_by_city_witness :
  exists pharmacies,
    get_pharmacies_by_city "Toamasina" sample_store = Some pharmacies
    /\ In (mk_view 8%Z "Pharmacie Rina" None [] None None 2%Z 2%Z 2%Z "Toamasina")
          pharmacies.
Proof.
  apply (proj2 (proj2 (all_pharmacies_by_city sample_store))
               (mk_view 8%Z "Pharmacie Rina" None [] None None 2%Z 2%Z 2%Z "Toamasina")).
  cbn. auto.
Defined.
